(** * AssetTokenization

    A shallow embedding of [contracts/token-managemnt.sol] (contract
    [AssetTokenization], Solidity ^0.8.20, lines 1-288) together with the
    parts of its three base contracts that its functions call.  The base
    contracts [ERC721], [AccessControl] and [ReentrancyGuard] are imported
    from the OpenZeppelin package (lines 4-6) and are not among the
    repository's sources; they are transcribed here from OpenZeppelin
    Contracts v5, the version whose [_update(to, tokenId, auth)] the
    contract overrides and whose custom errors the test-suite expects.
    The contract's name and symbol and its interface detection play no
    part below and are left out.

    - Contract storage is a record of finite maps; a Solidity [mapping]
      is a [gmap] read with the type's zero value as default.
    - A function is a state-and-error computation [M A]; a [revert]
      discards every write of the call.
    - An external call into the contract is a [Call]; the receiver hook
      [onERC721Received], the only place where the contract hands control
      to foreign code, carries the calls the receiver makes back into the
      contract, so a transaction is a tree of calls. *)

From Stdlib Require Import ZArith Lia.
From stdpp Require Import gmap strings list fin_maps.

Open Scope Z_scope.

(** ** Value types *)

(** [address] and [uint256] are integers; [address(0)] is [0]. *)
Abbreviation address := Z (only parsing).
Abbreviation uint256 := Z (only parsing).

Definition MAX_UINT256 : Z := 2 ^ 256 - 1.

(** [bytes32] role identifiers.  The three named roles are hashes of
    their names; only their being pairwise different and different from
    [DEFAULT_ADMIN_ROLE = 0x00] matters. *)
Inductive Role : Type :=
| DEFAULT_ADMIN_ROLE
| ADMIN_ROLE
| MINTER_ROLE
| COMPLIANCE_ROLE
| OTHER_ROLE (h : Z).

#[global] Instance Role_eq_dec : EqDecision Role.
Proof. solve_decision. Defined.

Definition Role_code (r : Role) : nat + Z :=
  match r with
  | DEFAULT_ADMIN_ROLE => inl 0%nat
  | ADMIN_ROLE => inl 1%nat
  | MINTER_ROLE => inl 2%nat
  | COMPLIANCE_ROLE => inl 3%nat
  | OTHER_ROLE h => inr h
  end.

Definition Role_decode (c : nat + Z) : Role :=
  match c with
  | inl 0%nat => DEFAULT_ADMIN_ROLE
  | inl 1%nat => ADMIN_ROLE
  | inl 2%nat => MINTER_ROLE
  | inl _ => COMPLIANCE_ROLE
  | inr h => OTHER_ROLE h
  end.

#[global] Instance Role_countable : Countable Role.
Proof.
  apply (inj_countable' Role_code Role_decode).
  intros []; reflexivity.
Defined.

(** [enum AssetStatus { Pending, Active, Frozen, Delisted }] *)
Inductive AssetStatus : Type := Pending | Active | Frozen | Delisted.

#[global] Instance AssetStatus_eq_dec : EqDecision AssetStatus.
Proof. solve_decision. Defined.

(** [struct AssetInfo] *)
Record AssetInfo : Type := mkAssetInfo {
  metadataURI : string;
  isCompliant : bool;
  status : AssetStatus;
  valuation : uint256;
  registrationDate : uint256;
  assetType : string
}.

(** The value an unwritten [assetDetails] slot reads as. *)
Definition AssetInfo_zero : AssetInfo :=
  mkAssetInfo "" false Pending 0 0 "".

(** Assignments to one field of a stored [AssetInfo]. *)
Definition with_isCompliant (b : bool) (i : AssetInfo) : AssetInfo :=
  mkAssetInfo (metadataURI i) b (status i) (valuation i)
    (registrationDate i) (assetType i).

Definition with_status (st : AssetStatus) (i : AssetInfo) : AssetInfo :=
  mkAssetInfo (metadataURI i) (isCompliant i) st (valuation i)
    (registrationDate i) (assetType i).

Definition with_valuation (v : uint256) (i : AssetInfo) : AssetInfo :=
  mkAssetInfo (metadataURI i) (isCompliant i) (status i) v
    (registrationDate i) (assetType i).

Definition with_metadataURI (uri : string) (i : AssetInfo) : AssetInfo :=
  mkAssetInfo uri (isCompliant i) (status i) (valuation i)
    (registrationDate i) (assetType i).

(** [struct TransferRecord]; the fields are [from], [to], [timestamp] and
    [price], prefixed here because [from] and [to] are also the names of
    most functions' arguments. *)
Record TransferRecord : Type := mkTransferRecord {
  tr_from : address;
  tr_to : address;
  tr_timestamp : uint256;
  tr_price : uint256
}.

(** ** Errors *)

(** What a call can revert with: a [require] message, a custom error of one
    of the base contracts, an arithmetic panic, or the empty revert of a
    call that matches no function (the contract has neither a fallback nor
    a receive function). *)
Inductive Error : Type :=
| Reason (msg : string)
| AccessControlUnauthorizedAccount (account : address) (neededRole : Role)
| AccessControlBadConfirmation
| ReentrancyGuardReentrantCall
| ERC721NonexistentToken (tokenId : uint256)
| ERC721IncorrectOwner (sender : address) (tokenId : uint256) (owner : address)
| ERC721InvalidSender (sender : address)
| ERC721InvalidReceiver (receiver : address)
| ERC721InsufficientApproval (operator : address) (tokenId : uint256)
| ERC721InvalidApprover (approver : address)
| ERC721InvalidOperator (operator : address)
| Panic (code : Z)
| UndefinedFunction.

(** ** Events *)

Inductive Event : Type :=
| Transfer (from to : address) (tokenId : uint256)
| Approval (owner approved : address) (tokenId : uint256)
| ApprovalForAll (owner operator : address) (approved : bool)
| RoleGranted (role : Role) (account sender : address)
| RoleRevoked (role : Role) (account sender : address)
| AssetRegistered (owner : address) (assetId : uint256)
    (assetType metadataURI : string) (valuation : uint256)
| AssetTransferred (from to : address) (assetId price : uint256)
| ComplianceUpdated (assetId : uint256) (isCompliant : bool)
| AssetStatusChanged (assetId : uint256) (newStatus : AssetStatus)
| MetadataUpdated (assetId : uint256) (newMetadataURI : string)
| UserVerified (user : address) (status : bool)
| ValuationUpdated (assetId newValuation : uint256).

(** ** Storage *)

(** [ReentrancyGuard]'s two values of [_status]. *)
Definition NOT_ENTERED : Z := 1.
Definition ENTERED : Z := 2.

(** The storage of [AssetTokenization] and of its base contracts, and the
    log of the events emitted so far (oldest first).  The log is rolled
    back with the storage when a call reverts. *)
Record State : Type := mkState {
  (* ERC721 *)
  _owners : gmap Z Z;
  _balances : gmap Z Z;
  _tokenApprovals : gmap Z Z;
  _operatorApprovals : gmap (Z * Z) bool;
  (* AccessControl: _roles[role].hasRole[account] *)
  _roles : gmap (Role * Z) bool;
  (* ReentrancyGuard *)
  _status : Z;
  (* AssetTokenization *)
  assetDetails : gmap Z AssetInfo;
  transferHistory : gmap Z (list TransferRecord);
  verifiedUsers : gmap Z bool;
  _nextTokenId : uint256;
  (* event log *)
  events : list Event
}.

(** Reading a mapping: an absent key reads as the zero value [d]. *)
Definition rd `{Countable K} {V : Type} (d : V) (m : gmap K V) (k : K) : V :=
  default d (m !! k).

(** Field updates. *)
Definition set_owners (f : gmap Z Z → gmap Z Z) (s : State) : State :=
  mkState (f (_owners s)) (_balances s) (_tokenApprovals s)
    (_operatorApprovals s) (_roles s) (_status s) (assetDetails s)
    (transferHistory s) (verifiedUsers s) (_nextTokenId s) (events s).

Definition set_balances (f : gmap Z Z → gmap Z Z) (s : State) : State :=
  mkState (_owners s) (f (_balances s)) (_tokenApprovals s)
    (_operatorApprovals s) (_roles s) (_status s) (assetDetails s)
    (transferHistory s) (verifiedUsers s) (_nextTokenId s) (events s).

Definition set_tokenApprovals (f : gmap Z Z → gmap Z Z) (s : State) : State :=
  mkState (_owners s) (_balances s) (f (_tokenApprovals s))
    (_operatorApprovals s) (_roles s) (_status s) (assetDetails s)
    (transferHistory s) (verifiedUsers s) (_nextTokenId s) (events s).

Definition set_operatorApprovals
    (f : gmap (Z * Z) bool → gmap (Z * Z) bool) (s : State) : State :=
  mkState (_owners s) (_balances s) (_tokenApprovals s)
    (f (_operatorApprovals s)) (_roles s) (_status s) (assetDetails s)
    (transferHistory s) (verifiedUsers s) (_nextTokenId s) (events s).

Definition set_roles
    (f : gmap (Role * Z) bool → gmap (Role * Z) bool) (s : State) : State :=
  mkState (_owners s) (_balances s) (_tokenApprovals s)
    (_operatorApprovals s) (f (_roles s)) (_status s) (assetDetails s)
    (transferHistory s) (verifiedUsers s) (_nextTokenId s) (events s).

Definition set_status (v : Z) (s : State) : State :=
  mkState (_owners s) (_balances s) (_tokenApprovals s)
    (_operatorApprovals s) (_roles s) v (assetDetails s)
    (transferHistory s) (verifiedUsers s) (_nextTokenId s) (events s).

Definition set_assetDetails
    (f : gmap Z AssetInfo → gmap Z AssetInfo) (s : State) : State :=
  mkState (_owners s) (_balances s) (_tokenApprovals s)
    (_operatorApprovals s) (_roles s) (_status s) (f (assetDetails s))
    (transferHistory s) (verifiedUsers s) (_nextTokenId s) (events s).

Definition set_transferHistory
    (f : gmap Z (list TransferRecord) → gmap Z (list TransferRecord))
    (s : State) : State :=
  mkState (_owners s) (_balances s) (_tokenApprovals s)
    (_operatorApprovals s) (_roles s) (_status s) (assetDetails s)
    (f (transferHistory s)) (verifiedUsers s) (_nextTokenId s) (events s).

Definition set_verifiedUsers
    (f : gmap Z bool → gmap Z bool) (s : State) : State :=
  mkState (_owners s) (_balances s) (_tokenApprovals s)
    (_operatorApprovals s) (_roles s) (_status s) (assetDetails s)
    (transferHistory s) (f (verifiedUsers s)) (_nextTokenId s) (events s).

Definition set_nextTokenId (v : Z) (s : State) : State :=
  mkState (_owners s) (_balances s) (_tokenApprovals s)
    (_operatorApprovals s) (_roles s) (_status s) (assetDetails s)
    (transferHistory s) (verifiedUsers s) v (events s).

Definition log_event (e : Event) (s : State) : State :=
  mkState (_owners s) (_balances s) (_tokenApprovals s)
    (_operatorApprovals s) (_roles s) (_status s) (assetDetails s)
    (transferHistory s) (verifiedUsers s) (_nextTokenId s) (events s ++ [e]).

(** ** The computation monad *)

Inductive Result (A : Type) : Type :=
| Ok (a : A)
| Revert (e : Error).
Arguments Ok {A} a.
Arguments Revert {A} e.

Definition M (A : Type) : Type := State → Result (A * State).

Definition ret {A : Type} (a : A) : M A := λ s, Ok (a, s).

Definition bind {A B : Type} (m : M A) (k : A → M B) : M B := λ s,
  match m s with
  | Ok (a, s') => k a s'
  | Revert e => Revert e
  end.

Declare Scope M_scope.
Delimit Scope M_scope with M.
Bind Scope M_scope with M.
Notation "x ← y ; z" := (bind y (λ x : _, z))
  (at level 20, y at level 100, z at level 200, only parsing) : M_scope.
Notation "x ;; z" := (bind x (λ _, z))
  (at level 100, z at level 200, only parsing, right associativity) : M_scope.
Open Scope M_scope.

Definition revert {A : Type} (e : Error) : M A := λ _, Revert e.

(** [require(cond, msg)] *)
Definition require (cond : bool) (msg : string) : M unit :=
  if cond then ret tt else revert (Reason msg).

(** A write to storage, and [emit]. *)
Definition write (f : State → State) : M unit := λ s, Ok (tt, f s).
Definition emit (e : Event) : M unit := write (log_event e).
(** A read of storage. *)
Definition read {A : Type} (f : State → A) : M A := λ s, Ok (f s, s).

(** ** Execution context *)

(** [msg.sender] and [block.timestamp] of the running call. *)
Record Env : Type := mkEnv {
  msg_sender : address;
  block_timestamp : uint256
}.

(** ** Base contract [AccessControl]

    OpenZeppelin's [access/AccessControl.sol]: [hasRole], the modifier
    [onlyRole], and granting, revoking and renouncing a role. *)

Module AccessControl.

Definition hasRole (role : Role) (account : address) (s : State) : bool :=
  rd false (_roles s) (role, account).

(** [_checkRole(role, account)]; [onlyRole(role)] is
    [_checkRole(role, _msgSender())] before the function body. *)
Definition _checkRole (role : Role) (account : address) : M unit :=
  has ← read (hasRole role account);
  if has then ret tt
  else revert (AccessControlUnauthorizedAccount account role).

Definition onlyRole (env : Env) (role : Role) : M unit :=
  _checkRole role (msg_sender env).

(** [_roles[role].adminRole]: the contract never calls [_setRoleAdmin],
    so every role is administered by [DEFAULT_ADMIN_ROLE]. *)
Definition getRoleAdmin (role : Role) : Role := DEFAULT_ADMIN_ROLE.

Definition _grantRole (env : Env) (role : Role) (account : address)
    : M bool :=
  has ← read (hasRole role account);
  if negb has then
    write (set_roles <[(role, account) := true]>);;
    emit (RoleGranted role account (msg_sender env));;
    ret true
  else ret false.

Definition _revokeRole (env : Env) (role : Role) (account : address)
    : M bool :=
  has ← read (hasRole role account);
  if has then
    write (set_roles <[(role, account) := false]>);;
    emit (RoleRevoked role account (msg_sender env));;
    ret true
  else ret false.

Definition grantRole (env : Env) (role : Role) (account : address)
    : M unit :=
  onlyRole env (getRoleAdmin role);;
  _grantRole env role account;;
  ret tt.

Definition revokeRole (env : Env) (role : Role) (account : address)
    : M unit :=
  onlyRole env (getRoleAdmin role);;
  _revokeRole env role account;;
  ret tt.

Definition renounceRole (env : Env) (role : Role)
    (callerConfirmation : address) : M unit :=
  if negb (callerConfirmation =? msg_sender env)
  then revert AccessControlBadConfirmation
  else _revokeRole env role callerConfirmation;; ret tt.

End AccessControl.

(** ** Base contract [ReentrancyGuard]

    OpenZeppelin's [utils/ReentrancyGuard.sol]: the latch [_status] and the
    modifier [nonReentrant], which [transferWithPrice] carries. *)

Module ReentrancyGuard.

Definition _nonReentrantBefore : M unit :=
  st ← read _status;
  if st =? ENTERED then revert ReentrancyGuardReentrantCall
  else write (set_status ENTERED).

Definition _nonReentrantAfter : M unit :=
  write (set_status NOT_ENTERED).

(** The modifier [nonReentrant] around a function body. *)
Definition nonReentrant {A : Type} (body : M A) : M A :=
  _nonReentrantBefore;;
  r ← body;
  _nonReentrantAfter;;
  ret r.

End ReentrancyGuard.

(** ** Base contract [ERC721]

    OpenZeppelin's [token/ERC721/ERC721.sol]: ownership, approvals, and the
    transfer functions, all of which change an owner through the virtual
    function [_update] that the contract overrides. *)

(** What the receiver hook [onERC721Received] of a recipient did, as
    [ERC721Utils.checkOnERC721Received] sees it. *)
Inductive Reply : Type :=
| NoCode                              (* [to.code.length == 0]: no call *)
| Returned (magic : bool)             (* returned the selector, or not *)
| Failed (reason : option Error).     (* reverted, with or without data *)

Module ERC721.

Definition _ownerOf (tokenId : uint256) (s : State) : address :=
  rd 0 (_owners s) tokenId.

Definition _getApproved (tokenId : uint256) (s : State) : address :=
  rd 0 (_tokenApprovals s) tokenId.

Definition isApprovedForAll (owner operator : address) (s : State) : bool :=
  rd false (_operatorApprovals s) (owner, operator).

Definition _isAuthorized (owner spender : address) (tokenId : uint256)
    (s : State) : bool :=
  negb (spender =? 0) &&
  ((owner =? spender) || isApprovedForAll owner spender s
   || (_getApproved tokenId s =? spender)).

Definition _checkAuthorized (owner spender : address) (tokenId : uint256)
    : M unit :=
  ok ← read (_isAuthorized owner spender tokenId);
  if negb ok then
    if owner =? 0 then revert (ERC721NonexistentToken tokenId)
    else revert (ERC721InsufficientApproval spender tokenId)
  else ret tt.

Definition _requireOwned (tokenId : uint256) : M address :=
  owner ← read (_ownerOf tokenId);
  if owner =? 0 then revert (ERC721NonexistentToken tokenId)
  else ret owner.

Definition ownerOf (tokenId : uint256) : M address := _requireOwned tokenId.

(** [unchecked] arithmetic on a balance. *)
Definition wrap (x : Z) : Z := x mod 2 ^ 256.

(** [ERC721._update]: the base implementation, reached through
    [super._update] from the contract's override. *)
Definition _update (to : address) (tokenId : uint256) (auth : address)
    : M address :=
  from ← read (_ownerOf tokenId);
  (if negb (auth =? 0) then _checkAuthorized from auth tokenId
   else ret tt);;
  (if negb (from =? 0) then
     (* _approve(address(0), tokenId, address(0), false) *)
     write (set_tokenApprovals <[tokenId := 0]>);;
     write (set_balances
              (λ b, <[from := wrap (rd 0 b from - 1)]> b))
   else ret tt);;
  (if negb (to =? 0) then
     write (set_balances (λ b, <[to := wrap (rd 0 b to + 1)]> b))
   else ret tt);;
  write (set_owners <[tokenId := to]>);;
  emit (Transfer from to tokenId);;
  ret from.

(** [_approve(to, tokenId, auth, emitEvent)] *)
Definition _approve (to : address) (tokenId : uint256) (auth : address)
    (emitEvent : bool) : M unit :=
  (if emitEvent || negb (auth =? 0) then
     owner ← _requireOwned tokenId;
     approvedForAll ← read (isApprovedForAll owner auth);
     (if negb (auth =? 0) && negb (owner =? auth) && negb approvedForAll
      then revert (ERC721InvalidApprover auth) else ret tt);;
     if emitEvent then emit (Approval owner to tokenId) else ret tt
   else ret tt);;
  write (set_tokenApprovals <[tokenId := to]>).

Definition approve (env : Env) (to : address) (tokenId : uint256)
    : M unit :=
  _approve to tokenId (msg_sender env) true.

Definition _setApprovalForAll (owner operator : address) (approved : bool)
    : M unit :=
  if operator =? 0 then revert (ERC721InvalidOperator operator)
  else
    write (set_operatorApprovals <[(owner, operator) := approved]>);;
    emit (ApprovalForAll owner operator approved).

Definition setApprovalForAll (env : Env) (operator : address)
    (approved : bool) : M unit :=
  _setApprovalForAll (msg_sender env) operator approved.

(** [ERC721Utils.checkOnERC721Received(operator, from, to, tokenId, data)]:
    [receiver] is the call of [to]'s hook, yielding what it replied. *)
Definition checkOnERC721Received (receiver : M Reply) (to : address)
    : M unit :=
  reply ← receiver;
  match reply with
  | NoCode => ret tt
  | Returned magic =>
      if negb magic then revert (ERC721InvalidReceiver to) else ret tt
  | Failed None => revert (ERC721InvalidReceiver to)
  | Failed (Some reason) => revert reason
  end.

(** The functions below call [_update] through virtual dispatch, so they
    run the override of the most derived contract. *)
Section Virtual.
Variable _update_virtual : address → uint256 → address → M address.

Definition _mint (to : address) (tokenId : uint256) : M unit :=
  if to =? 0 then revert (ERC721InvalidReceiver 0)
  else
    previousOwner ← _update_virtual to tokenId 0;
    if negb (previousOwner =? 0) then revert (ERC721InvalidSender 0)
    else ret tt.

Definition _safeMint (receiver : M Reply) (to : address)
    (tokenId : uint256) : M unit :=
  _mint to tokenId;;
  checkOnERC721Received receiver to.

Definition _transfer (from to : address) (tokenId : uint256) : M unit :=
  if to =? 0 then revert (ERC721InvalidReceiver 0)
  else
    previousOwner ← _update_virtual to tokenId 0;
    if previousOwner =? 0 then revert (ERC721NonexistentToken tokenId)
    else if negb (previousOwner =? from)
    then revert (ERC721IncorrectOwner from tokenId previousOwner)
    else ret tt.

Definition transferFrom (env : Env) (from to : address)
    (tokenId : uint256) : M unit :=
  if to =? 0 then revert (ERC721InvalidReceiver 0)
  else
    previousOwner ← _update_virtual to tokenId (msg_sender env);
    if negb (previousOwner =? from)
    then revert (ERC721IncorrectOwner from tokenId previousOwner)
    else ret tt.

Definition safeTransferFrom (env : Env) (receiver : M Reply)
    (from to : address) (tokenId : uint256) : M unit :=
  transferFrom env from to tokenId;;
  checkOnERC721Received receiver to.
End Virtual.

End ERC721.

(** ** Contract [AssetTokenization] *)

Import AccessControl ReentrancyGuard.

(** [_nextTokenId++] in checked arithmetic: the old value, or [Panic(0x11)]
    on overflow. *)
Definition _nextTokenId_postincrement : M uint256 :=
  n ← read _nextTokenId;
  if n =? MAX_UINT256 then revert (Panic 17)
  else write (set_nextTokenId (n + 1));; ret n.

(** [transferHistory[tokenId].push(r)] *)
Definition push_record (tokenId : uint256) (r : TransferRecord) : M unit :=
  write (set_transferHistory
           (λ h, <[tokenId := rd [] h tokenId ++ [r]]> h)).

(** [_update(to, tokenId, auth)]: the override, lines 169-196. *)
Definition _update (env : Env) (to : address) (tokenId : uint256)
    (auth : address) : M address :=
  from ← read (ERC721._ownerOf tokenId);
  (* Skip checks on minting *)
  (if negb (from =? 0) then
     info ← read (λ s, rd AssetInfo_zero (assetDetails s) tokenId);
     require (isCompliant info) "Asset not compliant";;
     require (bool_decide (status info = Active)) "Asset not active";;
     verified ← read (λ s, rd false (verifiedUsers s) to);
     require verified "Recipient not verified";;
     (* Record transfer with zero price (for standard transfers) *)
     history ← read (λ s, rd [] (transferHistory s) tokenId);
     if match last history with
        | None => true                          (* length == 0 *)
        | Some r => negb (tr_to r =? to)        (* [length - 1].to != to *)
        end
     then push_record tokenId
            (mkTransferRecord from to (block_timestamp env) 0)
     else ret tt
   else ret tt);;
  ERC721._update to tokenId auth.

Definition _transfer (env : Env) := ERC721._transfer (_update env).
Definition _safeMint (env : Env) := ERC721._safeMint (_update env).
Definition transferFrom (env : Env) := ERC721.transferFrom (_update env) env.
Definition safeTransferFrom (env : Env) :=
  ERC721.safeTransferFrom (_update env) env.

(** [constructor]: the base constructor of [ReentrancyGuard] sets
    [_status]; the body grants the deployer every role and verifies it. *)
Definition constructor (env : Env) : M unit :=
  write (set_status NOT_ENTERED);;
  _grantRole env DEFAULT_ADMIN_ROLE (msg_sender env);;
  _grantRole env ADMIN_ROLE (msg_sender env);;
  _grantRole env MINTER_ROLE (msg_sender env);;
  _grantRole env COMPLIANCE_ROLE (msg_sender env);;
  (* Admin is automatically verified *)
  write (set_verifiedUsers <[msg_sender env := true]>).

(** [registerAsset(to, metadataURI, assetType, valuation)], lines 73-95. *)
Definition registerAsset (env : Env) (receiver : M Reply) (to : address)
    (metadataURI assetType : string) (valuation : uint256) : M uint256 :=
  onlyRole env MINTER_ROLE;;
  verified ← read (λ s, rd false (verifiedUsers s) to);
  require verified "Recipient not verified";;
  assetId ← _nextTokenId_postincrement;
  _safeMint env receiver to assetId;;
  write (set_assetDetails
           <[assetId := mkAssetInfo metadataURI false Pending valuation
                          (block_timestamp env) assetType]>);;
  emit (AssetRegistered to assetId assetType metadataURI valuation);;
  ret assetId.

Definition setUserVerification (env : Env) (user : address) (status : bool)
    : M unit :=
  onlyRole env COMPLIANCE_ROLE;;
  write (set_verifiedUsers <[user := status]>);;
  emit (UserVerified user status).

(** The loop of [batchVerifyUsers], over the remaining [users]. *)
Fixpoint batchVerifyUsers_loop (users : list address) (status : bool)
    : M unit :=
  match users with
  | [] => ret tt
  | user :: rest =>
      write (set_verifiedUsers <[user := status]>);;
      emit (UserVerified user status);;
      batchVerifyUsers_loop rest status
  end.

(** [batchVerifyUsers(users, status)], lines 107-115. *)
Definition batchVerifyUsers (env : Env) (users : list address)
    (status : bool) : M unit :=
  onlyRole env COMPLIANCE_ROLE;;
  batchVerifyUsers_loop users status.

(** [require(_ownerOf(assetId) != address(0), "Asset does not exist")] *)
Definition require_exists (assetId : uint256) : M unit :=
  owner ← read (ERC721._ownerOf assetId);
  require (negb (owner =? 0)) "Asset does not exist".

Definition update_details (assetId : uint256) (f : AssetInfo → AssetInfo)
    : M unit :=
  write (set_assetDetails
           (λ d, <[assetId := f (rd AssetInfo_zero d assetId)]> d)).

Definition setCompliance (env : Env) (assetId : uint256) (status : bool)
    : M unit :=
  onlyRole env COMPLIANCE_ROLE;;
  require_exists assetId;;
  update_details assetId (with_isCompliant status);;
  emit (ComplianceUpdated assetId status).

Definition setAssetStatus (env : Env) (assetId : uint256)
    (newStatus : AssetStatus) : M unit :=
  onlyRole env ADMIN_ROLE;;
  require_exists assetId;;
  update_details assetId (with_status newStatus);;
  emit (AssetStatusChanged assetId newStatus).

Definition updateValuation (env : Env) (assetId newValuation : uint256)
    : M unit :=
  onlyRole env ADMIN_ROLE;;
  require_exists assetId;;
  update_details assetId (with_valuation newValuation);;
  emit (ValuationUpdated assetId newValuation).

(** The body of [transferWithPrice], inside [nonReentrant]. *)
Definition transferWithPrice_body (env : Env) (from to : address)
    (assetId price : uint256) : M unit :=
  owner ← read (ERC721._ownerOf assetId);
  authorized ← read (ERC721._isAuthorized owner (msg_sender env) assetId);
  require authorized "Not authorized";;
  verified ← read (λ s, rd false (verifiedUsers s) to);
  require verified "Recipient not verified";;
  push_record assetId
    (mkTransferRecord from to (block_timestamp env) price);;
  _transfer env from to assetId;;
  emit (AssetTransferred from to assetId price).

(** [transferWithPrice(from, to, assetId, price)], lines 148-166. *)
Definition transferWithPrice (env : Env) (from to : address)
    (assetId price : uint256) : M unit :=
  nonReentrant (transferWithPrice_body env from to assetId price).

Definition updateMetadata (env : Env) (assetId : uint256)
    (newMetadataURI : string) : M unit :=
  onlyRole env ADMIN_ROLE;;
  require_exists assetId;;
  update_details assetId (with_metadataURI newMetadataURI);;
  emit (MetadataUpdated assetId newMetadataURI).

(** [getAssetInfo(assetId)], lines 209-233: the six fields and the owner. *)
Definition getAssetInfo (assetId : uint256)
    : M (string * bool * AssetStatus * uint256 * uint256 * string * address) :=
  require_exists assetId;;
  info ← read (λ s, rd AssetInfo_zero (assetDetails s) assetId);
  owner ← read (ERC721._ownerOf assetId);
  ret (metadataURI info, isCompliant info, status info, valuation info,
        registrationDate info, assetType info, owner).

Definition getTransferHistory (assetId : uint256) : M (list TransferRecord) :=
  require_exists assetId;;
  read (λ s, rd [] (transferHistory s) assetId).

Definition tokenURI (assetId : uint256) : M string :=
  require_exists assetId;;
  read (λ s, metadataURI (rd AssetInfo_zero (assetDetails s) assetId)).

(** ** Calls and transactions *)

(** A [Call] is a call of one of the contract's state-changing external
    functions, or of a function the contract does not have.  A [Hook] is
    what happens when such a function reaches the receiver hook: a
    recipient without code is not called ([hook_none]); a recipient
    contract returns the selector or another value ([hook_return]) or
    fails ([hook_fail]), after it has made any number of calls back into
    this contract ([hook_call]), as itself or through other contracts,
    hence the [sender].  A failed nested call is caught and undone.
    [msg.sender] is never [address(0)], hence [positive]. *)
Inductive Call : Type :=
| call_registerAsset (to : address) (metadataURI assetType : string)
    (valuation : uint256) (h : Hook)
| call_setUserVerification (user : address) (status : bool)
| call_batchVerifyUsers (users : list address) (status : bool)
| call_setCompliance (assetId : uint256) (status : bool)
| call_setAssetStatus (assetId : uint256) (newStatus : AssetStatus)
| call_updateValuation (assetId newValuation : uint256)
| call_updateMetadata (assetId : uint256) (newMetadataURI : string)
| call_transferWithPrice (from to : address) (assetId price : uint256)
| call_transferFrom (from to : address) (tokenId : uint256)
| call_safeTransferFrom (from to : address) (tokenId : uint256) (h : Hook)
| call_approve (to : address) (tokenId : uint256)
| call_setApprovalForAll (operator : address) (approved : bool)
| call_grantRole (role : Role) (account : address)
| call_revokeRole (role : Role) (account : address)
| call_renounceRole (role : Role) (callerConfirmation : address)
| call_undefined (signature : string)
with Hook : Type :=
| hook_none
| hook_return (magic : bool)
| hook_fail (reason : option Error)
| hook_call (sender : positive) (c : Call) (rest : Hook).

Scheme Call_mut := Induction for Call Sort Prop
  with Hook_mut := Induction for Hook Sort Prop.

(** An external call whose failure the caller catches: a revert undoes
    the writes of the call only. *)
Definition attempt {A : Type} (m : M A) : M unit := λ s,
  match m s with
  | Ok (_, s') => Ok (tt, s')
  | Revert _ => Ok (tt, s)
  end.

Definition void {A : Type} (m : M A) : M (option uint256) :=
  m;; ret None.

(** The dispatch of a call, given what running its hook does. *)
Definition dispatch (env : Env) (receiver : M Reply) (c : Call)
    : M (option uint256) :=
  match c with
  | call_registerAsset to uri ty v _ =>
      assetId ← registerAsset env receiver to uri ty v; ret (Some assetId)
  | call_setUserVerification user st => void (setUserVerification env user st)
  | call_batchVerifyUsers users st => void (batchVerifyUsers env users st)
  | call_setCompliance assetId st => void (setCompliance env assetId st)
  | call_setAssetStatus assetId st => void (setAssetStatus env assetId st)
  | call_updateValuation assetId v => void (updateValuation env assetId v)
  | call_updateMetadata assetId uri => void (updateMetadata env assetId uri)
  | call_transferWithPrice from to assetId price =>
      void (transferWithPrice env from to assetId price)
  | call_transferFrom from to tokenId => void (transferFrom env from to tokenId)
  | call_safeTransferFrom from to tokenId _ =>
      void (safeTransferFrom env receiver from to tokenId)
  | call_approve to tokenId => void (ERC721.approve env to tokenId)
  | call_setApprovalForAll operator approved =>
      void (ERC721.setApprovalForAll env operator approved)
  | call_grantRole role account => void (grantRole env role account)
  | call_revokeRole role account => void (revokeRole env role account)
  | call_renounceRole role confirmation =>
      void (renounceRole env role confirmation)
  | call_undefined _ => revert UndefinedFunction
  end.

(** Running a call, and running a hook: the nested calls in order, then
    the reply.  All calls of one transaction see the same timestamp. *)
Fixpoint exec (now : uint256) (sender : positive) (c : Call) {struct c}
    : M (option uint256) :=
  let env := mkEnv (Z.pos sender) now in
  match c with
  | call_registerAsset _ _ _ _ h => dispatch env (run_hook now h) c
  | call_safeTransferFrom _ _ _ h => dispatch env (run_hook now h) c
  | _ => dispatch env (ret NoCode) c
  end
with run_hook (now : uint256) (h : Hook) {struct h} : M Reply :=
  match h with
  | hook_none => ret NoCode
  | hook_return magic => ret (Returned magic)
  | hook_fail reason => ret (Failed reason)
  | hook_call sender c rest =>
      attempt (exec now sender c);; run_hook now rest
  end.

(** A transaction: a top-level call.  A reverted transaction leaves the
    state as it was. *)
Record Tx : Type := mkTx {
  tx_timestamp : uint256;
  tx_sender : positive;
  tx_call : Call
}.

Definition commit {A : Type} (s : State) (r : Result (A * State)) : State :=
  match r with
  | Ok (_, s') => s'
  | Revert _ => s
  end.

Definition run_tx (s : State) (tx : Tx) : State :=
  commit s (exec (tx_timestamp tx) (tx_sender tx) (tx_call tx) s).

Definition run_txs (s : State) (txs : list Tx) : State :=
  fold_left run_tx txs s.

(** Deployment: the constructor on zeroed storage. *)
Definition storage_zero : State := mkState ∅ ∅ ∅ ∅ ∅ 0 ∅ ∅ ∅ 0 [].

Definition deploy (now : uint256) (deployer : positive) : State :=
  commit storage_zero (constructor (mkEnv (Z.pos deployer) now) storage_zero).

(** The states the contract can be in. *)
Definition reachable (s : State) : Prop :=
  ∃ now deployer txs, s = run_txs (deploy now deployer) txs.

(** Public getters. *)
Definition isVerified (s : State) (account : address) : bool :=
  rd false (verifiedUsers s) account.

Definition history (s : State) (assetId : uint256) : list TransferRecord :=
  rd [] (transferHistory s) assetId.

Definition details (s : State) (assetId : uint256) : AssetInfo :=
  rd AssetInfo_zero (assetDetails s) assetId.

Definition owner_of (s : State) (assetId : uint256) : address :=
  ERC721._ownerOf assetId s.

(** Whether the gate appends its zero-price record: the history is empty
    or its last record names another recipient (line 184). *)
Definition gate_records (s : State) (to : address) (tokenId : uint256)
    : bool :=
  match last (history s tokenId) with
  | None => true
  | Some r => negb (tr_to r =? to)
  end.

(** The history after the gate ran on an existing asset. *)
Definition gate_history (now : uint256) (s : State) (to : address)
    (tokenId : uint256) : gmap Z (list TransferRecord) :=
  if gate_records s to tokenId
  then <[tokenId := history s tokenId ++
           [mkTransferRecord (owner_of s tokenId) to now 0]]>
         (transferHistory s)
  else transferHistory s.


(** The error kinds of the specification, as the contract raises them. *)
Definition RecipientNotVerified : Error := Reason "Recipient not verified".
Definition AssetNotFound : Error := Reason "Asset does not exist".
Definition AssetNotCompliant : Error := Reason "Asset not compliant".
Definition AssetNotActive : Error := Reason "Asset not active".
Definition NotAuthorized : Error := Reason "Not authorized".

(** ** Fixtures *)

(** The accounts of the test-suite and its usual set-up: two verified
    users, one asset registered to [user1], then made compliant and
    Active. *)
Definition deployer : positive := 1.
Definition user1 : positive := 2.
Definition user2 : positive := 3.
Definition user3 : positive := 4.

Definition fixture_deployed : State := deploy 1000 deployer.

Definition fixture_registered : State :=
  run_txs fixture_deployed
    [ mkTx 1001 deployer (call_setUserVerification (Z.pos user1) true);
      mkTx 1002 deployer (call_setUserVerification (Z.pos user2) true);
      mkTx 1003 deployer
        (call_registerAsset (Z.pos user1) "ipfs://test" "property" 100
           hook_none) ].

Definition fixture_active : State :=
  run_txs fixture_registered
    [ mkTx 1004 deployer (call_setCompliance 0 true);
      mkTx 1005 deployer (call_setAssetStatus 0 Active) ].

(** ** Vocabulary of the claims *)

(** [c] is an attempt to transfer the asset [assetId]: a plain transfer
    ([transferFrom], [safeTransferFrom]) or a price-tracked one. *)
Definition transfers (c : Call) (assetId : uint256) : Prop :=
  match c with
  | call_transferFrom _ _ tokenId => tokenId = assetId
  | call_safeTransferFrom _ _ tokenId _ => tokenId = assetId
  | call_transferWithPrice _ _ tokenId _ => tokenId = assetId
  | _ => False
  end.

(** [c] hands an asset to [to]: a registration to [to], or a transfer to
    [to] (for a plain transfer, of an asset that exists). *)
Definition delivers_to (s : State) (c : Call) (to : address) : Prop :=
  match c with
  | call_registerAsset recipient _ _ _ _ => recipient = to
  | call_transferWithPrice _ recipient _ _ => recipient = to
  | call_transferFrom _ recipient tokenId =>
      recipient = to ∧ owner_of s tokenId ≠ 0
  | call_safeTransferFrom _ recipient tokenId _ =>
      recipient = to ∧ owner_of s tokenId ≠ 0
  | _ => False
  end.

(** The checks that [c] makes before it looks at the recipient's
    verification pass: the caller's role for a registration; the latch and
    the caller's authorization for a price-tracked transfer; a non-zero
    recipient and the asset's compliance and status for a plain one. *)
Definition earlier_checks_pass (s : State) (sender : address) (c : Call)
    : Prop :=
  match c with
  | call_registerAsset _ _ _ _ _ => hasRole MINTER_ROLE sender s = true
  | call_transferWithPrice _ _ assetId _ =>
      _status s ≠ ENTERED
      ∧ ERC721._isAuthorized (owner_of s assetId) sender assetId s = true
  | call_transferFrom _ to tokenId | call_safeTransferFrom _ to tokenId _ =>
      to ≠ 0
      ∧ isCompliant (details s tokenId) = true
      ∧ status (details s tokenId) = Active
  | _ => False
  end.

(** The fixture after a plain transfer of asset 0 from [user1] to [user2]. *)
Definition fixture_transferred : State :=
  run_tx fixture_active
    (mkTx 2000 user1 (call_transferFrom (Z.pos user1) (Z.pos user2) 0)).

(** A batch of 101 distinct accounts. *)
Definition batch_101 : list address := map Z.of_nat (seq 100 101).

(** The identifiers assigned so far, oldest first.  A registration assigns
    its identifier when it mints, which [ERC721._update] logs as
    [Transfer(address(0), to, assetId)]. *)
Fixpoint minted (log : list Event) : list uint256 :=
  match log with
  | [] => []
  | Transfer from _ tokenId :: rest =>
      if from =? 0 then tokenId :: minted rest else minted rest
  | _ :: rest => minted rest
  end.

Definition assigned_ids (s : State) : list uint256 := minted (events s).

(** The identifiers [0, 1, ..., n - 1]. *)
Definition first_ids (n : Z) : list uint256 :=
  map Z.of_nat (seq 0 (Z.to_nat n)).

(** What holds of the storage at every moment of a run: the assets that
    exist are those below the counter, they were assigned in order, and
    nothing is approved on behalf of [address(0)] or for an asset that does
    not exist. *)
Record sound (s : State) : Prop := mkSound {
  next_nonneg : 0 ≤ _nextTokenId s;
  owned_below_next : ∀ id, owner_of s id ≠ 0 → 0 ≤ id < _nextTokenId s;
  assigned_in_order : assigned_ids s = first_ids (_nextTokenId s);
  zero_approves_nobody :
    ∀ operator, ERC721.isApprovedForAll 0 operator s = false;
  unowned_unapproved :
    ∀ id, owner_of s id = 0 → ERC721._getApproved id s = 0
}.

(** What holds between calls: in addition, no guarded call is in
    progress. *)
Definition consistent (s : State) : Prop :=
  sound s ∧ _status s = NOT_ENTERED.

(** From one consistent state to the next: consistency is kept and the
    counter does not go back. *)
Definition advances (s s' : State) : Prop :=
  consistent s → consistent s' ∧ _nextTokenId s ≤ _nextTokenId s'.

(** What holds of the histories between calls: an asset that does not
    exist has no history, and the last record of a history names the
    current owner as its recipient. *)
Record tracked (s : State) : Prop := mkTracked {
  unowned_unrecorded : ∀ id, owner_of s id = 0 → history s id = [];
  last_names_owner :
    ∀ id r, last (history s id) = Some r → tr_to r = owner_of s id
}.

(** From one consistent, tracked state to the next. *)
Definition tracks (s s' : State) : Prop :=
  advances s s' ∧ (consistent s → tracked s → tracked s').

(** ** Outcomes of the entry points *)

(** What a call answers: the value it returns, or the error it reverts
    with. *)
Definition answer {A : Type} (m : M A) (s : State) : Result A :=
  match m s with
  | Ok (a, _) => Ok a
  | Revert e => Revert e
  end.

(** The tuple that [getAssetInfo] returns for the details [i] and the
    owner [o]. *)
Definition info_tuple (i : AssetInfo) (o : address)
    : string * bool * AssetStatus * uint256 * uint256 * string * address :=
  (metadataURI i, isCompliant i, status i, valuation i, registrationDate i,
   assetType i, o).

(** The reply that a hook ends with, after the calls it makes. *)
Fixpoint final_reply (h : Hook) : Reply :=
  match h with
  | hook_none => NoCode
  | hook_return magic => Returned magic
  | hook_fail reason => Failed reason
  | hook_call _ _ rest => final_reply rest
  end.

(** The error with which [checkOnERC721Received] turns down a reply. *)
Definition reply_refusal (to : address) (reply : Reply) : option Error :=
  match reply with
  | NoCode | Returned true => None
  | Returned false | Failed None => Some (ERC721InvalidReceiver to)
  | Failed (Some reason) => Some reason
  end.

(** The checks of [transferWithPrice] in the order in which a call meets
    them (the modifier, the two requirements of the body, [_transfer], the
    gate in [_update], and [_transfer] again), and the error of the first
    one that fails. *)
Definition transferWithPrice_refusal (s : State) (sender from to : address)
    (assetId : uint256) : option Error :=
  if _status s =? ENTERED then Some ReentrancyGuardReentrantCall
  else if negb (ERC721._isAuthorized (owner_of s assetId) sender assetId s)
  then Some NotAuthorized
  else if negb (isVerified s to) then Some RecipientNotVerified
  else if to =? 0 then Some (ERC721InvalidReceiver 0)
  else if negb (isCompliant (details s assetId)) then Some AssetNotCompliant
  else if negb (bool_decide (status (details s assetId) = Active))
  then Some AssetNotActive
  else if negb (owner_of s assetId =? from)
  then Some (ERC721IncorrectOwner from assetId (owner_of s assetId))
  else None.

(** The same for [transferFrom]: the function itself, the gate in
    [_update], [ERC721._update], and the function again. *)
Definition transferFrom_refusal (s : State) (sender from to : address)
    (tokenId : uint256) : option Error :=
  if to =? 0 then Some (ERC721InvalidReceiver 0)
  else if owner_of s tokenId =? 0 then Some (ERC721NonexistentToken tokenId)
  else if negb (isCompliant (details s tokenId)) then Some AssetNotCompliant
  else if negb (bool_decide (status (details s tokenId) = Active))
  then Some AssetNotActive
  else if negb (isVerified s to) then Some RecipientNotVerified
  else if negb (ERC721._isAuthorized (owner_of s tokenId) sender tokenId s)
  then Some (ERC721InsufficientApproval sender tokenId)
  else if negb (owner_of s tokenId =? from)
  then Some (ERC721IncorrectOwner from tokenId (owner_of s tokenId))
  else None.

(** The same for [safeTransferFrom], which then asks the recipient. *)
Definition safeTransferFrom_refusal (s : State) (sender from to : address)
    (tokenId : uint256) (reply : Reply) : option Error :=
  match transferFrom_refusal s sender from to tokenId with
  | Some e => Some e
  | None => reply_refusal to reply
  end.

(** The same for [registerAsset]: the modifier, the body, the counter,
    [_mint], and the recipient's reply. *)
Definition registerAsset_refusal (s : State) (sender to : address)
    (reply : Reply) : option Error :=
  if negb (hasRole MINTER_ROLE sender s)
  then Some (AccessControlUnauthorizedAccount sender MINTER_ROLE)
  else if negb (isVerified s to) then Some RecipientNotVerified
  else if _nextTokenId s =? MAX_UINT256 then Some (Panic 17)
  else if to =? 0 then Some (ERC721InvalidReceiver 0)
  else reply_refusal to reply.

(** ** Roles and callers *)

(** The role that the modifier [onlyRole] of a function asks of its
    caller. *)
Definition required_role (c : Call) : option Role :=
  match c with
  | call_registerAsset _ _ _ _ _ => Some MINTER_ROLE
  | call_setUserVerification _ _ => Some COMPLIANCE_ROLE
  | call_batchVerifyUsers _ _ => Some COMPLIANCE_ROLE
  | call_setCompliance _ _ => Some COMPLIANCE_ROLE
  | call_setAssetStatus _ _ => Some ADMIN_ROLE
  | call_updateValuation _ _ => Some ADMIN_ROLE
  | call_updateMetadata _ _ => Some ADMIN_ROLE
  | call_grantRole role _ => Some (getRoleAdmin role)
  | call_revokeRole role _ => Some (getRoleAdmin role)
  | _ => None
  end.

(** The accounts that make the calls nested in a call. *)
Fixpoint callers (c : Call) : list positive :=
  match c with
  | call_registerAsset _ _ _ _ h => hook_callers h
  | call_safeTransferFrom _ _ _ h => hook_callers h
  | _ => []
  end
with hook_callers (h : Hook) : list positive :=
  match h with
  | hook_call sender c rest => sender :: callers c ++ hook_callers rest
  | _ => []
  end.

Definition holds_no_role (s : State) (account : address) : Prop :=
  ∀ role, hasRole role account s = false.

(** The storage that only holders of a role write: the details of the
    assets, the verification flags, the roles and the counter. *)
Definition same_registry (s s' : State) : Prop :=
  assetDetails s' = assetDetails s
  ∧ verifiedUsers s' = verifiedUsers s
  ∧ _roles s' = _roles s
  ∧ _nextTokenId s' = _nextTokenId s.

(** The four functions that assign one field of an asset's details: the
    asset and the assignment. *)
Definition assigns (c : Call) : option (uint256 * (AssetInfo → AssetInfo)) :=
  match c with
  | call_setCompliance assetId st => Some (assetId, with_isCompliant st)
  | call_setAssetStatus assetId st => Some (assetId, with_status st)
  | call_updateValuation assetId v => Some (assetId, with_valuation v)
  | call_updateMetadata assetId uri => Some (assetId, with_metadataURI uri)
  | _ => None
  end.

(** [c], or a call nested in it, is a transfer of the asset [assetId]. *)
Fixpoint moves (c : Call) (assetId : uint256) : Prop :=
  match c with
  | call_transferFrom _ _ tokenId => tokenId = assetId
  | call_transferWithPrice _ _ tokenId _ => tokenId = assetId
  | call_safeTransferFrom _ _ tokenId h =>
      tokenId = assetId ∨ hook_moves h assetId
  | call_registerAsset _ _ _ _ h => hook_moves h assetId
  | _ => False
  end
with hook_moves (h : Hook) (assetId : uint256) : Prop :=
  match h with
  | hook_call _ c rest => moves c assetId ∨ hook_moves rest assetId
  | _ => False
  end.

(** ** What stays *)

(** From one state to a later one: a history keeps its records, and an
    asset keeps existing, with the date and the type it was registered
    with. *)
Record extends (s s' : State) : Prop := mkExtends {
  history_kept : ∀ id, history s id `prefix_of` history s' id;
  asset_kept :
    ∀ id, owner_of s id ≠ 0 →
      owner_of s' id ≠ 0
      ∧ registrationDate (details s' id) = registrationDate (details s id)
      ∧ assetType (details s' id) = assetType (details s id)
}.

(** ** Enumeration of an owner's assets *)

(** What [getAssetsByOwner] can fail with: the custom error of
    [ERC721.balanceOf], or the panic of a write past the end of an array,
    [Panic(0x32)]. *)
Inductive EnumError : Type :=
| ERC721InvalidOwner (owner : address)
| ArrayOutOfBounds.

(** [ERC721.balanceOf(owner)], from OpenZeppelin's [ERC721.sol]. *)
Definition balanceOf (owner : address) (s : State) : EnumError + uint256 :=
  if owner =? 0 then inl (ERC721InvalidOwner 0)
  else inr (rd 0 (_balances s) owner).

(** The loop of [getAssetsByOwner], lines 255-261, over the values [ids]
    that [i] has still to take. *)
Fixpoint getAssetsByOwner_loop (s : State) (owner : address)
    (balance : uint256) (ids : list uint256) (index : uint256)
    (ownedAssets : list uint256) : EnumError + list uint256 :=
  match ids with
  | [] => inr ownedAssets
  | i :: rest =>
      if ERC721._ownerOf i s =? owner then
        (* ownedAssets[index] = i *)
        if index <? Z.of_nat (length ownedAssets) then
          let ownedAssets := <[Z.to_nat index := i]> ownedAssets in
          let index := index + 1 in
          if index =? balance then inr ownedAssets            (* break *)
          else getAssetsByOwner_loop s owner balance rest index ownedAssets
        else inl ArrayOutOfBounds
      else getAssetsByOwner_loop s owner balance rest index ownedAssets
  end.

(** [getAssetsByOwner(owner)], lines 246-264: an array of [balance] zeros,
    filled by the loop as [i] runs over the identifiers below the
    counter. *)
Definition getAssetsByOwner (owner : address) (s : State)
    : EnumError + list uint256 :=
  match balanceOf owner s with
  | inl e => inl e
  | inr balance =>
      getAssetsByOwner_loop s owner balance (first_ids (_nextTokenId s)) 0
        (replicate (Z.to_nat balance) 0)
  end.

(** The assets of [owner], in increasing order of identifier. *)
Definition owned_by (s : State) (owner : address) : list uint256 :=
  filter (λ id, owner_of s id = owner) (first_ids (_nextTokenId s)).

(** The balances after [ERC721._update] moved an asset from [from] to
    [to]. *)
Definition moved_balances (from to : address) (b : gmap Z Z) : gmap Z Z :=
  let b1 := if from =? 0 then b
            else <[from := ERC721.wrap (rd 0 b from - 1)]> b in
  if to =? 0 then b1 else <[to := ERC721.wrap (rd 0 b1 to + 1)]> b1.

(** ** Provenance *)

(** A history is a chain: each record starts from the account that the
    record before it went to. *)
Definition linked (h : list TransferRecord) : Prop :=
  ∀ i r1 r2, h !! i = Some r1 → h !! S i = Some r2 → tr_to r1 = tr_from r2.

(** What holds of the counter, the balances and the histories between
    calls: every identifier below the counter is an asset, a balance is
    the number of assets of the account, and a history is a chain of
    records between accounts other than [address(0)]. *)
Record audited (s : State) : Prop := mkAudited {
  counter_bounded : _nextTokenId s ≤ MAX_UINT256;
  ids_owned : ∀ id, 0 ≤ id < _nextTokenId s → owner_of s id ≠ 0;
  balances_counted :
    ∀ a, a ≠ 0 → rd 0 (_balances s) a = Z.of_nat (length (owned_by s a));
  histories_linked : ∀ id, linked (history s id);
  records_named :
    ∀ id r, r ∈ history s id → tr_from r ≠ 0 ∧ tr_to r ≠ 0
}.

(** From one consistent, tracked and audited state to the next. *)
Definition audits (s s' : State) : Prop :=
  tracks s s' ∧ (consistent s → tracked s → audited s → audited s').
(** * Reasoning about computations *)

Arguments rd : simpl never.

Lemma rd_insert_eq `{Countable K} {V : Type} (d : V) (m : gmap K V) k v :
  rd d (<[k:=v]> m) k = v.
Proof. unfold rd. by rewrite lookup_insert_eq. Qed.

Lemma rd_insert_ne `{Countable K} {V : Type} (d : V) (m : gmap K V) k k' v :
  k ≠ k' → rd d (<[k:=v]> m) k' = rd d m k'.
Proof. intros. unfold rd. by rewrite lookup_insert_ne. Qed.

Lemma rd_empty `{Countable K} {V : Type} (d : V) (k : K) :
  rd d (∅ : gmap K V) k = d.
Proof. unfold rd. by rewrite lookup_empty. Qed.

Lemma bind_Ok {A B : Type} (m : M A) (k : A → M B) s r :
  bind m k s = Ok r ↔ ∃ a s1, m s = Ok (a, s1) ∧ k a s1 = Ok r.
Proof.
  unfold bind. split.
  - destruct (m s) as [[a s1]|e]; [eauto | discriminate].
  - intros (a & s1 & -> & Hk). exact Hk.
Qed.

Lemma require_Ok cond msg s r :
  require cond msg s = Ok r ↔ cond = true ∧ r = (tt, s).
Proof.
  unfold require, ret, revert. destruct cond; split;
    [ intros [= <-]; done | intros [_ ->]; done
    | discriminate | intros [? _]; discriminate ].
Qed.

Lemma read_Ok {A : Type} (f : State → A) s r :
  read f s = Ok r ↔ r = (f s, s).
Proof. unfold read. split; [intros [= <-] | intros ->]; done. Qed.

Lemma write_Ok (f : State → State) s r :
  write f s = Ok r ↔ r = (tt, f s).
Proof. unfold write. split; [intros [= <-] | intros ->]; done. Qed.

Lemma ret_Ok {A : Type} (a : A) s r : ret a s = Ok r ↔ r = (a, s).
Proof. unfold ret. split; [intros [= <-] | intros ->]; done. Qed.

(** Inversion of a successful run, one statement at a time. *)
Ltac inv_step :=
  match goal with
  | H : bind _ _ _ = Ok _ |- _ =>
      apply bind_Ok in H; destruct H as (? & ? & ? & H)
  | H : require _ _ _ = Ok _ |- _ =>
      apply require_Ok in H; destruct H as [? ?]
  | H : read _ _ = Ok _ |- _ => apply read_Ok in H
  | H : write _ _ = Ok _ |- _ => apply write_Ok in H
  | H : emit _ _ = Ok _ |- _ => apply write_Ok in H
  | H : ret _ _ = Ok _ |- _ => apply ret_Ok in H
  | H : revert _ _ = Ok _ |- _ => discriminate H
  | H : Revert _ = Ok _ |- _ => discriminate H
  | H : (_, _) = (_, _) |- _ => inversion H; clear H
  | H : Ok _ = Ok _ |- _ => inversion H; clear H
  | H : (if ?c then _ else _) _ = Ok _ |- _ => destruct c eqn:?
  | H : match ?o with Some _ => _ | None => _ end _ = Ok _ |- _ =>
      destruct o eqn:?
  | H : match ?r with NoCode => _ | Returned _ => _ | Failed _ => _ end _
        = Ok _ |- _ => destruct r eqn:?
  end.

Ltac inv_run := repeat (inv_step; subst).

(** Projections of an updated state. *)
Ltac proj :=
  cbn [set_owners set_balances set_tokenApprovals set_operatorApprovals
       set_roles set_status set_assetDetails set_transferHistory
       set_verifiedUsers set_nextTokenId log_event
       _owners _balances _tokenApprovals _operatorApprovals _roles _status
       assetDetails transferHistory verifiedUsers _nextTokenId events] in *.

(** Boolean tests in hypotheses, as propositions. *)
Ltac bools :=
  repeat match goal with
  | H : negb _ = true |- _ => apply negb_true_iff in H
  | H : negb _ = false |- _ => apply negb_false_iff in H
  | H : (_ =? _) = true |- _ => apply Z.eqb_eq in H
  | H : (_ =? _) = false |- _ => apply Z.eqb_neq in H
  | H : _ && _ = true |- _ => apply andb_true_iff in H; destruct H
  | H : bool_decide _ = true |- _ => apply bool_decide_eq_true in H
  | H : bool_decide _ = false |- _ => apply bool_decide_eq_false in H
  end.

(** * The ownership-change gate *)

(** What a successful run of the base [ERC721._update] does. *)
Lemma ERC721_update_Ok to tokenId auth s prev s' :
  ERC721._update to tokenId auth s = Ok (prev, s') →
  prev = owner_of s tokenId
  ∧ (auth ≠ 0 → ERC721._isAuthorized prev auth tokenId s = true)
  ∧ _owners s' = <[tokenId := to]> (_owners s)
  ∧ events s' = events s ++ [Transfer prev to tokenId]
  ∧ _operatorApprovals s' = _operatorApprovals s
  ∧ _roles s' = _roles s
  ∧ _status s' = _status s
  ∧ assetDetails s' = assetDetails s
  ∧ transferHistory s' = transferHistory s
  ∧ verifiedUsers s' = verifiedUsers s
  ∧ _nextTokenId s' = _nextTokenId s
  ∧ _tokenApprovals s' =
      (if prev =? 0 then _tokenApprovals s
       else <[tokenId := 0]> (_tokenApprovals s)).
Proof.
  unfold ERC721._update, ERC721._checkAuthorized, owner_of, ERC721._ownerOf.
  intros H.
  inv_run; proj; repeat split; try done;
    try (destruct (rd 0 (_owners s) tokenId =? 0); done);
    bools; done.
Qed.

(** What a successful run of the override [_update] does. *)
Lemma update_Ok env to tokenId auth s prev s' :
  _update env to tokenId auth s = Ok (prev, s') →
  prev = owner_of s tokenId
  ∧ (auth ≠ 0 → ERC721._isAuthorized prev auth tokenId s = true)
  ∧ (prev ≠ 0 →
       isCompliant (details s tokenId) = true
       ∧ status (details s tokenId) = Active
       ∧ isVerified s to = true)
  ∧ transferHistory s' =
      (if prev =? 0 then transferHistory s
       else gate_history (block_timestamp env) s to tokenId)
  ∧ _owners s' = <[tokenId := to]> (_owners s)
  ∧ events s' = events s ++ [Transfer prev to tokenId]
  ∧ _operatorApprovals s' = _operatorApprovals s
  ∧ _roles s' = _roles s
  ∧ _status s' = _status s
  ∧ assetDetails s' = assetDetails s
  ∧ verifiedUsers s' = verifiedUsers s
  ∧ _nextTokenId s' = _nextTokenId s
  ∧ _tokenApprovals s' =
      (if prev =? 0 then _tokenApprovals s
       else <[tokenId := 0]> (_tokenApprovals s)).
Proof.
  unfold _update, push_record. intros H.
  apply bind_Ok in H as (from & s1 & Hfrom & H).
  apply read_Ok in Hfrom as [= -> ->].
  apply bind_Ok in H as ([] & s2 & Hgate & H).
  apply ERC721_update_Ok in H
    as (Hprev & Hauth & Hown & Hev & Hop & Hro & Hst & Hde & Hhi & Hve & Hnx
        & Hap).
  unfold gate_history, gate_records, history, details, isVerified, owner_of
    in *.
  subst prev.
  unfold ERC721._isAuthorized, ERC721.isApprovedForAll, ERC721._getApproved,
    ERC721._ownerOf in *.
  destruct (rd 0 (_owners s) tokenId =? 0) eqn:E0; cbn [negb] in Hgate.
  - apply ret_Ok in Hgate as [= ->]. rewrite ?E0 in Hap |- *. bools.
    repeat split; done.
  - inv_run; proj; rewrite ?E0 in Hap |- *; bools; repeat split; done.
Qed.

(** What successful runs of [_transfer] and [transferFrom] add to
    [update_Ok]: the recipient is not [address(0)] and [from] is the owner. *)
Lemma transfer_Ok env from to tokenId s r s' :
  _transfer env from to tokenId s = Ok (r, s') →
  to ≠ 0 ∧ from = owner_of s tokenId ∧ from ≠ 0
  ∧ _update env to tokenId 0 s = Ok (from, s').
Proof.
  unfold _transfer, ERC721._transfer. intros H.
  destruct (to =? 0) eqn:Eto; [discriminate|].
  apply bind_Ok in H as (prev & s1 & Hup & H).
  destruct (prev =? 0) eqn:E0; [discriminate|].
  destruct (negb (prev =? from)) eqn:E1; [discriminate|].
  apply ret_Ok in H as [= -> ->]. bools. subst prev.
  pose proof (update_Ok _ _ _ _ _ _ _ Hup) as (-> & _).
  done.
Qed.

Lemma transferFrom_Ok env from to tokenId s r s' :
  transferFrom env from to tokenId s = Ok (r, s') →
  to ≠ 0 ∧ from = owner_of s tokenId
  ∧ _update env to tokenId (msg_sender env) s = Ok (from, s').
Proof.
  unfold transferFrom, ERC721.transferFrom. intros H.
  destruct (to =? 0) eqn:Eto; [discriminate|].
  apply bind_Ok in H as (prev & s1 & Hup & H).
  destruct (negb (prev =? from)) eqn:E1; [discriminate|].
  apply ret_Ok in H as [= -> ->]. bools. subst prev.
  pose proof (update_Ok _ _ _ _ _ _ _ Hup) as (-> & _).
  done.
Qed.

(** [nonReentrant]: a call is let in exactly when no guarded call is in
    progress; its body runs with the latch raised, and the latch is
    lowered when the body has returned. *)
Lemma nonReentrant_Ok {A : Type} (body : M A) s r s' :
  nonReentrant body s = Ok (r, s') ↔
  _status s ≠ ENTERED
  ∧ ∃ s2, body (set_status ENTERED s) = Ok (r, s2)
          ∧ s' = set_status NOT_ENTERED s2.
Proof.
  unfold nonReentrant, _nonReentrantBefore, _nonReentrantAfter. split.
  - intros H. inv_run; bools. split; [done|]. eauto.
  - intros (Hst & s2 & Hbody & ->). apply Z.eqb_neq in Hst.
    unfold bind, read, write, ret. rewrite Hst. cbn. by rewrite Hbody.
Qed.

(** What a successful run of the body of [transferWithPrice] does. *)
Lemma transferWithPrice_body_Ok env from to assetId price s r s' :
  transferWithPrice_body env from to assetId price s = Ok (r, s') →
  from = owner_of s assetId ∧ from ≠ 0 ∧ to ≠ 0
  ∧ ERC721._isAuthorized from (msg_sender env) assetId s = true
  ∧ isCompliant (details s assetId) = true
  ∧ status (details s assetId) = Active
  ∧ isVerified s to = true
  ∧ transferHistory s' =
      <[assetId := history s assetId ++
          [mkTransferRecord from to (block_timestamp env) price]]>
        (transferHistory s)
  ∧ _owners s' = <[assetId := to]> (_owners s)
  ∧ events s' = events s ++ [Transfer from to assetId;
                             AssetTransferred from to assetId price]
  ∧ _operatorApprovals s' = _operatorApprovals s
  ∧ _roles s' = _roles s
  ∧ _status s' = _status s
  ∧ assetDetails s' = assetDetails s
  ∧ verifiedUsers s' = verifiedUsers s
  ∧ _nextTokenId s' = _nextTokenId s
  ∧ _tokenApprovals s' = <[assetId := 0]> (_tokenApprovals s).
Proof.
  unfold transferWithPrice_body, push_record. intros H.
  inv_run.
  match goal with
  | H : _transfer _ _ _ _ _ = Ok _ |- _ =>
      apply transfer_Ok in H as (Hto & Hfrom & Hfrom0 & Hup)
  end.
  apply update_Ok in Hup
    as (_ & _ & Hgate & Hhi & Hown & Hev & Hop & Hro & Hst & Hde & Hve & Hnx
        & Hap).
  destruct (Hgate Hfrom0) as (Hc & Ha & Hv).
  unfold gate_history, gate_records, history, details, isVerified, owner_of,
    ERC721._isAuthorized, ERC721.isApprovedForAll, ERC721._getApproved,
    ERC721._ownerOf in *.
  proj.
  rewrite rd_insert_eq, last_snoc in Hhi. cbn [tr_to] in Hhi.
  rewrite Z.eqb_refl in Hhi. cbn [negb] in Hhi.
  apply Z.eqb_neq in Hfrom0 as Hfrom0'. rewrite Hfrom0' in Hhi, Hap.
  rewrite Hev, <- app_assoc. subst from.
  repeat split; done.
Qed.

(** * Price-tracked transfers *)

(** A successful [transferWithPrice]: [from] was the owner, and the
    history of the asset gained the priced record and nothing else. *)
Lemma transferWithPrice_Ok env from to assetId price s r s' :
  transferWithPrice env from to assetId price s = Ok (r, s') →
  from = owner_of s assetId
  ∧ transferHistory s' =
      <[assetId := history s assetId ++
          [mkTransferRecord from to (block_timestamp env) price]]>
        (transferHistory s).
Proof.
  unfold transferWithPrice. intros H.
  apply nonReentrant_Ok in H as (_ & s2 & Hbody & ->).
  apply transferWithPrice_body_Ok in Hbody
    as (Hfrom & _ & _ & _ & _ & _ & _ & Hhi & _).
  unfold history in *. proj. by rewrite Hhi.
Qed.

(** C1.  Every successful call of [transferWithPrice] appends exactly one
    record to the history of the asset, the one with the caller's price:
    the history afterwards is the history before followed by the record
    [(from, to, block.timestamp, price)], and no other asset's history
    changes.  The gate, finding that record last with the same recipient,
    adds no zero-price record of its own. *)
Theorem transferWithPrice_appends_one_record
    env from to assetId price s r s' :
  transferWithPrice env from to assetId price s = Ok (r, s') →
  history s' assetId =
    history s assetId ++
      [mkTransferRecord from to (block_timestamp env) price]
  ∧ ∀ other, other ≠ assetId → history s' other = history s other.
Proof.
  intros H. apply transferWithPrice_Ok in H as [_ Hhi].
  unfold history in *. rewrite Hhi. split.
  - by rewrite rd_insert_eq.
  - intros other Hne. by rewrite rd_insert_ne.
Qed.

Lemma transferWithPrice_appends_one_record_witness :
  let s' := run_tx fixture_active
              (mkTx 2000 user1 (call_transferWithPrice 2 3 0 50)) in
  history s' 0 = history fixture_active 0 ++ [mkTransferRecord 2 3 2000 50]
  ∧ ∀ other, other ≠ 0 → history s' other = history fixture_active other.
Proof.
  apply (transferWithPrice_appends_one_record
           (mkEnv 2 2000) 2 3 0 50 fixture_active tt).
  vm_compute. reflexivity.
Defined.

(** C9.  A successful [transferWithPrice] was called with [from] equal to
    the owner of the asset before the call, so the record it appended
    names that owner; a call whose [from] is not the owner reverts, and
    the history stays as it was. *)
Theorem transferWithPrice_from_is_owner env from to assetId price s :
  (∀ r s', transferWithPrice env from to assetId price s = Ok (r, s') →
     from = owner_of s assetId
     ∧ ∃ record, history s' assetId = history s assetId ++ [record]
                 ∧ tr_from record = owner_of s assetId)
  ∧ (from ≠ owner_of s assetId →
     ∃ e, transferWithPrice env from to assetId price s = Revert e
          ∧ history (commit s (transferWithPrice env from to assetId price s))
              assetId = history s assetId).
Proof.
  split.
  - intros r s' H. apply transferWithPrice_Ok in H as [Hfrom Hhi].
    split; [done|]. eexists. unfold history in *. rewrite Hhi, rd_insert_eq.
    split; [reflexivity | done].
  - intros Hne.
    destruct (transferWithPrice env from to assetId price s)
      as [[r s']|e] eqn:E.
    + by apply transferWithPrice_Ok in E as [? _].
    + eauto.
Qed.

Lemma transferWithPrice_from_is_owner_witness :
  ∃ e, transferWithPrice (mkEnv 2 2000) 3 3 0 50 fixture_active = Revert e
       ∧ history (commit fixture_active
                    (transferWithPrice (mkEnv 2 2000) 3 3 0 50 fixture_active))
           0 = history fixture_active 0.
Proof.
  apply (proj2 (transferWithPrice_from_is_owner
                  (mkEnv 2 2000) 3 3 0 50 fixture_active)).
  vm_compute. discriminate.
Defined.

(** * Failing calls *)

Lemma not_Ok_Revert {A : Type} (m : M A) s :
  (∀ r s', m s ≠ Ok (r, s')) → ∃ e, m s = Revert e.
Proof.
  intros H. destruct (m s) as [[r s']|e]; [by destruct (H r s') | eauto].
Qed.

Lemma void_Ok {A : Type} (m : M A) s r s' :
  void m s = Ok (r, s') → ∃ a, m s = Ok (a, s').
Proof. unfold void. intros H. inv_run. eauto. Qed.

Lemma run_tx_Revert s now sender c e :
  exec now sender c s = Revert e → run_tx s (mkTx now sender c) = s.
Proof. unfold run_tx. cbn. by intros ->. Qed.

(** A successful transfer, by any entry point, went through the gate. *)
Lemma transfer_call_Ok now sender c s r s' assetId :
  transfers c assetId →
  owner_of s assetId ≠ 0 →
  exec now sender c s = Ok (r, s') →
  isCompliant (details s assetId) = true
  ∧ status (details s assetId) = Active.
Proof.
  intros Hc Hex H.
  destruct c; cbn in Hc; try done; subst; cbn in H; apply void_Ok in H as [a H].
  - unfold transferWithPrice in H.
    apply nonReentrant_Ok in H as (_ & s2 & Hbody & ->).
    by apply transferWithPrice_body_Ok in Hbody
      as (_ & _ & _ & _ & Hc & Ha & _).
  - apply transferFrom_Ok in H as (_ & -> & Hup).
    apply update_Ok in Hup as (_ & _ & Hgate & _).
    by destruct (Hgate Hex) as (? & ? & _).
  - unfold safeTransferFrom, ERC721.safeTransferFrom in H.
    apply bind_Ok in H as ([] & s1 & H & _).
    apply (transferFrom_Ok (mkEnv (Z.pos sender) now)) in H as (_ & -> & Hup).
    apply update_Ok in Hup as (_ & _ & Hgate & _).
    by destruct (Hgate Hex) as (? & ? & _).
Qed.

(** C6.  For an existing asset whose compliance flag is false or whose
    status is not Active, every transfer attempt (plain or price-tracked,
    whoever calls, top-level or nested) reverts, and the owner of the
    asset after the attempt is the owner before it. *)
Theorem blocked_asset_is_not_transferred now sender c s assetId :
  owner_of s assetId ≠ 0 →
  isCompliant (details s assetId) = false
    ∨ status (details s assetId) ≠ Active →
  transfers c assetId →
  (∃ e, exec now sender c s = Revert e)
  ∧ owner_of (run_tx s (mkTx now sender c)) assetId = owner_of s assetId.
Proof.
  intros Hex Hblocked Hc.
  assert (∃ e, exec now sender c s = Revert e) as [e He].
  { apply not_Ok_Revert. intros r s' H.
    destruct (transfer_call_Ok _ _ _ _ _ _ _ Hc Hex H) as [Hcom Hact].
    destruct Hblocked; congruence. }
  split; [eauto|]. by rewrite (run_tx_Revert _ _ _ _ _ He).
Qed.

Lemma blocked_asset_is_not_transferred_witness :
  (∃ e, exec 2000 user1 (call_transferFrom 2 3 0) fixture_registered
        = Revert e)
  ∧ owner_of (run_tx fixture_registered
                (mkTx 2000 user1 (call_transferFrom 2 3 0))) 0
    = owner_of fixture_registered 0.
Proof.
  apply (blocked_asset_is_not_transferred
           2000 user1 (call_transferFrom 2 3 0) fixture_registered 0).
  - vm_compute. discriminate.
  - left. vm_compute. reflexivity.
  - reflexivity.
Defined.

(** * The verification gate *)

(** Symbolic evaluation of a run, one statement at a time. *)
Lemma bind_bind {A B C : Type} (m : M A) (k1 : A → M B) (k2 : B → M C) s :
  bind (bind m k1) k2 s = bind m (λ a, bind (k1 a) k2) s.
Proof. unfold bind. by destruct (m s) as [[a s1]|e]. Qed.

Lemma bind_read {A B : Type} (f : State → A) (k : A → M B) s :
  bind (read f) k s = k (f s) s.
Proof. reflexivity. Qed.

Lemma bind_write {B : Type} (f : State → State) (k : unit → M B) s :
  bind (write f) k s = k tt (f s).
Proof. reflexivity. Qed.

Lemma bind_emit {B : Type} (e : Event) (k : unit → M B) s :
  bind (emit e) k s = k tt (log_event e s).
Proof. reflexivity. Qed.

Lemma bind_ret {A B : Type} (a : A) (k : A → M B) s :
  bind (ret a) k s = k a s.
Proof. reflexivity. Qed.

Lemma bind_revert {A B : Type} (e : Error) (k : A → M B) s :
  bind (revert e) k s = Revert e.
Proof. reflexivity. Qed.

Lemma bind_require {B : Type} cond msg (k : unit → M B) s :
  bind (require cond msg) k s = if cond then k tt s else Revert (Reason msg).
Proof. by destruct cond. Qed.

Lemma bind_if {A B : Type} (c : bool) (m1 m2 : M A) (k : A → M B) s :
  bind (if c then m1 else m2) k s = if c then bind m1 k s else bind m2 k s.
Proof. by destruct c. Qed.

Lemma Zpos_eqb_0 p : (Z.pos p =? 0) = false.
Proof. reflexivity. Qed.

Lemma Z0_eqb_MAX : (0 =? MAX_UINT256) = false.
Proof. reflexivity. Qed.

Ltac eval_step :=
  first
    [ rewrite bind_bind | rewrite bind_read | rewrite bind_write
    | rewrite bind_emit | rewrite bind_ret | rewrite bind_revert
    | rewrite bind_require | rewrite bind_if
    | rewrite rd_insert_eq | rewrite rd_empty
    | rewrite Z.eqb_refl | rewrite Zpos_eqb_0 | rewrite Z0_eqb_MAX
    | progress proj
    | progress cbn [negb andb orb] ].

Ltac eval_run := repeat eval_step.

Lemma registerAsset_unverified env receiver to uri ty v s :
  hasRole MINTER_ROLE (msg_sender env) s = true →
  isVerified s to = false →
  registerAsset env receiver to uri ty v s = Revert RecipientNotVerified.
Proof.
  unfold isVerified, registerAsset, onlyRole, _checkRole. intros Hrole Hver.
  eval_run. rewrite Hrole. eval_run. by rewrite Hver.
Qed.

Lemma transferWithPrice_unverified env from to assetId price s :
  _status s ≠ ENTERED →
  ERC721._isAuthorized (owner_of s assetId) (msg_sender env) assetId s = true →
  isVerified s to = false →
  transferWithPrice env from to assetId price s = Revert RecipientNotVerified.
Proof.
  unfold isVerified, owner_of, transferWithPrice, nonReentrant,
    _nonReentrantBefore, transferWithPrice_body.
  intros Hst Hauth Hver. apply Z.eqb_neq in Hst.
  eval_run. rewrite Hst. eval_run.
  unfold ERC721._isAuthorized, ERC721.isApprovedForAll, ERC721._getApproved,
    ERC721._ownerOf in *.
  eval_run. rewrite Hauth. eval_run. by rewrite Hver.
Qed.

Lemma update_unverified env to tokenId auth s :
  owner_of s tokenId ≠ 0 →
  isCompliant (details s tokenId) = true →
  status (details s tokenId) = Active →
  isVerified s to = false →
  _update env to tokenId auth s = Revert RecipientNotVerified.
Proof.
  unfold isVerified, owner_of, details, _update.
  intros Hex Hcom Hact Hver. apply Z.eqb_neq in Hex.
  eval_run. rewrite Hex. eval_run. rewrite Hcom, Hact. eval_run.
  rewrite bool_decide_eq_true_2 by done. by rewrite Hver.
Qed.

Lemma transferFrom_unverified env from to tokenId s :
  to ≠ 0 →
  owner_of s tokenId ≠ 0 →
  isCompliant (details s tokenId) = true →
  status (details s tokenId) = Active →
  isVerified s to = false →
  transferFrom env from to tokenId s = Revert RecipientNotVerified.
Proof.
  intros Hto Hex Hcom Hact Hver. apply Z.eqb_neq in Hto.
  unfold transferFrom, ERC721.transferFrom. rewrite Hto.
  unfold bind. by rewrite update_unverified.
Qed.

(** The equations of [exec] for the calls that hand over an asset. *)
Lemma exec_registerAsset now sender to uri ty v h s :
  exec now sender (call_registerAsset to uri ty v h) s =
  bind (registerAsset (mkEnv (Z.pos sender) now) (run_hook now h) to uri ty v)
    (λ assetId, ret (Some assetId)) s.
Proof. reflexivity. Qed.

Lemma exec_transferWithPrice now sender from to assetId price s :
  exec now sender (call_transferWithPrice from to assetId price) s =
  void (transferWithPrice (mkEnv (Z.pos sender) now) from to assetId price) s.
Proof. reflexivity. Qed.

Lemma exec_transferFrom now sender from to tokenId s :
  exec now sender (call_transferFrom from to tokenId) s =
  void (transferFrom (mkEnv (Z.pos sender) now) from to tokenId) s.
Proof. reflexivity. Qed.

Lemma exec_safeTransferFrom now sender from to tokenId h s :
  exec now sender (call_safeTransferFrom from to tokenId h) s =
  void (safeTransferFrom (mkEnv (Z.pos sender) now) (run_hook now h)
          from to tokenId) s.
Proof. reflexivity. Qed.

(** A call that delivered an asset found its recipient verified. *)
Lemma delivery_Ok now sender c s r s' to :
  delivers_to s c to →
  exec now sender c s = Ok (r, s') →
  isVerified s to = true.
Proof.
  intros Hc H. destruct c; cbn in Hc; try done; cbn in H.
  - subst. unfold registerAsset, onlyRole, _checkRole, isVerified in *.
    by inv_run.
  - subst. apply void_Ok in H as [a H]. unfold transferWithPrice in H.
    apply nonReentrant_Ok in H as (_ & s2 & Hbody & ->).
    by apply transferWithPrice_body_Ok in Hbody
      as (_ & _ & _ & _ & _ & _ & Hv & _).
  - destruct Hc as [-> Hex]. apply void_Ok in H as [a H].
    apply transferFrom_Ok in H as (_ & -> & Hup).
    apply update_Ok in Hup as (_ & _ & Hgate & _).
    by destruct (Hgate Hex) as (_ & _ & ?).
  - destruct Hc as [-> Hex]. apply void_Ok in H as [a H].
    unfold safeTransferFrom, ERC721.safeTransferFrom in H.
    apply bind_Ok in H as ([] & s1 & H & _).
    apply (transferFrom_Ok (mkEnv (Z.pos sender) now)) in H as (_ & -> & Hup).
    apply update_Ok in Hup as (_ & _ & Hgate & _).
    by destruct (Hgate Hex) as (_ & _ & ?).
Qed.

(** C5, as the contract has it.  Registering an asset to an unverified
    account, or transferring an existing asset to one by either entry
    point, always reverts, and no history gains a record.  The revert is
    [RecipientNotVerified] whenever the checks the function makes before
    it looks at the recipient pass; when one of them fails, the call
    reverts with that check's error instead. *)
Theorem unverified_recipient_is_refused now sender c s to :
  isVerified s to = false →
  delivers_to s c to →
  ∃ e, exec now sender c s = Revert e
       ∧ (earlier_checks_pass s (Z.pos sender) c → e = RecipientNotVerified)
       ∧ transferHistory (run_tx s (mkTx now sender c)) = transferHistory s.
Proof.
  intros Hver Hc.
  assert (∃ e, exec now sender c s = Revert e) as [e He].
  { apply not_Ok_Revert. intros r s' H.
    apply (delivery_Ok _ _ _ _ _ _ _ Hc) in H. congruence. }
  exists e. split; [done|]. split; [|by rewrite (run_tx_Revert _ _ _ _ _ He)].
  intros Hpass. destruct c; cbn in Hc, Hpass; try done.
  - subst. rewrite exec_registerAsset in He. unfold bind in He.
    rewrite registerAsset_unverified in He by done. congruence.
  - subst. destruct Hpass as [Hst Hauth].
    rewrite exec_transferWithPrice in He. unfold void, bind in He.
    rewrite transferWithPrice_unverified in He by done. congruence.
  - destruct Hc as [-> Hex]. destruct Hpass as (Hto & Hcom & Hact).
    rewrite exec_transferFrom in He. unfold void, bind in He.
    rewrite transferFrom_unverified in He by done. congruence.
  - destruct Hc as [-> Hex]. destruct Hpass as (Hto & Hcom & Hact).
    rewrite exec_safeTransferFrom in He.
    unfold void, safeTransferFrom, ERC721.safeTransferFrom in He.
    rewrite bind_bind in He. unfold bind in He.
    fold (transferFrom (mkEnv (Z.pos sender) now)) in He.
    rewrite transferFrom_unverified in He by done.
    congruence.
Qed.

Lemma unverified_recipient_is_refused_witness :
  ∃ e, exec 2000 user1 (call_transferWithPrice 2 4 0 50) fixture_active
       = Revert e
       ∧ (earlier_checks_pass fixture_active 2 (call_transferWithPrice 2 4 0 50)
          → e = RecipientNotVerified)
       ∧ transferHistory
           (run_tx fixture_active
              (mkTx 2000 user1 (call_transferWithPrice 2 4 0 50)))
         = transferHistory fixture_active.
Proof.
  apply (unverified_recipient_is_refused
           2000 user1 (call_transferWithPrice 2 4 0 50) fixture_active 4).
  - vm_compute. reflexivity.
  - reflexivity.
Defined.

(** C5 as stated fails: a transfer to the unverified [user3] of an asset
    that is not compliant reverts with [AssetNotCompliant], and a
    registration to [user3] by a caller without the Minter role reverts
    with [AccessControlUnauthorizedAccount]; neither is
    [RecipientNotVerified]. *)
Lemma unverified_recipient_other_error :
  isVerified fixture_registered 4 = false
  ∧ owner_of fixture_registered 0 = 2
  ∧ exec 2000 user1 (call_transferFrom 2 4 0) fixture_registered
    = Revert AssetNotCompliant
  ∧ exec 2000 user1 (call_registerAsset 4 "ipfs://x" "property" 1 hook_none)
      fixture_registered
    = Revert (AccessControlUnauthorizedAccount 2 MINTER_ROLE)
  ∧ AssetNotCompliant ≠ RecipientNotVerified
  ∧ AccessControlUnauthorizedAccount 2 MINTER_ROLE ≠ RecipientNotVerified.
Proof. repeat split; try (vm_compute; reflexivity); discriminate. Qed.

(** * Deployment *)

(** The state that the constructor leaves. *)
Lemma deploy_state now d :
  deploy now d =
  mkState ∅ ∅ ∅ ∅
    (<[(COMPLIANCE_ROLE, Z.pos d) := true]>
       (<[(MINTER_ROLE, Z.pos d) := true]>
          (<[(ADMIN_ROLE, Z.pos d) := true]>
             (<[(DEFAULT_ADMIN_ROLE, Z.pos d) := true]> ∅))))
    NOT_ENTERED ∅ ∅ (<[Z.pos d := true]> ∅) 0
    [RoleGranted DEFAULT_ADMIN_ROLE (Z.pos d) (Z.pos d);
     RoleGranted ADMIN_ROLE (Z.pos d) (Z.pos d);
     RoleGranted MINTER_ROLE (Z.pos d) (Z.pos d);
     RoleGranted COMPLIANCE_ROLE (Z.pos d) (Z.pos d)].
Proof.
  unfold deploy, constructor, _grantRole, hasRole, storage_zero.
  eval_run. cbn [msg_sender].
  repeat (rewrite rd_insert_ne by congruence). eval_run.
  repeat (rewrite rd_insert_ne by congruence). eval_run.
  repeat (rewrite rd_insert_ne by congruence). eval_run.
  reflexivity.
Qed.

(** C10.  Right after construction the deployer is verified and holds the
    four roles, no other account is verified, and the deployer, as Minter,
    can register an asset to itself at once: the call succeeds, returns
    identifier 0 and makes the deployer its owner. *)
Theorem deployer_is_verified now d :
  let s := deploy now d in
  isVerified s (Z.pos d) = true
  ∧ hasRole DEFAULT_ADMIN_ROLE (Z.pos d) s = true
  ∧ hasRole ADMIN_ROLE (Z.pos d) s = true
  ∧ hasRole MINTER_ROLE (Z.pos d) s = true
  ∧ hasRole COMPLIANCE_ROLE (Z.pos d) s = true
  ∧ (∀ account, account ≠ Z.pos d → isVerified s account = false)
  ∧ ∀ now' uri ty v, ∃ s',
      exec now' d (call_registerAsset (Z.pos d) uri ty v hook_none) s
        = Ok (Some 0, s')
      ∧ owner_of s' 0 = Z.pos d.
Proof.
  cbv zeta. rewrite deploy_state.
  unfold isVerified, hasRole. proj.
  repeat split.
  - by rewrite rd_insert_eq.
  - repeat (rewrite rd_insert_ne by congruence). by rewrite rd_insert_eq.
  - repeat (rewrite rd_insert_ne by congruence). by rewrite rd_insert_eq.
  - repeat (rewrite rd_insert_ne by congruence). by rewrite rd_insert_eq.
  - by rewrite rd_insert_eq.
  - intros account Hne. rewrite rd_insert_ne by congruence. apply rd_empty.
  - intros now' uri ty v. rewrite exec_registerAsset.
    unfold registerAsset, onlyRole, _checkRole, hasRole,
      _nextTokenId_postincrement, _safeMint, ERC721._safeMint, ERC721._mint,
      ERC721.checkOnERC721Received, _update, ERC721._update, ERC721._ownerOf.
    cbn [msg_sender block_timestamp run_hook].
    eval_run. rewrite rd_insert_ne by congruence. eval_run.
    eexists. split; [reflexivity|].
    unfold owner_of, ERC721._ownerOf. proj. by rewrite rd_insert_eq.
Qed.

Lemma deployer_is_verified_witness :
  isVerified fixture_deployed 5 = false.
Proof.
  apply (deployer_is_verified 1000 deployer). discriminate.
Defined.

(** * Where the contract departs from its documentation *)

(** C2, at a failing input.  After the plain transfer [user1 → user2] the
    history of asset 0 holds one record, naming [user2].  The plain
    transfer [user2 → user2] that follows succeeds, no price-tracked
    transfer is in progress, and yet the history still holds one record:
    the gate takes the last record's recipient for a sign that the
    transfer was recorded already. *)
Lemma plain_transfer_not_recorded :
  let tx := mkTx 2001 user2 (call_transferFrom 3 3 0) in
  _status fixture_transferred = NOT_ENTERED
  ∧ history fixture_transferred 0 = [mkTransferRecord 2 3 2000 0]
  ∧ (∃ s', exec 2001 user2 (call_transferFrom 3 3 0) fixture_transferred
           = Ok (None, s'))
  ∧ history (run_tx fixture_transferred tx) 0 = [mkTransferRecord 2 3 2000 0].
Proof.
  cbv zeta. split; [reflexivity|]. split; [vm_compute; reflexivity|].
  split; [|vm_compute; reflexivity].
  eexists. vm_compute. reflexivity.
Qed.

(** What decides a transfer: a price-tracked transfer succeeds whenever
    no guarded call is in progress, [from] is the owner, the recipient is
    not [address(0)] and is verified, the caller is authorized and the
    asset is compliant and Active.  No other part of the storage is
    consulted, and no function of the contract can switch transfers off. *)
Lemma transferWithPrice_succeeds env from to assetId price s :
  _status s ≠ ENTERED →
  owner_of s assetId = from → from ≠ 0 → to ≠ 0 →
  ERC721._isAuthorized from (msg_sender env) assetId s = true →
  isCompliant (details s assetId) = true →
  status (details s assetId) = Active →
  isVerified s to = true →
  ∃ s', transferWithPrice env from to assetId price s = Ok (tt, s')
        ∧ owner_of s' assetId = to.
Proof.
  unfold owner_of, details, isVerified, ERC721._isAuthorized,
    ERC721.isApprovedForAll, ERC721._getApproved, ERC721._ownerOf.
  intros Hst Hown Hfrom Hto Hauth Hcom Hact Hver.
  apply Z.eqb_neq in Hst, Hfrom, Hto.
  unfold transferWithPrice, nonReentrant, _nonReentrantBefore,
    _nonReentrantAfter, transferWithPrice_body, push_record, _transfer,
    ERC721._transfer, _update, ERC721._update, ERC721._checkAuthorized,
    ERC721._isAuthorized, ERC721.isApprovedForAll, ERC721._getApproved,
    ERC721._ownerOf.
  repeat first
    [ eval_step | rewrite Hst | rewrite Hown | rewrite Hauth | rewrite Hver
    | rewrite Hto | rewrite Hfrom | rewrite Hcom | rewrite Hact
    | rewrite last_snoc | rewrite bool_decide_eq_true_2 by done
    | progress cbn [tr_to] ].
  eexists. split; [reflexivity|]. proj. by rewrite rd_insert_eq.
Qed.

(** C3, at a failing input.  The contract has no [pause] function: the
    call reverts and changes nothing, and the transfers that the
    documentation expects to be blocked afterwards succeed. *)
Lemma pause_does_not_block_transfers :
  let paused :=
    run_tx fixture_active (mkTx 2000 deployer (call_undefined "pause()")) in
  exec 2000 deployer (call_undefined "pause()") fixture_active
    = Revert UndefinedFunction
  ∧ (∃ s', exec 2001 user1 (call_transferWithPrice 2 3 0 50) paused
           = Ok (None, s')
           ∧ owner_of s' 0 = 3)
  ∧ (∃ s', exec 2001 user1 (call_transferFrom 2 3 0) paused = Ok (None, s')
           ∧ owner_of s' 0 = 3).
Proof.
  cbv zeta. split; [vm_compute; reflexivity|]. split.
  - eexists. split; vm_compute; reflexivity.
  - eexists. split; vm_compute; reflexivity.
Qed.

(** What [batchVerifyUsers] does on every list, of whatever length: called
    by a holder of the Compliance role it succeeds, sets the flag of every
    listed account, and leaves the other accounts' flags alone. *)
Lemma batchVerifyUsers_loop_sets users status s :
  ∃ s', batchVerifyUsers_loop users status s = Ok (tt, s')
        ∧ ∀ account, isVerified s' account =
            if bool_decide (account ∈ users) then status
            else isVerified s account.
Proof.
  revert s. induction users as [|user rest IH]; intros s; cbn.
  - exists s. split; [done|]. intros account.
    rewrite bool_decide_eq_false_2; [done | apply not_elem_of_nil].
  - eval_run.
    destruct (IH (log_event (UserVerified user status)
                    (set_verifiedUsers <[user:=status]> s)))
      as (s' & Hrun & Hset).
    exists s'. split; [done|]. intros account. rewrite Hset.
    unfold isVerified. proj.
    destruct (decide (account ∈ rest)) as [Hin|Hnin].
    + rewrite !bool_decide_eq_true_2; [done | by right | done].
    + rewrite (bool_decide_eq_false_2 _ Hnin).
      destruct (decide (account = user)) as [->|Hne].
      * rewrite rd_insert_eq, bool_decide_eq_true_2; [done | by left].
      * rewrite rd_insert_ne by done.
        rewrite bool_decide_eq_false_2; [done|].
        rewrite elem_of_cons. intros [?|?]; done.
Qed.

(** Called by a holder of the Compliance role, [batchVerifyUsers] succeeds
    on every list, sets the flag of every listed account to [status] and
    leaves every other account's flag as it was. *)
Lemma batchVerifyUsers_sets_all env users status s :
  hasRole COMPLIANCE_ROLE (msg_sender env) s = true →
  ∃ s', batchVerifyUsers env users status s = Ok (tt, s')
        ∧ (∀ account, account ∈ users → isVerified s' account = status)
        ∧ (∀ account, account ∉ users →
             isVerified s' account = isVerified s account).
Proof.
  intros Hrole. unfold batchVerifyUsers, onlyRole, _checkRole.
  eval_run. rewrite Hrole. eval_run.
  destruct (batchVerifyUsers_loop_sets users status s) as (s' & Hrun & Hset).
  exists s'. split; [done|]. split; intros account Hin; rewrite Hset.
  - by rewrite bool_decide_eq_true_2.
  - by rewrite bool_decide_eq_false_2.
Qed.

(** C4, at two failing inputs.  [batchVerifyUsers] checks no bound: called
    by the deployer, who holds the Compliance role, it succeeds on the
    empty list, changing nothing, and on a list of 101 accounts, verifying
    all of them. *)
Lemma batchVerifyUsers_unbounded :
  batchVerifyUsers (mkEnv 1 2000) [] true fixture_deployed
    = Ok (tt, fixture_deployed)
  ∧ length batch_101 = 101%nat
  ∧ ∃ s', batchVerifyUsers (mkEnv 1 2000) batch_101 true fixture_deployed
          = Ok (tt, s')
          ∧ forallb (isVerified s') batch_101 = true.
Proof.
  split; [vm_compute; reflexivity|]. split; [reflexivity|].
  eexists. split; vm_compute; reflexivity.
Qed.

(** * Properties of every call tree *)

Combined Scheme Call_Hook_ind from Call_mut, Hook_mut.

(** A preorder on states that every function keeps, given that the
    receiver hook keeps it, is kept by every call, whatever its hooks call
    back. *)
Section Preorder.
Variable R : State → State → Prop.
Hypothesis R_refl : ∀ s, R s s.
Hypothesis R_trans : ∀ s1 s2 s3, R s1 s2 → R s2 s3 → R s1 s3.
Hypothesis R_dispatch : ∀ now sender receiver c s r s',
  (∀ s1 r1 s2, receiver s1 = Ok (r1, s2) → R s1 s2) →
  dispatch (mkEnv (Z.pos sender) now) receiver c s = Ok (r, s') →
  R s s'.

Lemma exec_run_hook_keep :
  (∀ c now sender s r s', exec now sender c s = Ok (r, s') → R s s')
  ∧ (∀ h now s r s', run_hook now h s = Ok (r, s') → R s s').
Proof using R_refl R_trans R_dispatch.
  apply Call_Hook_ind; intros.
  all: try match goal with
    | H : exec _ _ _ _ = Ok _ |- _ =>
        cbn [exec] in H; eapply R_dispatch; [|exact H]; cbn beta;
        first [ by eauto
              | intros ? ? ? Hr; apply ret_Ok in Hr as [= _ ->];
                apply R_refl ]
    end.
  - apply ret_Ok in H as [= _ ->]. apply R_refl.
  - apply ret_Ok in H as [= _ ->]. apply R_refl.
  - apply ret_Ok in H as [= _ ->]. apply R_refl.
  - cbn [run_hook] in H1. apply bind_Ok in H1 as ([] & s1 & Hcall & Hrest).
    eapply R_trans; [|by eapply H0]. unfold attempt in Hcall.
    destruct (exec now sender c s) as [[r1 s1']|e] eqn:E;
      injection Hcall as <-; [by eapply H | apply R_refl].
Qed.

Lemma exec_keep now sender c s r s' :
  exec now sender c s = Ok (r, s') → R s s'.
Proof using R_refl R_trans R_dispatch. apply exec_run_hook_keep. Qed.

Lemma run_tx_keep s tx : R s (run_tx s tx).
Proof using R_refl R_trans R_dispatch.
  unfold run_tx, commit.
  destruct (exec _ _ _ s) as [[r s']|e] eqn:E;
    [by eapply exec_keep | apply R_refl].
Qed.

Lemma run_txs_keep txs s : R s (run_txs s txs).
Proof using R_refl R_trans R_dispatch.
  revert s. induction txs as [|tx txs IH]; intros s; cbn.
  - apply R_refl.
  - eapply R_trans; [apply run_tx_keep | apply IH].
Qed.
End Preorder.

(** * Consistency of the storage *)

Lemma minted_app log1 log2 : minted (log1 ++ log2) = minted log1 ++ minted log2.
Proof.
  induction log1 as [|e log1 IH]; [done|].
  destruct e; cbn; rewrite ?IH; try done. by destruct (from =? 0).
Qed.

Lemma first_ids_succ n : 0 ≤ n → first_ids (n + 1) = first_ids n ++ [n].
Proof.
  intros Hn. unfold first_ids.
  replace (Z.to_nat (n + 1)) with (S (Z.to_nat n)) by lia.
  rewrite seq_S, map_app. cbn. by rewrite Z2Nat.id.
Qed.

Lemma elem_of_first_ids n id : id ∈ first_ids n ↔ 0 ≤ id < n.
Proof.
  unfold first_ids. rewrite list_elem_of_fmap. split.
  - intros (k & -> & Hk). apply elem_of_seq in Hk. lia.
  - intros Hid. exists (Z.to_nat id). split; [lia|].
    apply elem_of_seq. lia.
Qed.

Lemma first_ids_prefix n m : 0 ≤ n ≤ m → first_ids n `prefix_of` first_ids m.
Proof.
  intros Hnm. unfold first_ids.
  replace (Z.to_nat m) with (Z.to_nat n + (Z.to_nat m - Z.to_nat n))%nat by lia.
  rewrite seq_app, map_app. by apply prefix_app_r.
Qed.

(** Soundness looks at five fields only. *)
Lemma sound_frame s s' :
  _owners s' = _owners s →
  _nextTokenId s' = _nextTokenId s →
  minted (events s') = minted (events s) →
  _operatorApprovals s' = _operatorApprovals s →
  _tokenApprovals s' = _tokenApprovals s →
  sound s → sound s'.
Proof.
  intros Hown Hnx Hev Hop Hap [H1 H2 H3 H4 H5].
  split; unfold assigned_ids, owner_of, ERC721._ownerOf,
    ERC721.isApprovedForAll, ERC721._getApproved in *;
    rewrite ?Hown, ?Hnx, ?Hev, ?Hop, ?Hap; done.
Qed.

Lemma sound_deploy now d : sound (deploy now d).
Proof.
  rewrite deploy_state.
  split; unfold assigned_ids, owner_of, ERC721._ownerOf,
    ERC721.isApprovedForAll, ERC721._getApproved; proj.
  - done.
  - intros id. by rewrite rd_empty.
  - done.
  - intros op. by rewrite rd_empty.
  - intros id _. by rewrite rd_empty.
Qed.

(** Nobody is authorized for an asset that does not exist. *)
Lemma unowned_not_authorized s tokenId spender :
  sound s → owner_of s tokenId = 0 →
  ERC721._isAuthorized 0 spender tokenId s = false.
Proof.
  intros Hs Hun. unfold ERC721._isAuthorized.
  rewrite (zero_approves_nobody _ Hs), (unowned_unapproved _ Hs _ Hun).
  rewrite (Z.eqb_sym 0 spender).
  by destruct (spender =? 0).
Qed.

(** The gate on an existing asset keeps the storage sound. *)
Lemma update_existing_sound env to tokenId auth s prev s' :
  _update env to tokenId auth s = Ok (prev, s') →
  prev ≠ 0 → to ≠ 0 →
  sound s → sound s'.
Proof.
  intros Hup Hprev Hto [H1 H2 H3 H4 H5].
  apply update_Ok in Hup
    as (-> & _ & _ & _ & Hown & Hev & Hop & _ & _ & _ & _ & Hnx & Hap).
  apply Z.eqb_neq in Hprev as Hprev'. rewrite Hprev' in Hap.
  split; unfold assigned_ids, owner_of, ERC721._ownerOf,
    ERC721.isApprovedForAll, ERC721._getApproved in *;
    rewrite ?Hown, ?Hnx, ?Hev, ?Hop, ?Hap; try done.
  - intros id. destruct (decide (tokenId = id)) as [->|Hne].
    + intros _. by apply H2.
    + rewrite rd_insert_ne by done. apply H2.
  - rewrite minted_app. cbn. rewrite Hprev'. by rewrite app_nil_r.
  - intros id. destruct (decide (tokenId = id)) as [->|Hne].
    + by rewrite !rd_insert_eq.
    + rewrite !rd_insert_ne by done. apply H5.
Qed.

(** Minting the asset that the counter just passed keeps the storage
    sound. *)
Lemma update_mint_sound env to s s' :
  let n := _nextTokenId s in
  _update env to n 0 (set_nextTokenId (n + 1) s) = Ok (0, s') →
  to ≠ 0 →
  sound s →
  sound s' ∧ _nextTokenId s' = n + 1 ∧ _status s' = _status s.
Proof.
  intros n Hup Hto [H1 H2 H3 H4 H5].
  apply update_Ok in Hup
    as (Hprev & _ & _ & _ & Hown & Hev & Hop & _ & Hst & _ & _ & Hnx & Hap).
  cbn [Z.eqb] in Hap. proj.
  split; [|done].
  split; unfold assigned_ids, owner_of, ERC721._ownerOf,
    ERC721.isApprovedForAll, ERC721._getApproved in *; proj;
    rewrite ?Hown, ?Hnx, ?Hev, ?Hop, ?Hap; fold n.
  - lia.
  - intros id. destruct (decide (n = id)) as [<-|Hne]; [lia|].
    rewrite rd_insert_ne by done. intros Hid. apply H2 in Hid. lia.
  - rewrite minted_app, H3. cbn. by rewrite first_ids_succ.
  - done.
  - intros id. destruct (decide (n = id)) as [<-|Hne].
    + rewrite rd_insert_eq. done.
    + rewrite rd_insert_ne by done. apply H5.
Qed.

Lemma advances_refl s : advances s s.
Proof. intros Hc. split; [done | lia]. Qed.

Lemma advances_trans s1 s2 s3 :
  advances s1 s2 → advances s2 s3 → advances s1 s3.
Proof.
  intros H12 H23 Hc. destruct (H12 Hc) as [Hc2 Hn2].
  destruct (H23 Hc2) as [Hc3 Hn3]. split; [done | lia].
Qed.

Lemma advances_frame s s' :
  _owners s' = _owners s →
  _nextTokenId s' = _nextTokenId s →
  minted (events s') = minted (events s) →
  _operatorApprovals s' = _operatorApprovals s →
  _tokenApprovals s' = _tokenApprovals s →
  _status s' = _status s →
  advances s s'.
Proof.
  intros Hown Hnx Hev Hop Hap Hst [Hs Hl]. split; [|lia].
  split; [by eapply sound_frame | congruence].
Qed.

(** Closes [advances s s'] when [s'] is [s] with writes to other fields
    and events that are not mints. *)
Ltac by_frame :=
  apply advances_frame; proj; rewrite ?minted_app; cbn [minted];
  rewrite ?app_nil_r; done.

Lemma batchVerifyUsers_loop_Ok users status s r s' :
  batchVerifyUsers_loop users status s = Ok (r, s') →
  _owners s' = _owners s
  ∧ _nextTokenId s' = _nextTokenId s
  ∧ minted (events s') = minted (events s)
  ∧ _operatorApprovals s' = _operatorApprovals s
  ∧ _tokenApprovals s' = _tokenApprovals s
  ∧ _status s' = _status s.
Proof.
  revert s. induction users as [|user rest IH]; intros s H; cbn in H.
  - by inv_run.
  - inv_run.
    match goal with H : batchVerifyUsers_loop _ _ _ = Ok _ |- _ =>
      apply IH in H as (-> & -> & -> & -> & -> & ->) end.
    proj. rewrite minted_app. cbn [minted]. rewrite app_nil_r.
    repeat split; done.
Qed.

(** Each function takes a consistent state to a consistent state. *)
Lemma setUserVerification_advances env user status s r s' :
  setUserVerification env user status s = Ok (r, s') → advances s s'.
Proof.
  unfold setUserVerification, onlyRole, _checkRole. intros H. inv_run.
  by_frame.
Qed.

Lemma batchVerifyUsers_advances env users status s r s' :
  batchVerifyUsers env users status s = Ok (r, s') → advances s s'.
Proof.
  unfold batchVerifyUsers, onlyRole, _checkRole. intros H. inv_run.
  match goal with H : batchVerifyUsers_loop _ _ _ = Ok _ |- _ =>
    apply batchVerifyUsers_loop_Ok in H as (? & ? & ? & ? & ? & ?) end.
  by apply advances_frame.
Qed.

Lemma setCompliance_advances env assetId status s r s' :
  setCompliance env assetId status s = Ok (r, s') → advances s s'.
Proof.
  unfold setCompliance, onlyRole, _checkRole, require_exists, update_details.
  intros H. inv_run. by_frame.
Qed.

Lemma setAssetStatus_advances env assetId newStatus s r s' :
  setAssetStatus env assetId newStatus s = Ok (r, s') → advances s s'.
Proof.
  unfold setAssetStatus, onlyRole, _checkRole, require_exists, update_details.
  intros H. inv_run. by_frame.
Qed.

Lemma updateValuation_advances env assetId newValuation s r s' :
  updateValuation env assetId newValuation s = Ok (r, s') → advances s s'.
Proof.
  unfold updateValuation, onlyRole, _checkRole, require_exists,
    update_details.
  intros H. inv_run. by_frame.
Qed.

Lemma updateMetadata_advances env assetId uri s r s' :
  updateMetadata env assetId uri s = Ok (r, s') → advances s s'.
Proof.
  unfold updateMetadata, onlyRole, _checkRole, require_exists, update_details.
  intros H. inv_run. by_frame.
Qed.

Lemma grantRole_advances env role account s r s' :
  grantRole env role account s = Ok (r, s') → advances s s'.
Proof.
  unfold grantRole, _grantRole, onlyRole, _checkRole. intros H.
  inv_run; first [by_frame | apply advances_refl].
Qed.

Lemma revokeRole_advances env role account s r s' :
  revokeRole env role account s = Ok (r, s') → advances s s'.
Proof.
  unfold revokeRole, _revokeRole, onlyRole, _checkRole. intros H.
  inv_run; first [by_frame | apply advances_refl].
Qed.

Lemma renounceRole_advances env role confirmation s r s' :
  renounceRole env role confirmation s = Ok (r, s') → advances s s'.
Proof.
  unfold renounceRole, _revokeRole. intros H.
  inv_run; first [by_frame | apply advances_refl].
Qed.

Lemma approve_advances env to tokenId s r s' :
  ERC721.approve env to tokenId s = Ok (r, s') → advances s s'.
Proof.
  unfold ERC721.approve, ERC721._approve, ERC721._requireOwned. intros H.
  cbn [orb] in H. inv_run; bools.
  all: intros [[H1 H2 H3 H4 H5] Hl]; (split; [|proj; lia]).
  all: split; [|done].
  all: split; unfold assigned_ids, owner_of, ERC721._ownerOf,
    ERC721.isApprovedForAll, ERC721._getApproved in *; proj;
    rewrite ?minted_app; cbn [minted]; rewrite ?app_nil_r; try done.
  all: intros id Hid; rewrite rd_insert_ne by congruence; by apply H5.
Qed.

Lemma setApprovalForAll_advances env operator approved s r s' :
  msg_sender env ≠ 0 →
  ERC721.setApprovalForAll env operator approved s = Ok (r, s') →
  advances s s'.
Proof.
  unfold ERC721.setApprovalForAll, ERC721._setApprovalForAll. intros Hsender H.
  inv_run; bools.
  intros [[H1 H2 H3 H4 H5] Hl]. split; [|proj; lia]. split; [|done].
  split; unfold assigned_ids, owner_of, ERC721._ownerOf,
    ERC721.isApprovedForAll, ERC721._getApproved in *; proj;
    rewrite ?minted_app; cbn [minted]; rewrite ?app_nil_r; try done.
  intros op. rewrite rd_insert_ne by congruence. apply H4.
Qed.

(** Moving an existing asset to a non-zero address keeps the storage
    sound. *)
Lemma sound_move s s' tokenId to :
  owner_of s tokenId ≠ 0 → to ≠ 0 →
  _owners s' = <[tokenId := to]> (_owners s) →
  _nextTokenId s' = _nextTokenId s →
  minted (events s') = minted (events s) →
  _operatorApprovals s' = _operatorApprovals s →
  _tokenApprovals s' = <[tokenId := 0]> (_tokenApprovals s) →
  sound s → sound s'.
Proof.
  intros Hex Hto Hown Hnx Hev Hop Hap [H1 H2 H3 H4 H5].
  split; unfold assigned_ids, owner_of, ERC721._ownerOf,
    ERC721.isApprovedForAll, ERC721._getApproved in *;
    rewrite ?Hown, ?Hnx, ?Hev, ?Hop, ?Hap; try done.
  - intros id. destruct (decide (tokenId = id)) as [->|Hne].
    + intros _. by apply H2.
    + rewrite rd_insert_ne by done. apply H2.
  - intros id. destruct (decide (tokenId = id)) as [->|Hne].
    + by rewrite !rd_insert_eq.
    + rewrite !rd_insert_ne by done. apply H5.
Qed.

Lemma transferWithPrice_advances env from to assetId price s r s' :
  transferWithPrice env from to assetId price s = Ok (r, s') → advances s s'.
Proof.
  unfold transferWithPrice. intros H.
  apply nonReentrant_Ok in H as (_ & s2 & Hbody & ->).
  apply transferWithPrice_body_Ok in Hbody
    as (Hfrom & Hfrom0 & Hto & _ & _ & _ & _ & _ & Hown & Hev & Hop & _ & _
        & _ & _ & Hnx & Hap).
  intros [Hs Hl]. proj. split; [|lia]. split; [|done].
  apply (sound_move s _ assetId to); proj; try done.
  - by subst from.
  - rewrite Hev, minted_app. cbn. apply Z.eqb_neq in Hfrom0 as ->.
    by rewrite app_nil_r.
Qed.

Lemma transferFrom_advances env from to tokenId s r s' :
  msg_sender env ≠ 0 →
  transferFrom env from to tokenId s = Ok (r, s') → advances s s'.
Proof.
  intros Hsender H [Hs Hl].
  apply transferFrom_Ok in H as (Hto & -> & Hup).
  pose proof (update_Ok _ _ _ _ _ _ _ Hup)
    as (_ & Hauth & _ & _ & _ & _ & _ & _ & Hst & _ & _ & Hnx & _).
  assert (owner_of s tokenId ≠ 0) as Hex.
  { intros Hun. specialize (Hauth Hsender). rewrite Hun in Hauth.
    by rewrite unowned_not_authorized in Hauth. }
  split; [|lia]. split; [|congruence].
  by eapply update_existing_sound.
Qed.

Lemma checkOnERC721Received_Ok receiver to s r s' :
  ERC721.checkOnERC721Received receiver to s = Ok (r, s') →
  ∃ reply, receiver s = Ok (reply, s').
Proof.
  unfold ERC721.checkOnERC721Received. intros H.
  apply bind_Ok in H as (reply & s1 & Hr & H).
  exists reply. destruct reply as [|[]|[]]; cbn in H; by inv_run.
Qed.

Lemma safeTransferFrom_advances env receiver from to tokenId s r s' :
  msg_sender env ≠ 0 →
  (∀ s1 r1 s2, receiver s1 = Ok (r1, s2) → advances s1 s2) →
  safeTransferFrom env receiver from to tokenId s = Ok (r, s') →
  advances s s'.
Proof.
  unfold safeTransferFrom, ERC721.safeTransferFrom. intros Hsender Hrcv H.
  apply bind_Ok in H as ([] & s1 & Htr & Hchk).
  apply checkOnERC721Received_Ok in Hchk as [reply Hr].
  eapply advances_trans; [|by eapply Hrcv].
  by eapply (transferFrom_advances env).
Qed.

Lemma registerAsset_Ok env receiver to uri ty v s r s' :
  registerAsset env receiver to uri ty v s = Ok (r, s') →
  r = _nextTokenId s
  ∧ to ≠ 0
  ∧ ∃ s1 s2 reply,
      _update env to r 0 (set_nextTokenId (r + 1) s) = Ok (0, s1)
      ∧ receiver s1 = Ok (reply, s2)
      ∧ s' = log_event (AssetRegistered to r ty uri v)
               (set_assetDetails
                  <[r := mkAssetInfo uri false Pending v
                           (block_timestamp env) ty]> s2).
Proof.
  unfold registerAsset, onlyRole, _checkRole, _nextTokenId_postincrement,
    _safeMint, ERC721._safeMint, ERC721._mint.
  intros H. inv_run; bools.
  match goal with H : ERC721.checkOnERC721Received _ _ _ = Ok _ |- _ =>
    apply checkOnERC721Received_Ok in H as [reply Hr] end.
  split; [done|]. split; [done|]. subst x1. by exists x2, x8, reply.
Qed.

Lemma registerAsset_advances env receiver to uri ty v s r s' :
  (∀ s1 r1 s2, receiver s1 = Ok (r1, s2) → advances s1 s2) →
  registerAsset env receiver to uri ty v s = Ok (r, s') →
  consistent s → consistent s' ∧ _nextTokenId s < _nextTokenId s'.
Proof.
  intros Hrcv H [Hs Hl].
  apply registerAsset_Ok in H
    as (-> & Hto & s1 & s2 & reply & Hup & Hr & ->).
  destruct (update_mint_sound _ _ _ _ Hup Hto Hs) as (Hs1 & Hn1 & Hst1).
  destruct (Hrcv _ _ _ Hr) as [[Hs2 Hl2] Hn2]; [split; [done | congruence]|].
  proj. split; [|lia]. split; [|done].
  eapply sound_frame; [..|exact Hs2]; proj; try done.
  rewrite minted_app. cbn. by rewrite app_nil_r.
Qed.

(** Every function takes a consistent state to a consistent state, if the
    receiver hook does. *)
Lemma dispatch_advances now sender receiver c s r s' :
  (∀ s1 r1 s2, receiver s1 = Ok (r1, s2) → advances s1 s2) →
  dispatch (mkEnv (Z.pos sender) now) receiver c s = Ok (r, s') →
  advances s s'.
Proof.
  intros Hrcv H.
  destruct c; cbn [dispatch] in H;
    try (apply void_Ok in H as [a H]);
    eauto using setUserVerification_advances, batchVerifyUsers_advances,
      setCompliance_advances, setAssetStatus_advances,
      updateValuation_advances, updateMetadata_advances,
      transferWithPrice_advances, approve_advances, grantRole_advances,
      revokeRole_advances, renounceRole_advances.
  - apply bind_Ok in H as (assetId & s1 & H & Hret).
    apply ret_Ok in Hret as [= _ ->]. intros Hc.
    destruct (registerAsset_advances _ _ _ _ _ _ _ _ _ Hrcv H Hc).
    split; [done | lia].
  - by eapply (transferFrom_advances (mkEnv (Z.pos sender) now)).
  - by eapply (safeTransferFrom_advances (mkEnv (Z.pos sender) now)).
  - by eapply (setApprovalForAll_advances (mkEnv (Z.pos sender) now)).
  - discriminate.
Qed.

(** Every call, every transaction and every run of transactions takes a
    consistent state to a consistent state. *)
Lemma exec_advances now sender c s r s' :
  exec now sender c s = Ok (r, s') → advances s s'.
Proof.
  apply (exec_keep advances advances_refl advances_trans).
  intros. by eapply dispatch_advances.
Qed.

Lemma run_hook_advances now h s r s' :
  run_hook now h s = Ok (r, s') → advances s s'.
Proof.
  apply (exec_run_hook_keep advances advances_refl advances_trans).
  intros. by eapply dispatch_advances.
Qed.

Lemma consistent_deploy now d : consistent (deploy now d).
Proof. split; [apply sound_deploy | by rewrite deploy_state]. Qed.

Lemma reachable_consistent s : reachable s → consistent s.
Proof.
  intros (now & d & txs & ->).
  apply (run_txs_keep advances advances_refl advances_trans).
  - intros. by eapply dispatch_advances.
  - apply consistent_deploy.
Qed.

(** * Identifiers *)

Lemma first_ids_lookup n i a : first_ids n !! i = Some a → a = Z.of_nat i.
Proof.
  unfold first_ids. rewrite list_lookup_fmap. intros H.
  destruct (seq 0 (Z.to_nat n) !! i) as [k|] eqn:E; [|done].
  apply lookup_seq in E as [-> _]. by injection H as <-.
Qed.

Lemma getAssetInfo_unowned assetId s :
  owner_of s assetId = 0 → getAssetInfo assetId s = Revert AssetNotFound.
Proof.
  unfold owner_of, getAssetInfo, require_exists. intros Hun.
  eval_run. rewrite Hun. reflexivity.
Qed.

(** C7.  In every state the contract can reach, the identifiers assigned
    so far are 0, 1, 2, ... in the order of assignment (the i-th
    identifier assigned is i, so each is strictly greater than all
    assigned before it and none is assigned twice); a registration that
    succeeds from that state returns an identifier strictly greater than
    every identifier assigned before, and adds it to those assigned,
    keeping the earlier ones; and [getAssetInfo] on an identifier that was
    not assigned reverts with [AssetNotFound]. *)
Theorem identifiers_are_sequential s :
  reachable s →
  (∀ i a, assigned_ids s !! i = Some a → a = Z.of_nat i)
  ∧ (∀ i j a b, assigned_ids s !! i = Some a → assigned_ids s !! j = Some b →
       (i < j)%nat → a < b)
  ∧ (∀ now sender to uri ty v h r s',
       exec now sender (call_registerAsset to uri ty v h) s = Ok (r, s') →
       ∃ id, r = Some id
             ∧ Forall (λ earlier, earlier < id) (assigned_ids s)
             ∧ assigned_ids s `prefix_of` assigned_ids s'
             ∧ id ∈ assigned_ids s')
  ∧ (∀ id, id ∉ assigned_ids s → getAssetInfo id s = Revert AssetNotFound).
Proof.
  intros Hreach. pose proof (reachable_consistent _ Hreach) as Hc.
  destruct Hc as [Hs Hl]. pose proof Hs as [H1 H2 H3 H4 H5].
  rewrite H3. repeat split.
  - apply first_ids_lookup.
  - intros i j a b Ha Hb Hij.
    apply first_ids_lookup in Ha as ->. apply first_ids_lookup in Hb as ->.
    lia.
  - intros now sender to uri ty v h r s' H.
    rewrite exec_registerAsset in H.
    apply bind_Ok in H as (id & s1 & H & Hret).
    apply ret_Ok in Hret as [= -> ->]. exists id.
    pose proof (registerAsset_Ok _ _ _ _ _ _ _ _ _ H) as (-> & _).
    destruct (registerAsset_advances _ _ _ _ _ _ _ _ _
                (run_hook_advances now h) H (conj Hs Hl)) as [[Hs' _] Hn].
    rewrite (assigned_in_order _ Hs'). pose proof (next_nonneg _ Hs').
    split; [done|]. split; [|split].
    + apply Forall_forall. intros earlier Hin.
      apply elem_of_first_ids in Hin. lia.
    + apply first_ids_prefix. lia.
    + apply elem_of_first_ids. lia.
  - intros id Hid. apply getAssetInfo_unowned.
    destruct (decide (owner_of s id = 0)) as [|Hex]; [done|].
    destruct Hid. apply elem_of_first_ids. by apply H2.
Qed.

Lemma identifiers_are_sequential_witness :
  getAssetInfo 1 fixture_registered = Revert AssetNotFound.
Proof.
  apply (identifiers_are_sequential fixture_registered).
  - by eexists _, _, _.
  - vm_compute. intros Hin. inversion Hin; subst.
    match goal with H : _ ∈ [] |- _ => inversion H end.
Defined.

(** * Reentrancy *)

(** C8.  A call of [transferWithPrice] that arrives while one is in
    progress (the latch [_status] is [ENTERED]) reverts with
    [ReentrancyGuardReentrantCall], whatever its caller and arguments, so
    it changes nothing.  A call that is let in raises the latch before its
    body runs and lowers it after; the body keeps it raised in every state
    it passes through: after the record is pushed, after the transfer,
    after the event.  (The body hands control to no other contract:
    [_transfer], unlike [safeTransferFrom], does not call the receiver.)
    Between transactions the latch is lowered. *)
Theorem reentry_is_rejected :
  (∀ env from to assetId price s,
     _status s = ENTERED →
     transferWithPrice env from to assetId price s
       = Revert ReentrancyGuardReentrantCall)
  ∧ (∀ env from to assetId price s r s',
       transferWithPrice env from to assetId price s = Ok (r, s') →
       _status s ≠ ENTERED
       ∧ ∃ s_end,
           transferWithPrice_body env from to assetId price
             (set_status ENTERED s) = Ok (r, s_end)
           ∧ s' = set_status NOT_ENTERED s_end)
  ∧ (∀ env from to assetId price s r s',
       transferWithPrice_body env from to assetId price s = Ok (r, s') →
       ∃ s1 s2,
         push_record assetId
           (mkTransferRecord from to (block_timestamp env) price) s
           = Ok (tt, s1)
         ∧ _transfer env from to assetId s1 = Ok (tt, s2)
         ∧ emit (AssetTransferred from to assetId price) s2 = Ok (tt, s')
         ∧ _status s1 = _status s
         ∧ _status s2 = _status s
         ∧ _status s' = _status s)
  ∧ (∀ s, reachable s → _status s = NOT_ENTERED).
Proof.
  split; [|split; [|split]].
  - intros env from to assetId price s Hst.
    unfold transferWithPrice, nonReentrant, _nonReentrantBefore.
    eval_run. by rewrite Hst.
  - intros env from to assetId price s r s' H.
    unfold transferWithPrice in H. by apply nonReentrant_Ok in H.
  - intros env from to assetId price s r s' H.
    unfold transferWithPrice_body in H. inv_run.
    match goal with
    | Hp : push_record _ _ _ = Ok (?u1, ?sa),
      Ht : _transfer _ _ _ _ ?sa = Ok (?u2, ?sb) |- _ =>
        destruct u1, u2; exists sa, sb;
        pose proof (transfer_Ok _ _ _ _ _ _ _ Ht) as (_ & _ & _ & Hup);
        apply update_Ok in Hup
          as (_ & _ & _ & _ & _ & _ & _ & _ & Hst & _);
        unfold push_record in Hp; apply write_Ok in Hp as [= ->]
    end.
    proj. repeat split; done.
  - intros s Hreach. by destruct (reachable_consistent _ Hreach).
Qed.

Lemma reentry_is_rejected_witness :
  transferWithPrice (mkEnv 2 2000) 2 3 0 50 (set_status ENTERED fixture_active)
    = Revert ReentrancyGuardReentrantCall.
Proof.
  apply (proj1 reentry_is_rejected). reflexivity.
Defined.

(** * Histories and owners *)

Lemma tracks_refl s : tracks s s.
Proof. split; [apply advances_refl | done]. Qed.

Lemma tracks_trans s1 s2 s3 : tracks s1 s2 → tracks s2 s3 → tracks s1 s3.
Proof.
  intros [Ha12 Ht12] [Ha23 Ht23]. split; [by eapply advances_trans|].
  intros Hc Ht. apply Ht23; [by apply Ha12 | by apply Ht12].
Qed.

Lemma tracked_frame s s' :
  _owners s' = _owners s →
  transferHistory s' = transferHistory s →
  tracked s → tracked s'.
Proof.
  intros Hown Hhi [H1 H2].
  split; unfold history, owner_of, ERC721._ownerOf in *;
    rewrite ?Hown, ?Hhi; done.
Qed.

(** Closes [tracks s s'] for a function that advances and writes neither
    owners nor histories. *)
Ltac by_tracked_frame lemma :=
  split; [by eapply lemma | intros _; apply tracked_frame; proj; done].

(** The gate on an existing asset keeps the histories tracked. *)
Lemma update_existing_tracked env to tokenId auth s prev s' :
  _update env to tokenId auth s = Ok (prev, s') →
  prev ≠ 0 → to ≠ 0 →
  tracked s → tracked s'.
Proof.
  intros Hup Hprev Hto [H1 H2].
  apply update_Ok in Hup as (-> & _ & _ & Hhi & Hown & _).
  apply Z.eqb_neq in Hprev as Hprev'. rewrite Hprev' in Hhi.
  unfold gate_history, gate_records in Hhi.
  split; unfold history, owner_of, ERC721._ownerOf in *; rewrite Hown, Hhi.
  - intros id. destruct (decide (tokenId = id)) as [->|Hne].
    + by rewrite rd_insert_eq.
    + rewrite rd_insert_ne by done. intros Hun.
      destruct (last (rd [] (transferHistory s) tokenId)) as [r|];
        [destruct (negb (tr_to r =? to))|];
        rewrite ?rd_insert_ne by done; by apply H1.
  - intros id r. destruct (decide (tokenId = id)) as [->|Hne].
    + rewrite rd_insert_eq.
      destruct (last (rd [] (transferHistory s) id)) as [r0|] eqn:Elast;
        [destruct (negb (tr_to r0 =? to)) eqn:Eto|].
      * rewrite rd_insert_eq, last_snoc. by intros [= <-].
      * rewrite Elast. intros [= <-]. by bools.
      * rewrite rd_insert_eq, last_snoc. by intros [= <-].
    + rewrite rd_insert_ne by done.
      destruct (last (rd [] (transferHistory s) tokenId)) as [r0|];
        [destruct (negb (tr_to r0 =? to))|];
        rewrite ?rd_insert_ne by done; apply H2.
Qed.

Lemma transferFrom_tracks env from to tokenId s r s' :
  msg_sender env ≠ 0 →
  transferFrom env from to tokenId s = Ok (r, s') → tracks s s'.
Proof.
  intros Hsender H. split; [by eapply transferFrom_advances|].
  intros [Hs Hl] Ht.
  apply transferFrom_Ok in H as (Hto & -> & Hup).
  pose proof (update_Ok _ _ _ _ _ _ _ Hup) as (_ & Hauth & _).
  assert (owner_of s tokenId ≠ 0) as Hex.
  { intros Hun. specialize (Hauth Hsender). rewrite Hun in Hauth.
    by rewrite unowned_not_authorized in Hauth. }
  by eapply update_existing_tracked.
Qed.

Lemma transferWithPrice_tracks env from to assetId price s r s' :
  transferWithPrice env from to assetId price s = Ok (r, s') → tracks s s'.
Proof.
  intros H. split; [by eapply transferWithPrice_advances|].
  intros _ [H1 H2]. unfold transferWithPrice in H.
  apply nonReentrant_Ok in H as (_ & s2 & Hbody & ->).
  apply transferWithPrice_body_Ok in Hbody
    as (_ & _ & Hto & _ & _ & _ & _ & Hhi & Hown & _).
  split; unfold history, owner_of, ERC721._ownerOf in *; proj;
    rewrite Hown, Hhi.
  - intros id. destruct (decide (assetId = id)) as [->|Hne].
    + by rewrite rd_insert_eq.
    + rewrite !rd_insert_ne by done. apply H1.
  - intros id r0. destruct (decide (assetId = id)) as [->|Hne].
    + rewrite !rd_insert_eq, last_snoc. by intros [= <-].
    + rewrite !rd_insert_ne by done. apply H2.
Qed.

Lemma safeTransferFrom_tracks env receiver from to tokenId s r s' :
  msg_sender env ≠ 0 →
  (∀ s1 r1 s2, receiver s1 = Ok (r1, s2) → tracks s1 s2) →
  safeTransferFrom env receiver from to tokenId s = Ok (r, s') →
  tracks s s'.
Proof.
  unfold safeTransferFrom, ERC721.safeTransferFrom. intros Hsender Hrcv H.
  apply bind_Ok in H as ([] & s1 & Htr & Hchk).
  apply checkOnERC721Received_Ok in Hchk as [reply Hr].
  eapply tracks_trans; [|by eapply Hrcv].
  by eapply (transferFrom_tracks env).
Qed.

Lemma registerAsset_tracks env receiver to uri ty v s r s' :
  (∀ s1 r1 s2, receiver s1 = Ok (r1, s2) → tracks s1 s2) →
  registerAsset env receiver to uri ty v s = Ok (r, s') →
  tracks s s'.
Proof.
  intros Hrcv H.
  assert (∀ s1 r1 s2, receiver s1 = Ok (r1, s2) → advances s1 s2) as Hrcv'.
  { intros s1 r1 s2 Hr. by destruct (Hrcv _ _ _ Hr). }
  split.
  { intros Hc.
    destruct (registerAsset_advances _ _ _ _ _ _ _ _ _ Hrcv' H Hc).
    split; [done | lia]. }
  intros [Hs Hl] [H1 H2].
  apply registerAsset_Ok in H
    as (-> & Hto & s1 & s2 & reply & Hup & Hr & ->).
  destruct (update_mint_sound _ _ _ _ Hup Hto Hs) as (Hs1 & Hn1 & Hst1).
  apply update_Ok in Hup as (Hprev & _ & _ & Hhi & Hown & _).
  cbn [Z.eqb] in Hhi. proj.
  assert (tracked s1) as Ht1.
  { split; unfold history, owner_of, ERC721._ownerOf in *; proj;
      rewrite Hown, Hhi.
    - intros id. destruct (decide (_nextTokenId s = id)) as [<-|Hne].
      + by rewrite rd_insert_eq.
      + rewrite rd_insert_ne by done. apply H1.
    - intros id r0. destruct (decide (_nextTokenId s = id)) as [<-|Hne].
      + rewrite H1 by done. done.
      + rewrite rd_insert_ne by done. apply H2. }
  destruct (Hrcv _ _ _ Hr) as [_ Ht2].
  eapply tracked_frame; [..|apply Ht2]; proj; try done.
  split; [done | congruence].
Qed.

Lemma batchVerifyUsers_loop_same users status s r s' :
  batchVerifyUsers_loop users status s = Ok (r, s') →
  _owners s' = _owners s ∧ transferHistory s' = transferHistory s.
Proof.
  revert s. induction users as [|user rest IH]; intros s H; cbn in H.
  - by inv_run.
  - inv_run.
    match goal with H : batchVerifyUsers_loop _ _ _ = Ok _ |- _ =>
      apply IH in H as (-> & ->) end.
    done.
Qed.

(** Every function takes a consistent, tracked state to one, if the
    receiver hook does. *)
Lemma dispatch_tracks now sender receiver c s r s' :
  (∀ s1 r1 s2, receiver s1 = Ok (r1, s2) → tracks s1 s2) →
  dispatch (mkEnv (Z.pos sender) now) receiver c s = Ok (r, s') →
  tracks s s'.
Proof.
  intros Hrcv H.
  assert (∀ s1 r1 s2, receiver s1 = Ok (r1, s2) → advances s1 s2) as Hrcv'.
  { intros s1 r1 s2 Hr. by destruct (Hrcv _ _ _ Hr). }
  split; [by eapply dispatch_advances|].
  destruct c; cbn [dispatch] in H;
    try (apply void_Ok in H as [a H]).
  - apply bind_Ok in H as (assetId & s1 & H & Hret).
    apply ret_Ok in Hret as [= _ ->].
    by eapply registerAsset_tracks.
  - unfold setUserVerification, onlyRole, _checkRole in H. inv_run.
    intros _. apply tracked_frame; proj; done.
  - unfold batchVerifyUsers, onlyRole, _checkRole in H. inv_run.
    match goal with H : batchVerifyUsers_loop _ _ _ = Ok _ |- _ =>
      apply batchVerifyUsers_loop_same in H as [? ?] end.
    intros _. by apply tracked_frame.
  - unfold setCompliance, onlyRole, _checkRole, require_exists,
      update_details in H. inv_run. intros _. apply tracked_frame; proj; done.
  - unfold setAssetStatus, onlyRole, _checkRole, require_exists,
      update_details in H. inv_run. intros _. apply tracked_frame; proj; done.
  - unfold updateValuation, onlyRole, _checkRole, require_exists,
      update_details in H. inv_run. intros _. apply tracked_frame; proj; done.
  - unfold updateMetadata, onlyRole, _checkRole, require_exists,
      update_details in H. inv_run. intros _. apply tracked_frame; proj; done.
  - by eapply transferWithPrice_tracks.
  - by eapply (transferFrom_tracks (mkEnv (Z.pos sender) now)).
  - by eapply (safeTransferFrom_tracks (mkEnv (Z.pos sender) now)).
  - unfold ERC721.approve, ERC721._approve, ERC721._requireOwned in H.
    cbn [orb] in H. inv_run; intros _; apply tracked_frame; proj; done.
  - unfold ERC721.setApprovalForAll, ERC721._setApprovalForAll in H.
    inv_run. intros _. apply tracked_frame; proj; done.
  - unfold grantRole, _grantRole, onlyRole, _checkRole in H.
    inv_run; intros _; first [done | apply tracked_frame; proj; done].
  - unfold revokeRole, _revokeRole, onlyRole, _checkRole in H.
    inv_run; intros _; first [done | apply tracked_frame; proj; done].
  - unfold renounceRole, _revokeRole in H.
    inv_run; intros _; first [done | apply tracked_frame; proj; done].
  - discriminate.
Qed.

Lemma tracked_deploy now d : tracked (deploy now d).
Proof.
  rewrite deploy_state.
  split; unfold history, owner_of, ERC721._ownerOf; proj.
  - intros id _. by rewrite rd_empty.
  - intros id r. by rewrite rd_empty.
Qed.

Lemma reachable_tracked s : reachable s → tracked s.
Proof.
  intros (now & d & txs & ->).
  apply (run_txs_keep tracks tracks_refl tracks_trans).
  - intros. by eapply dispatch_tracks.
  - apply consistent_deploy.
  - apply tracked_deploy.
Qed.

(** What a plain transfer records.  In every state the contract can reach,
    a successful [transferFrom] to an account other than the current owner
    appends exactly one record, with price 0, to the history of the asset;
    a successful [transferFrom] of an asset to its current owner appends
    that record only if the history is still empty, and nothing
    otherwise. *)
Lemma plain_transfer_history s now sender from to tokenId r s' :
  reachable s →
  exec now sender (call_transferFrom from to tokenId) s = Ok (r, s') →
  history s' tokenId =
    if bool_decide (to = owner_of s tokenId)
       && negb (bool_decide (history s tokenId = []))
    then history s tokenId
    else history s tokenId ++
           [mkTransferRecord (owner_of s tokenId) to now 0].
Proof.
  intros Hreach H.
  pose proof (reachable_consistent _ Hreach) as [Hs Hl].
  pose proof (reachable_tracked _ Hreach) as [H1 H2].
  rewrite exec_transferFrom in H. apply void_Ok in H as [a H].
  apply transferFrom_Ok in H as (Hto & -> & Hup).
  pose proof (update_Ok _ _ _ _ _ _ _ Hup) as (_ & Hauth & _ & Hhi & _).
  assert (owner_of s tokenId ≠ 0) as Hex.
  { intros Hun. cbn [msg_sender] in Hauth. rewrite Hun in Hauth.
    rewrite unowned_not_authorized in Hauth by done.
    by specialize (Hauth ltac:(done)). }
  apply Z.eqb_neq in Hex as Hex'. rewrite Hex' in Hhi.
  unfold gate_history, gate_records in Hhi. cbn [block_timestamp] in Hhi.
  unfold history in *. rewrite Hhi.
  destruct (last (rd [] (transferHistory s) tokenId)) as [r0|] eqn:Elast.
  - pose proof (H2 _ _ Elast) as Hr0. rewrite Hr0.
    assert (rd [] (transferHistory s) tokenId ≠ []) as Hne.
    { intros Hnil. by rewrite Hnil in Elast. }
    rewrite (bool_decide_eq_false_2 _ Hne). cbn [negb].
    rewrite andb_true_r, Z.eqb_sym.
    destruct (decide (to = owner_of s tokenId)) as [->|Hdiff].
    + rewrite Z.eqb_refl, bool_decide_eq_true_2 by done. done.
    + apply Z.eqb_neq in Hdiff as Hdiff'. rewrite Hdiff'.
      rewrite bool_decide_eq_false_2 by done. cbn. by rewrite rd_insert_eq.
  - apply last_None in Elast. rewrite Elast.
    rewrite (bool_decide_eq_true_2 ([] = [])) by done. cbn [negb].
    rewrite andb_false_r. by rewrite rd_insert_eq.
Qed.

(** * The fixtures *)

Lemma reachable_run_tx s tx : reachable s → reachable (run_tx s tx).
Proof.
  intros (now & d & txs & ->). exists now, d, (txs ++ [tx]).
  unfold run_txs. by rewrite fold_left_app.
Qed.

Lemma reachable_fixture_active : reachable fixture_active.
Proof.
  exists 1000, deployer,
    [ mkTx 1001 deployer (call_setUserVerification (Z.pos user1) true);
      mkTx 1002 deployer (call_setUserVerification (Z.pos user2) true);
      mkTx 1003 deployer
        (call_registerAsset (Z.pos user1) "ipfs://test" "property" 100
           hook_none);
      mkTx 1004 deployer (call_setCompliance 0 true);
      mkTx 1005 deployer (call_setAssetStatus 0 Active) ].
  reflexivity.
Qed.

Lemma sound_fixture_active : sound fixture_active.
Proof. apply reachable_consistent, reachable_fixture_active. Qed.

Lemma plain_transfer_history_witness :
  history fixture_transferred 0 =
    if bool_decide (3 = owner_of fixture_active 0)
       && negb (bool_decide (history fixture_active 0 = []))
    then history fixture_active 0
    else history fixture_active 0 ++
           [mkTransferRecord (owner_of fixture_active 0) 3 2000 0].
Proof.
  apply (plain_transfer_history fixture_active 2000 user1 2 3 0 None
           fixture_transferred).
  - apply reachable_fixture_active.
  - vm_compute. reflexivity.
Defined.

Lemma batchVerifyUsers_sets_all_witness :
  ∃ s', batchVerifyUsers (mkEnv 1 2000) [2; 3; 2] true fixture_deployed
          = Ok (tt, s')
        ∧ (∀ account, account ∈ [2; 3; 2] → isVerified s' account = true)
        ∧ (∀ account, account ∉ [2; 3; 2] →
             isVerified s' account = isVerified fixture_deployed account).
Proof.
  apply (batchVerifyUsers_sets_all (mkEnv 1 2000) [2; 3; 2] true
           fixture_deployed).
  vm_compute. reflexivity.
Defined.

(** * Outcomes of the transfer functions *)

(** Symbolic evaluation under the tests recorded in the context. *)
Ltac eval_hyps :=
  repeat first
    [ eval_step
    | match goal with H : _ = true |- _ => rewrite H end
    | match goal with H : _ = false |- _ => rewrite H end
    | rewrite last_snoc
    | progress cbn [tr_to msg_sender block_timestamp] ].

Ltac unfold_getters :=
  unfold owner_of, details, isVerified, history, ERC721._isAuthorized,
    ERC721.isApprovedForAll, ERC721._getApproved, ERC721._ownerOf in *.

Ltac head_of t :=
  lazymatch t with
  | ?f _ => head_of f
  | _ => t
  end.

(** Unfolds the function that the run has reached, and no other; a
    receiver hook is left to the proof. *)
Ltac unfold_reached m :=
  let f := head_of m in
  lazymatch f with
  | run_hook => fail
  | exec => fail
  | ERC721.checkOnERC721Received => fail
  | _ => progress unfold f at 1
  end.

Ltac unfold_head :=
  lazymatch goal with
  | |- bind ?m _ _ = _ => unfold_reached m
  | |- ?m _ = _ => unfold_reached m
  end.

Ltac proj_goal :=
  cbn [set_owners set_balances set_tokenApprovals set_operatorApprovals
       set_roles set_status set_assetDetails set_transferHistory
       set_verifiedUsers set_nextTokenId log_event
       _owners _balances _tokenApprovals _operatorApprovals _roles _status
       assetDetails transferHistory verifiedUsers _nextTokenId events].

(** Runs a call one statement at a time, unfolding a function when the
    run reaches it and deciding each test by the equations recorded in the
    context. *)
Ltac run_step :=
  first
    [ rewrite bind_bind | rewrite bind_read | rewrite bind_write
    | rewrite bind_emit | rewrite bind_ret | rewrite bind_revert
    | rewrite bind_require | rewrite bind_if
    | rewrite rd_insert_eq | rewrite rd_empty
    | rewrite Z.eqb_refl | rewrite Zpos_eqb_0 | rewrite Z0_eqb_MAX
    | rewrite last_snoc
    | progress proj_goal
    | progress cbn [negb andb orb tr_to msg_sender block_timestamp]
    | progress unfold ERC721._isAuthorized, ERC721.isApprovedForAll,
        ERC721._getApproved, ERC721._ownerOf
    | match goal with H : _ = true |- _ => rewrite H end
    | match goal with H : _ = false |- _ => rewrite H end
    | unfold_head ].

Ltac run_call := repeat run_step.

(** Whoever is authorized for an asset, the asset exists. *)
Lemma authorized_exists s spender tokenId :
  sound s →
  ERC721._isAuthorized (owner_of s tokenId) spender tokenId s = true →
  owner_of s tokenId ≠ 0.
Proof.
  intros Hs Hauth Hun. rewrite Hun in Hauth.
  by rewrite unowned_not_authorized in Hauth.
Qed.

(** The outcome of a price-tracked transfer.  [transferWithPrice] makes
    its checks in this order: the reentrancy latch, the caller's
    authorization for the asset, the recipient's verification, the
    recipient not being [address(0)], the asset's compliance flag, its
    status being Active, and [from] being the owner.  The call reverts
    with the error of the first check that fails; when all pass it
    succeeds, the recipient is the owner afterwards, and the details of
    every asset, valuation included, are what they were: the price goes to
    the history only. *)
Theorem transferWithPrice_outcome env from to assetId price s :
  sound s →
  match transferWithPrice_refusal s (msg_sender env) from to assetId with
  | Some e => transferWithPrice env from to assetId price s = Revert e
  | None =>
      ∃ s', transferWithPrice env from to assetId price s = Ok (tt, s')
            ∧ owner_of s' assetId = to
            ∧ assetDetails s' = assetDetails s
  end.
Proof.
  intros Hs. unfold transferWithPrice_refusal.
  destruct (_status s =? ENTERED) eqn:Est.
  { by run_call. }
  destruct (ERC721._isAuthorized _ _ _ s) eqn:Eauth; cbn [negb].
  2: { unfold_getters. by run_call. }
  pose proof (authorized_exists _ _ _ Hs Eauth) as Hex.
  apply Z.eqb_neq in Hex as Eex.
  destruct (isVerified s to) eqn:Ever; cbn [negb].
  2: { apply transferWithPrice_unverified; bools; done. }
  destruct (to =? 0) eqn:Eto.
  { unfold_getters. by run_call. }
  destruct (isCompliant (details s assetId)) eqn:Ecom; cbn [negb].
  2: { unfold_getters. by run_call. }
  destruct (bool_decide (status (details s assetId) = Active)) eqn:Eact;
    cbn [negb].
  2: { unfold_getters. by run_call. }
  destruct (owner_of s assetId =? from) eqn:Efrom; cbn [negb].
  2: { unfold_getters. by run_call. }
  bools.
  destruct (transferWithPrice_succeeds env from to assetId price s)
    as (s' & H & Hnew); try done; [congruence | by subst |].
  exists s'. split; [done|]. split; [done|].
  unfold transferWithPrice in H.
  apply nonReentrant_Ok in H as (_ & s2 & Hbody & ->).
  apply transferWithPrice_body_Ok in Hbody
    as (_ & _ & _ & _ & _ & _ & _ & _ & _ & _ & _ & _ & _ & Hde & _).
  by proj.
Qed.

Lemma transferWithPrice_outcome_witness :
  transferWithPrice (mkEnv 3 2000) 2 3 0 50 fixture_active
    = Revert NotAuthorized.
Proof.
  exact (transferWithPrice_outcome (mkEnv 3 2000) 2 3 0 50 fixture_active
           sound_fixture_active).
Defined.

Lemma run_hook_total now h s :
  ∃ s', run_hook now h s = Ok (final_reply h, s').
Proof.
  revert s. induction h as [| | |sender c rest IH]; intros s; cbn;
    try by eexists.
  unfold bind, attempt.
  destruct (exec now sender c s) as [[r s1]|e]; apply IH.
Qed.

Lemma checkOnERC721Received_decides receiver to reply s s' :
  receiver s = Ok (reply, s') →
  ERC721.checkOnERC721Received receiver to s =
    match reply_refusal to reply with
    | Some e => Revert e
    | None => Ok (tt, s')
    end.
Proof.
  unfold ERC721.checkOnERC721Received, bind. intros ->.
  by destruct reply as [|[]|[]].
Qed.

Lemma transferFrom_decides env from to tokenId s :
  sound s → msg_sender env ≠ 0 →
  match transferFrom_refusal s (msg_sender env) from to tokenId with
  | Some e => transferFrom env from to tokenId s = Revert e
  | None =>
      ∃ s', transferFrom env from to tokenId s = Ok (tt, s')
            ∧ owner_of s' tokenId = to
            ∧ assetDetails s' = assetDetails s
  end.
Proof.
  intros Hs Hsender. apply Z.eqb_neq in Hsender as Esender.
  unfold transferFrom_refusal.
  destruct (to =? 0) eqn:Eto.
  { by run_call. }
  destruct (owner_of s tokenId =? 0) eqn:Eex.
  { apply Z.eqb_eq in Eex as Hun.
    pose proof (unowned_not_authorized s tokenId (msg_sender env) Hs Hun)
      as Hna.
    rewrite <- Hun in Hna at 1. unfold_getters.
    rewrite Esender in Hna. cbn [negb andb] in Hna. by run_call. }
  destruct (isCompliant (details s tokenId)) eqn:Ecom; cbn [negb].
  2: { unfold_getters. by run_call. }
  destruct (bool_decide (status (details s tokenId) = Active)) eqn:Eact;
    cbn [negb].
  2: { unfold_getters. by run_call. }
  destruct (isVerified s to) eqn:Ever; cbn [negb].
  2: { unfold_getters. by run_call. }
  destruct (gate_records s to tokenId) eqn:Egate; unfold gate_records in Egate.
  all: destruct (ERC721._isAuthorized _ _ _ s) eqn:Eauth; cbn [negb].
  all: unfold_getters; rewrite Esender in Eauth; cbn [negb andb] in Eauth.
  all: try by run_call.
  all: destruct (rd 0 (_owners s) tokenId =? from) eqn:Efrom; cbn [negb].
  all: try by run_call.
  all: eexists; (split; [by run_call|]); proj;
    split; [by rewrite rd_insert_eq | done].
Qed.

(** The outcome of a plain transfer.  [transferFrom] makes its checks in
    this order: the recipient not being [address(0)], the asset existing,
    its compliance flag, its status being Active, the recipient's
    verification, the caller's authorization, and [from] being the owner;
    [safeTransferFrom] then asks a recipient contract, whose refusal or
    failure undoes the transfer.  The call reverts with the error of the
    first check that fails; when all pass it succeeds, and after
    [transferFrom] the recipient is the owner and the details of every
    asset are what they were. *)
Theorem plain_transfer_outcome now sender from to tokenId h s :
  sound s →
  match transferFrom_refusal s (Z.pos sender) from to tokenId with
  | Some e => exec now sender (call_transferFrom from to tokenId) s = Revert e
  | None =>
      ∃ s', exec now sender (call_transferFrom from to tokenId) s
              = Ok (None, s')
            ∧ owner_of s' tokenId = to
            ∧ assetDetails s' = assetDetails s
  end
  ∧ match safeTransferFrom_refusal s (Z.pos sender) from to tokenId
            (final_reply h) with
    | Some e =>
        exec now sender (call_safeTransferFrom from to tokenId h) s = Revert e
    | None =>
        ∃ s', exec now sender (call_safeTransferFrom from to tokenId h) s
                = Ok (None, s')
    end.
Proof.
  intros Hs.
  assert (msg_sender (mkEnv (Z.pos sender) now) ≠ 0) as Hsender by done.
  pose proof (transferFrom_decides (mkEnv (Z.pos sender) now) from to tokenId
                s Hs Hsender) as H.
  cbn [msg_sender] in H.
  rewrite exec_transferFrom, exec_safeTransferFrom.
  unfold safeTransferFrom_refusal, void, safeTransferFrom,
    ERC721.safeTransferFrom.
  fold (transferFrom (mkEnv (Z.pos sender) now)).
  rewrite bind_bind.
  destruct (transferFrom_refusal s (Z.pos sender) from to tokenId) as [e|].
  - unfold bind. by rewrite H.
  - destruct H as (s1 & H & Hown & Hde). split.
    { exists s1. unfold bind. by rewrite H. }
    destruct (run_hook_total now h s1) as (s2 & Hr).
    unfold bind. rewrite H, (checkOnERC721Received_decides _ _ _ _ _ Hr).
    destruct (reply_refusal to (final_reply h)); [done | eexists; reflexivity].
Qed.

Lemma plain_transfer_outcome_witness :
  exec 2000 user1 (call_safeTransferFrom 2 3 0 (hook_return false))
    fixture_active
  = Revert (ERC721InvalidReceiver 3).
Proof.
  exact (proj2 (plain_transfer_outcome 2000 user1 2 3 0
                  (hook_return false) fixture_active sound_fixture_active)).
Defined.

(** * Registration *)

(** The identifier that the counter holds is not assigned yet. *)
Lemma next_unowned s : sound s → owner_of s (_nextTokenId s) = 0.
Proof.
  intros Hs. destruct (decide (owner_of s (_nextTokenId s) = 0)) as [|Hex];
    [done|].
  apply (owned_below_next _ Hs) in Hex. lia.
Qed.

(** The outcome of a registration.  [registerAsset] makes its checks in
    this order: the caller's Minter role, the recipient's verification,
    the counter not being at its maximum, the recipient not being
    [address(0)], and the reply of a recipient contract (whatever calls
    that contract made back into this one).  The call reverts with the
    error of the first check that fails, [Panic(0x11)] for the counter and
    the recipient's own reason when it failed with one; when all pass it
    succeeds, returns the value of the counter, and the details of that
    asset are the registered ones: not compliant, Pending, the given
    valuation, type and locator, and the time of the call. *)
Theorem registerAsset_outcome now sender to uri ty v h s :
  sound s →
  match registerAsset_refusal s (Z.pos sender) to (final_reply h) with
  | Some e =>
      exec now sender (call_registerAsset to uri ty v h) s = Revert e
  | None =>
      ∃ s', exec now sender (call_registerAsset to uri ty v h) s
              = Ok (Some (_nextTokenId s), s')
            ∧ details s' (_nextTokenId s)
              = mkAssetInfo uri false Pending v now ty
  end.
Proof.
  intros Hs. pose proof (next_unowned s Hs) as Hun.
  apply Z.eqb_eq in Hun as Eun.
  rewrite exec_registerAsset. unfold registerAsset_refusal.
  destruct (hasRole MINTER_ROLE (Z.pos sender) s) eqn:Erole; cbn [negb].
  2: { by run_call. }
  destruct (isVerified s to) eqn:Ever; cbn [negb].
  2: { unfold bind at 1. by rewrite registerAsset_unverified. }
  destruct (_nextTokenId s =? MAX_UINT256) eqn:Emax.
  { unfold_getters. by run_call. }
  destruct (to =? 0) eqn:Eto.
  { unfold_getters. by run_call. }
  destruct (run_hook_total now h
              (log_event (Transfer 0 to (_nextTokenId s))
                 (set_owners <[_nextTokenId s := to]>
                    (set_balances
                       (λ b, <[to := ERC721.wrap (rd 0 b to + 1)]> b)
                       (set_nextTokenId (_nextTokenId s + 1) s)))))
    as (s2 & Hr).
  pose proof (checkOnERC721Received_decides _ to _ _ _ Hr) as Hchk.
  unfold_getters.
  destruct (reply_refusal to (final_reply h)) as [e|].
  - run_call. rewrite Hun. unfold bind at 1. by rewrite Hchk.
  - eexists. split.
    + run_call. rewrite Hun. unfold bind at 1. rewrite Hchk. by run_call.
    + proj. by rewrite rd_insert_eq.
Qed.

Lemma registerAsset_outcome_witness :
  exec 2000 deployer
    (call_registerAsset 3 "ipfs://b" "art" 5
       (hook_fail (Some (Reason "Token rejected"))))
    fixture_active
  = Revert (Reason "Token rejected").
Proof.
  exact (registerAsset_outcome 2000 deployer 3 "ipfs://b" "art" 5
           (hook_fail (Some (Reason "Token rejected"))) fixture_active
           sound_fixture_active).
Defined.

(** * Views *)

Lemma getAssetInfo_answer assetId s :
  answer (getAssetInfo assetId) s =
    if owner_of s assetId =? 0 then Revert AssetNotFound
    else Ok (info_tuple (details s assetId) (owner_of s assetId)).
Proof.
  unfold answer, getAssetInfo, require_exists, owner_of, details, info_tuple.
  eval_run. by destruct (ERC721._ownerOf assetId s =? 0).
Qed.

Lemma tokenURI_answer assetId s :
  answer (tokenURI assetId) s =
    if owner_of s assetId =? 0 then Revert AssetNotFound
    else Ok (metadataURI (details s assetId)).
Proof.
  unfold answer, tokenURI, require_exists, owner_of, details.
  eval_run. by destruct (ERC721._ownerOf assetId s =? 0).
Qed.

Lemma getTransferHistory_answer assetId s :
  answer (getTransferHistory assetId) s =
    if owner_of s assetId =? 0 then Revert AssetNotFound
    else Ok (history s assetId).
Proof.
  unfold answer, getTransferHistory, require_exists, owner_of, history.
  eval_run. by destruct (ERC721._ownerOf assetId s =? 0).
Qed.

(** What a registration to an account without code leaves to read.  In
    every state the contract can reach, a successful [registerAsset] to a
    recipient that is not a contract returns the value of the counter, an
    identifier for which [getAssetInfo] failed before; afterwards
    [getAssetInfo] returns the registered fields with the recipient as
    owner, [tokenURI] the locator and [getTransferHistory] the empty list,
    the counter is one higher, and what the views return for every other
    identifier is what they returned before. *)
Theorem registration_is_readable s now sender to uri ty v r s' :
  reachable s →
  exec now sender (call_registerAsset to uri ty v hook_none) s = Ok (r, s') →
  r = Some (_nextTokenId s)
  ∧ answer (getAssetInfo (_nextTokenId s)) s = Revert AssetNotFound
  ∧ answer (getAssetInfo (_nextTokenId s)) s'
    = Ok (uri, false, Pending, v, now, ty, to)
  ∧ answer (tokenURI (_nextTokenId s)) s' = Ok uri
  ∧ answer (getTransferHistory (_nextTokenId s)) s' = Ok []
  ∧ _nextTokenId s' = _nextTokenId s + 1
  ∧ ∀ other, other ≠ _nextTokenId s →
      answer (getAssetInfo other) s' = answer (getAssetInfo other) s
      ∧ answer (getTransferHistory other) s'
        = answer (getTransferHistory other) s.
Proof.
  intros Hreach H.
  pose proof (reachable_consistent _ Hreach) as [Hs Hl].
  pose proof (reachable_tracked _ Hreach) as [Ht1 Ht2].
  pose proof (next_unowned s Hs) as Hun.
  rewrite exec_registerAsset in H.
  apply bind_Ok in H as (id & s0 & H & Hret).
  apply ret_Ok in Hret as [= -> ->].
  apply registerAsset_Ok in H
    as (-> & Hto & s1 & s2 & reply & Hup & Hr & ->).
  cbn [run_hook] in Hr. apply ret_Ok in Hr as [= _ <-].
  apply update_Ok in Hup
    as (_ & _ & _ & Hhi & Hown & _ & _ & _ & _ & Hde & _ & Hnx & _).
  cbn [Z.eqb] in Hhi. proj.
  apply Z.eqb_neq in Hto as Eto.
  rewrite !getAssetInfo_answer, tokenURI_answer, getTransferHistory_answer.
  rewrite Hun. unfold owner_of, details, history, ERC721._ownerOf in *. proj.
  rewrite Hown, Hhi, !rd_insert_eq, Eto, Ht1 by done.
  cbn [block_timestamp Z.eqb].
  repeat split; try done.
  - rewrite !getAssetInfo_answer.
    unfold owner_of, details, history, ERC721._ownerOf. proj.
    by rewrite Hown, Hde, !rd_insert_ne.
  - rewrite !getTransferHistory_answer.
    unfold owner_of, details, history, ERC721._ownerOf. proj.
    by rewrite Hown, Hhi, !rd_insert_ne.
Qed.

Lemma registration_is_readable_witness :
  answer (tokenURI (_nextTokenId fixture_active))
    (run_tx fixture_active
       (mkTx 2000 deployer (call_registerAsset 3 "ipfs://b" "art" 5 hook_none)))
  = Ok "ipfs://b".
Proof.
  apply (registration_is_readable fixture_active 2000 deployer 3 "ipfs://b"
           "art" 5 (Some 1)).
  - apply reachable_fixture_active.
  - vm_compute. reflexivity.
Defined.

(** * Roles *)

(** Every function that carries [onlyRole] reverts with
    [AccessControlUnauthorizedAccount], naming the caller and the role,
    when the caller does not hold the role, whatever the arguments and
    whatever else would be wrong with the call: the role is checked
    first. *)
Theorem missing_role_is_refused now sender c role s :
  required_role c = Some role →
  hasRole role (Z.pos sender) s = false →
  exec now sender c s
    = Revert (AccessControlUnauthorizedAccount (Z.pos sender) role).
Proof.
  intros Hreq Hno.
  destruct c; cbn in Hreq; try discriminate; injection Hreq as <-;
    cbn [exec dispatch];
    unfold void, registerAsset, setUserVerification, batchVerifyUsers,
      setCompliance, setAssetStatus, updateValuation, updateMetadata,
      grantRole, revokeRole, onlyRole, _checkRole;
    by eval_hyps.
Qed.

Lemma missing_role_is_refused_witness :
  exec 2000 user1 (call_setAssetStatus 0 Active) fixture_registered
    = Revert (AccessControlUnauthorizedAccount 2 ADMIN_ROLE).
Proof.
  apply (missing_role_is_refused 2000 user1 (call_setAssetStatus 0 Active)
           ADMIN_ROLE fixture_registered).
  - reflexivity.
  - vm_compute. reflexivity.
Defined.

Lemma same_registry_refl s : same_registry s s.
Proof. by repeat split. Qed.

Lemma same_registry_trans s1 s2 s3 :
  same_registry s1 s2 → same_registry s2 s3 → same_registry s1 s3.
Proof.
  intros (? & ? & ? & ?) (? & ? & ? & ?). repeat split; congruence.
Qed.

Lemma holds_no_role_frame s s' account :
  _roles s' = _roles s → holds_no_role s account → holds_no_role s' account.
Proof. intros Hro H role. unfold hasRole. rewrite Hro. apply H. Qed.

(** A call does not succeed when its caller lacks the role of its
    modifier. *)
Ltac no_role H Hno :=
  apply bind_Ok in H as (? & ? & H & _);
  unfold onlyRole, _checkRole in H; cbn [msg_sender] in H; inv_run;
  match goal with E : hasRole _ _ _ = true |- _ => by rewrite Hno in E end.

(** What accounts without a role cannot do.  When neither the caller of a
    call nor the caller of any call nested in it (through receiver hooks)
    holds a role, the call, if it succeeds, leaves the details of every
    asset, every verification flag, every role and the counter as they
    were: such accounts can move and approve assets and nothing else.
    The same holds of the run of a receiver hook whose calls are all made
    by such accounts. *)
Theorem unprivileged_calls_keep_registry :
  (∀ c now sender s r s',
     (∀ a, a ∈ sender :: callers c → holds_no_role s (Z.pos a)) →
     exec now sender c s = Ok (r, s') → same_registry s s')
  ∧ (∀ h now s r s',
       (∀ a, a ∈ hook_callers h → holds_no_role s (Z.pos a)) →
       run_hook now h s = Ok (r, s') → same_registry s s').
Proof.
  apply Call_Hook_ind; intros.
  all: try match goal with
    | Ha : ∀ a, a ∈ ?sender :: _ → _, H : exec _ ?sender _ _ = Ok _ |- _ =>
        pose proof (Ha sender ltac:(by left)) as Hno;
        cbn [exec dispatch] in H;
        try (apply void_Ok in H as [? H])
    end.
  - apply bind_Ok in H1 as (? & ? & H1 & _). unfold registerAsset in H1.
    no_role H1 Hno.
  - unfold setUserVerification in H0. no_role H0 Hno.
  - unfold batchVerifyUsers in H0. no_role H0 Hno.
  - unfold setCompliance in H0. no_role H0 Hno.
  - unfold setAssetStatus in H0. no_role H0 Hno.
  - unfold updateValuation in H0. no_role H0 Hno.
  - unfold updateMetadata in H0. no_role H0 Hno.
  - unfold transferWithPrice in H0.
    apply nonReentrant_Ok in H0 as (_ & s2 & Hbody & ->).
    apply transferWithPrice_body_Ok in Hbody
      as (_ & _ & _ & _ & _ & _ & _ & _ & _ & _ & _ & Hro & _ & Hde & Hve
          & Hnx & _).
    by repeat split.
  - apply transferFrom_Ok in H0 as (_ & _ & Hup).
    apply update_Ok in Hup
      as (_ & _ & _ & _ & _ & _ & _ & Hro & _ & Hde & Hve & Hnx & _).
    by repeat split.
  - unfold safeTransferFrom, ERC721.safeTransferFrom in H1.
    apply bind_Ok in H1 as ([] & s1 & Htr & Hchk).
    apply checkOnERC721Received_Ok in Hchk as [reply Hr].
    apply (transferFrom_Ok (mkEnv (Z.pos sender) now)) in Htr as (_ & _ & Hup).
    apply update_Ok in Hup
      as (_ & _ & _ & _ & _ & _ & _ & Hro & _ & Hde & Hve & Hnx & _).
    apply (same_registry_trans s s1 s'); [by repeat split|].
    eapply H; [|exact Hr].
    intros a Ha. eapply holds_no_role_frame; [done|].
    apply H0. by right.
  - unfold ERC721.approve, ERC721._approve, ERC721._requireOwned in H0.
    cbn [orb] in H0. inv_run; by repeat split.
  - unfold ERC721.setApprovalForAll, ERC721._setApprovalForAll in H0.
    inv_run. by repeat split.
  - unfold grantRole in H0. no_role H0 Hno.
  - unfold revokeRole in H0. no_role H0 Hno.
  - unfold renounceRole, _revokeRole in H0. cbn [msg_sender] in H0.
    inv_run; bools; subst; first
      [ match goal with E : hasRole _ _ _ = true |- _ =>
          by rewrite Hno in E end
      | apply same_registry_refl ].
  - discriminate.
  - apply ret_Ok in H0 as [= _ ->]. apply same_registry_refl.
  - apply ret_Ok in H0 as [= _ ->]. apply same_registry_refl.
  - apply ret_Ok in H0 as [= _ ->]. apply same_registry_refl.
  - cbn [run_hook] in H2. apply bind_Ok in H2 as ([] & s1 & Hcall & Hrest).
    cbn [hook_callers] in H1.
    assert (same_registry s s1) as Hs1.
    { unfold attempt in Hcall.
      destruct (exec now sender c s) as [[r1 s1']|e] eqn:E;
        injection Hcall as <-; [|apply same_registry_refl].
      eapply H; [|exact E]. intros a Ha. apply H1.
      apply elem_of_cons in Ha as [->|Ha]; [by left|].
      right. apply elem_of_app. by left. }
    eapply same_registry_trans; [exact Hs1|].
    eapply H0; [|exact Hrest].
    intros a Ha. eapply holds_no_role_frame; [apply Hs1|].
    apply H1. right. apply elem_of_app. by right.
Qed.

Lemma unprivileged_calls_keep_registry_witness :
  same_registry fixture_active fixture_transferred.
Proof.
  apply (proj1 unprivileged_calls_keep_registry (call_transferFrom 2 3 0)
           2000 user1 fixture_active None).
  - intros a Ha role. cbn [callers] in Ha.
    apply list_elem_of_singleton in Ha as ->.
    unfold hasRole.
    replace (_roles fixture_active) with (_roles (deploy 1000 deployer))
      by (vm_compute; reflexivity).
    rewrite deploy_state. proj.
    rewrite !rd_insert_ne by (intros [= ? ?]; done). apply rd_empty.
  - vm_compute. reflexivity.
Defined.

(** * The four assignments to an asset's details *)

(** What an assignment by a holder of the role does to an asset that
    exists. *)
Lemma assignment_exec now sender c assetId f role s :
  assigns c = Some (assetId, f) →
  required_role c = Some role →
  hasRole role (Z.pos sender) s = true →
  owner_of s assetId ≠ 0 →
  ∃ s',
    exec now sender c s = Ok (None, s')
    ∧ assetDetails s' = <[assetId := f (details s assetId)]> (assetDetails s)
    ∧ _owners s' = _owners s
    ∧ transferHistory s' = transferHistory s
    ∧ verifiedUsers s' = verifiedUsers s
    ∧ _roles s' = _roles s.
Proof.
  intros Hset Hreq Hrole Hex. apply Z.eqb_neq in Hex as Eex.
  destruct c; cbn in Hset, Hreq; try discriminate;
    injection Hset as -> <-; injection Hreq as <-;
    cbn [exec dispatch];
    unfold void, setCompliance, setAssetStatus, updateValuation,
      updateMetadata, onlyRole, _checkRole, require_exists, update_details;
    unfold owner_of, ERC721._ownerOf in Eex; unfold ERC721._ownerOf;
    eval_hyps; eexists; (split; [reflexivity|]); proj; done.
Qed.

(** The outcome of [setCompliance], [setAssetStatus], [updateValuation]
    and [updateMetadata] when the caller holds the role of the function.
    For an identifier that is not an asset the call reverts with "Asset
    does not exist".  For an asset it succeeds, whatever the asset's
    current compliance flag and status (no order of statuses is
    enforced); afterwards [getAssetInfo] returns for the asset what it
    returned before with the one field replaced, [tokenURI] returns its
    locator, and owners, histories, verification flags, roles and what
    [getAssetInfo] returns for every other asset are unchanged. *)
Theorem assignment_outcome now sender c assetId f role s :
  assigns c = Some (assetId, f) →
  required_role c = Some role →
  hasRole role (Z.pos sender) s = true →
  if owner_of s assetId =? 0
  then exec now sender c s = Revert AssetNotFound
  else ∃ s',
    exec now sender c s = Ok (None, s')
    ∧ answer (getAssetInfo assetId) s'
      = Ok (info_tuple (f (details s assetId)) (owner_of s assetId))
    ∧ answer (tokenURI assetId) s' = Ok (metadataURI (f (details s assetId)))
    ∧ (∀ other, other ≠ assetId →
         answer (getAssetInfo other) s' = answer (getAssetInfo other) s)
    ∧ _owners s' = _owners s
    ∧ transferHistory s' = transferHistory s
    ∧ verifiedUsers s' = verifiedUsers s
    ∧ _roles s' = _roles s.
Proof.
  intros Hset Hreq Hrole.
  destruct (owner_of s assetId =? 0) eqn:Eex.
  - destruct c; cbn in Hset, Hreq; try discriminate;
      injection Hset as -> <-; injection Hreq as <-;
      cbn [exec dispatch];
      unfold void, setCompliance, setAssetStatus, updateValuation,
        updateMetadata, onlyRole, _checkRole, require_exists;
      unfold_getters; by eval_hyps.
  - apply Z.eqb_neq in Eex as Hex.
    destruct (assignment_exec now sender c assetId f role s Hset Hreq Hrole
                Hex) as (s' & Hrun & Hde & Hown & Hhi & Hve & Hro).
    exists s'. split; [done|].
    rewrite getAssetInfo_answer, tokenURI_answer.
    unfold owner_of, details, ERC721._ownerOf in *. rewrite Hown, Hde, Eex.
    rewrite rd_insert_eq. repeat split; try done.
    intros other Hne. rewrite !getAssetInfo_answer.
    unfold owner_of, details, ERC721._ownerOf. rewrite Hown, Hde.
    by rewrite rd_insert_ne.
Qed.

Lemma assignment_outcome_witness :
  ∃ s',
    exec 2000 deployer (call_setAssetStatus 0 Pending) fixture_active
      = Ok (None, s')
    ∧ answer (getAssetInfo 0) s'
      = Ok (info_tuple (with_status Pending (details fixture_active 0))
              (owner_of fixture_active 0)).
Proof.
  assert (hasRole ADMIN_ROLE (Z.pos deployer) fixture_active = true) as Hrole
    by (vm_compute; reflexivity).
  assert ((owner_of fixture_active 0 =? 0) = false) as E
    by (vm_compute; reflexivity).
  pose proof (assignment_outcome 2000 deployer (call_setAssetStatus 0 Pending)
                0 (with_status Pending) ADMIN_ROLE fixture_active
                eq_refl eq_refl Hrole) as H.
  rewrite E in H. destruct H as (s' & Hrun & Hinfo & _).
  exists s'. split; [exact Hrun | exact Hinfo].
Defined.

(** * From registration to the first transfer *)

Lemma consistent_run_txs s txs : consistent s → consistent (run_txs s txs).
Proof.
  apply (run_txs_keep advances advances_refl advances_trans).
  intros. by eapply dispatch_advances.
Qed.

Lemma assignment_run now sender c assetId f role s :
  assigns c = Some (assetId, f) →
  required_role c = Some role →
  hasRole role (Z.pos sender) s = true →
  owner_of s assetId ≠ 0 →
  let s' := run_tx s (mkTx now sender c) in
  details s' assetId = f (details s assetId)
  ∧ _owners s' = _owners s
  ∧ verifiedUsers s' = verifiedUsers s
  ∧ _roles s' = _roles s.
Proof.
  intros Hset Hreq Hrole Hex.
  destruct (assignment_exec now sender c assetId f role s Hset Hreq Hrole Hex)
    as (s' & Hrun & Hde & Hown & _ & Hve & Hro).
  unfold run_tx. cbn [tx_timestamp tx_sender tx_call]. rewrite Hrun. cbn.
  unfold details. rewrite Hde, rd_insert_eq. done.
Qed.

(** The two switches of an asset.  Between calls, for an asset that
    exists: once a holder of the Compliance role has set the compliance
    flag and a holder of the Admin role has set the status to Active, in
    either order, the owner can transfer the asset to any verified
    recipient other than [address(0)], by [transferFrom] and by
    [transferWithPrice] at any price. *)
Theorem compliance_and_activation_enable_transfers
    s officer admin owner to assetId price t1 t2 t3 txs :
  consistent s →
  hasRole COMPLIANCE_ROLE (Z.pos officer) s = true →
  hasRole ADMIN_ROLE (Z.pos admin) s = true →
  owner_of s assetId = Z.pos owner →
  to ≠ 0 →
  isVerified s to = true →
  txs = [ mkTx t1 officer (call_setCompliance assetId true);
          mkTx t2 admin (call_setAssetStatus assetId Active) ]
  ∨ txs = [ mkTx t1 admin (call_setAssetStatus assetId Active);
            mkTx t2 officer (call_setCompliance assetId true) ] →
  (∃ s', exec t3 owner (call_transferFrom (Z.pos owner) to assetId)
           (run_txs s txs) = Ok (None, s')
         ∧ owner_of s' assetId = to)
  ∧ (∃ s', exec t3 owner
             (call_transferWithPrice (Z.pos owner) to assetId price)
             (run_txs s txs) = Ok (None, s')
           ∧ owner_of s' assetId = to).
Proof.
  intros Hc Hoff Hadm Hown Hto Hver Htxs.
  pose proof (consistent_run_txs s txs Hc) as [Hs2 Hl2].
  assert (owner_of s assetId ≠ 0) as Hex by (by rewrite Hown).
  assert (isCompliant (details (run_txs s txs) assetId) = true
          ∧ status (details (run_txs s txs) assetId) = Active
          ∧ _owners (run_txs s txs) = _owners s
          ∧ verifiedUsers (run_txs s txs) = verifiedUsers s)
    as (Hcom & Hact & Hown2 & Hve2).
  { destruct Htxs as [-> | ->]; cbn [run_txs fold_left].
    - destruct (assignment_run t1 officer (call_setCompliance assetId true)
                  assetId _ _ s eq_refl eq_refl Hoff Hex)
        as (Hd1 & Ho1 & Hv1 & Hr1).
      destruct (assignment_run t2 admin (call_setAssetStatus assetId Active)
                  assetId _ _ (run_tx s (mkTx t1 officer
                                 (call_setCompliance assetId true)))
                  eq_refl eq_refl)
        as (Hd2 & Ho2 & Hv2 & Hr2).
      { unfold hasRole. by rewrite Hr1. }
      { unfold owner_of, ERC721._ownerOf. by rewrite Ho1. }
      rewrite Hd2, Hd1, Ho2, Ho1, Hv2, Hv1. done.
    - destruct (assignment_run t1 admin (call_setAssetStatus assetId Active)
                  assetId _ _ s eq_refl eq_refl Hadm Hex)
        as (Hd1 & Ho1 & Hv1 & Hr1).
      destruct (assignment_run t2 officer (call_setCompliance assetId true)
                  assetId _ _ (run_tx s (mkTx t1 admin
                                 (call_setAssetStatus assetId Active)))
                  eq_refl eq_refl)
        as (Hd2 & Ho2 & Hv2 & Hr2).
      { unfold hasRole. by rewrite Hr1. }
      { unfold owner_of, ERC721._ownerOf. by rewrite Ho1. }
      rewrite Hd2, Hd1, Ho2, Ho1, Hv2, Hv1. done. }
  assert (owner_of (run_txs s txs) assetId = Z.pos owner) as Hown'.
  { unfold owner_of, ERC721._ownerOf in *. by rewrite Hown2. }
  assert (isVerified (run_txs s txs) to = true) as Hver'.
  { unfold isVerified in *. by rewrite Hve2. }
  assert (ERC721._isAuthorized (Z.pos owner) (Z.pos owner) assetId
            (run_txs s txs) = true) as Hauth.
  { unfold ERC721._isAuthorized. by rewrite Z.eqb_refl. }
  split.
  - assert (msg_sender (mkEnv (Z.pos owner) t3) ≠ 0) as Hsender by done.
    pose proof (transferFrom_decides (mkEnv (Z.pos owner) t3) (Z.pos owner)
                  to assetId (run_txs s txs) Hs2 Hsender) as H.
    unfold transferFrom_refusal in H. cbn [msg_sender] in H.
    apply Z.eqb_neq in Hto.
    rewrite Hto, Hown', Hcom, Hact, Hver', Hauth, Z.eqb_refl in H.
    rewrite bool_decide_eq_true_2 in H by done. cbn in H.
    destruct H as (s' & H & Hnew & _). exists s'.
    rewrite exec_transferFrom. unfold void, bind. by rewrite H.
  - destruct (transferWithPrice_succeeds (mkEnv (Z.pos owner) t3)
                (Z.pos owner) to assetId price (run_txs s txs))
      as (s' & H & Hnew); try done.
    { rewrite Hl2. done. }
    exists s'. rewrite exec_transferWithPrice. unfold void, bind.
    by rewrite H.
Qed.

Lemma compliance_and_activation_enable_transfers_witness :
  (∃ s', exec 2000 user1 (call_transferFrom 2 3 0)
           (run_txs fixture_registered
              [ mkTx 1004 deployer (call_setAssetStatus 0 Active);
                mkTx 1005 deployer (call_setCompliance 0 true) ])
         = Ok (None, s')
         ∧ owner_of s' 0 = 3)
  ∧ (∃ s', exec 2000 user1 (call_transferWithPrice 2 3 0 50)
             (run_txs fixture_registered
                [ mkTx 1004 deployer (call_setAssetStatus 0 Active);
                  mkTx 1005 deployer (call_setCompliance 0 true) ])
           = Ok (None, s')
           ∧ owner_of s' 0 = 3).
Proof.
  apply (compliance_and_activation_enable_transfers fixture_registered
           deployer deployer user1 3 0 50 1004 1005 2000).
  - apply reachable_consistent. by eexists _, _, _.
  - vm_compute. reflexivity.
  - vm_compute. reflexivity.
  - vm_compute. reflexivity.
  - done.
  - vm_compute. reflexivity.
  - right. reflexivity.
Defined.

(** * What stays *)

Lemma extends_refl s : extends s s.
Proof. split; [done|]. intros id Hex. done. Qed.

Lemma extends_trans s1 s2 s3 : extends s1 s2 → extends s2 s3 → extends s1 s3.
Proof.
  intros [Hh12 Ha12] [Hh23 Ha23]. split.
  - intros id. etrans; [apply Hh12 | apply Hh23].
  - intros id Hex. destruct (Ha12 id Hex) as (Hex2 & Hd2 & Ht2).
    destruct (Ha23 id Hex2) as (Hex3 & Hd3 & Ht3).
    split; [done|]. split; congruence.
Qed.

Lemma extends_frame s s' :
  _owners s' = _owners s →
  transferHistory s' = transferHistory s →
  assetDetails s' = assetDetails s →
  extends s s'.
Proof.
  intros Hown Hhi Hde.
  split; unfold history, owner_of, details, ERC721._ownerOf;
    rewrite ?Hown, ?Hhi, ?Hde; done.
Qed.

Lemma extends_assign s s' assetId f :
  _owners s' = _owners s →
  transferHistory s' = transferHistory s →
  assetDetails s' = <[assetId := f (details s assetId)]> (assetDetails s) →
  (∀ i, registrationDate (f i) = registrationDate i
        ∧ assetType (f i) = assetType i) →
  extends s s'.
Proof.
  intros Hown Hhi Hde Hf.
  split; unfold history, owner_of, details, ERC721._ownerOf in *;
    rewrite ?Hown, ?Hhi, ?Hde; [done|].
  intros id Hex. split; [done|].
  destruct (decide (assetId = id)) as [->|Hne].
  - rewrite rd_insert_eq. apply Hf.
  - by rewrite rd_insert_ne.
Qed.

Lemma extends_move s s' tokenId to :
  to ≠ 0 →
  _owners s' = <[tokenId := to]> (_owners s) →
  assetDetails s' = assetDetails s →
  (∀ id, history s id `prefix_of` history s' id) →
  extends s s'.
Proof.
  intros Hto Hown Hde Hhi. split; [done|].
  unfold owner_of, details, ERC721._ownerOf. rewrite Hown, Hde.
  intros id Hex. split; [|done].
  destruct (decide (tokenId = id)) as [->|Hne].
  - by rewrite rd_insert_eq.
  - by rewrite rd_insert_ne.
Qed.

Lemma gate_history_prefix now s to tokenId id :
  history s id `prefix_of` rd [] (gate_history now s to tokenId) id.
Proof.
  unfold gate_history. destruct (gate_records s to tokenId); [|done].
  destruct (decide (tokenId = id)) as [->|Hne].
  - rewrite rd_insert_eq. by apply prefix_app_r.
  - by rewrite rd_insert_ne.
Qed.

Lemma update_extends env to tokenId auth s prev s' :
  _update env to tokenId auth s = Ok (prev, s') → to ≠ 0 → extends s s'.
Proof.
  intros Hup Hto.
  apply update_Ok in Hup
    as (_ & _ & _ & Hhi & Hown & _ & _ & _ & _ & Hde & _).
  apply (extends_move s s' tokenId to); try done.
  intros id. unfold history at 2. rewrite Hhi.
  destruct (prev =? 0); [done | apply gate_history_prefix].
Qed.

Lemma transferFrom_extends env from to tokenId s r s' :
  transferFrom env from to tokenId s = Ok (r, s') → extends s s'.
Proof.
  intros H. apply transferFrom_Ok in H as (Hto & _ & Hup).
  by eapply update_extends.
Qed.

Lemma transferWithPrice_extends env from to assetId price s r s' :
  transferWithPrice env from to assetId price s = Ok (r, s') → extends s s'.
Proof.
  unfold transferWithPrice. intros H.
  apply nonReentrant_Ok in H as (_ & s2 & Hbody & ->).
  apply transferWithPrice_body_Ok in Hbody
    as (_ & _ & Hto & _ & _ & _ & _ & Hhi & Hown & _ & _ & _ & _ & Hde & _).
  apply (extends_move s _ assetId to); proj; try done.
  intros id. unfold history at 2. proj. rewrite Hhi.
  destruct (decide (assetId = id)) as [->|Hne].
  - rewrite rd_insert_eq. by apply prefix_app_r.
  - by rewrite rd_insert_ne.
Qed.

Lemma registerAsset_extends env receiver to uri ty v s r s' :
  (∀ s1 r1 s2, receiver s1 = Ok (r1, s2) → extends s1 s2) →
  registerAsset env receiver to uri ty v s = Ok (r, s') →
  extends s s'.
Proof.
  intros Hrcv H.
  apply registerAsset_Ok in H
    as (-> & Hto & s1 & s2 & reply & Hup & Hr & ->).
  pose proof (update_Ok _ _ _ _ _ _ _ Hup) as (Hprev & _).
  apply update_extends in Hup; [|done].
  assert (extends s s2) as [Hh Ha].
  { eapply extends_trans; [|by eapply Hrcv].
    destruct Hup as [Hh Ha]. split; [done|].
    unfold owner_of, details, ERC721._ownerOf in *. proj. done. }
  unfold owner_of, ERC721._ownerOf in Hprev. proj.
  split; unfold history, owner_of, details, ERC721._ownerOf in *; proj;
    [done|].
  intros id Hex. rewrite rd_insert_ne by congruence. by apply Ha.
Qed.

Lemma batchVerifyUsers_loop_details users status s r s' :
  batchVerifyUsers_loop users status s = Ok (r, s') →
  assetDetails s' = assetDetails s ∧ _balances s' = _balances s.
Proof.
  revert s. induction users as [|user rest IH]; intros s H; cbn in H.
  - by inv_run.
  - inv_run.
    match goal with H : batchVerifyUsers_loop _ _ _ = Ok _ |- _ =>
      apply IH in H as (-> & ->) end.
    done.
Qed.

Lemma dispatch_extends now sender receiver c s r s' :
  (∀ s1 r1 s2, receiver s1 = Ok (r1, s2) → extends s1 s2) →
  dispatch (mkEnv (Z.pos sender) now) receiver c s = Ok (r, s') →
  extends s s'.
Proof.
  intros Hrcv H.
  destruct c; cbn [dispatch] in H;
    try (apply void_Ok in H as [a H]).
  - apply bind_Ok in H as (assetId & s1 & H & Hret).
    apply ret_Ok in Hret as [= _ ->].
    by eapply registerAsset_extends.
  - unfold setUserVerification, onlyRole, _checkRole in H. inv_run.
    apply extends_frame; proj; done.
  - unfold batchVerifyUsers, onlyRole, _checkRole in H. inv_run.
    match goal with H : batchVerifyUsers_loop _ _ _ = Ok _ |- _ =>
      pose proof (batchVerifyUsers_loop_same _ _ _ _ _ H) as [? ?];
      apply batchVerifyUsers_loop_details in H as [? ?] end.
    by apply extends_frame.
  - unfold setCompliance, onlyRole, _checkRole, require_exists,
      update_details in H. inv_run.
    eapply extends_assign; proj; done.
  - unfold setAssetStatus, onlyRole, _checkRole, require_exists,
      update_details in H. inv_run.
    eapply extends_assign; proj; done.
  - unfold updateValuation, onlyRole, _checkRole, require_exists,
      update_details in H. inv_run.
    eapply extends_assign; proj; done.
  - unfold updateMetadata, onlyRole, _checkRole, require_exists,
      update_details in H. inv_run.
    eapply extends_assign; proj; done.
  - by eapply transferWithPrice_extends.
  - by eapply transferFrom_extends.
  - unfold safeTransferFrom, ERC721.safeTransferFrom in H.
    apply bind_Ok in H as ([] & s1 & Htr & Hchk).
    apply checkOnERC721Received_Ok in Hchk as [reply Hr].
    eapply extends_trans; [|by eapply Hrcv].
    by eapply (transferFrom_extends (mkEnv (Z.pos sender) now)).
  - unfold ERC721.approve, ERC721._approve, ERC721._requireOwned in H.
    cbn [orb] in H. inv_run; apply extends_frame; proj; done.
  - unfold ERC721.setApprovalForAll, ERC721._setApprovalForAll in H.
    inv_run. apply extends_frame; proj; done.
  - unfold grantRole, _grantRole, onlyRole, _checkRole in H.
    inv_run; first [apply extends_refl | apply extends_frame; proj; done].
  - unfold revokeRole, _revokeRole, onlyRole, _checkRole in H.
    inv_run; first [apply extends_refl | apply extends_frame; proj; done].
  - unfold renounceRole, _revokeRole in H.
    inv_run; first [apply extends_refl | apply extends_frame; proj; done].
  - discriminate.
Qed.

(** Histories are append-only.  From any state, whatever transactions
    run, succeeding or reverting and whatever their receiver hooks call
    back, the history of an asset afterwards starts with its history
    before: no function removes, reorders or rewrites a record. *)
Theorem history_is_append_only s txs assetId :
  history s assetId `prefix_of` history (run_txs s txs) assetId.
Proof.
  assert (extends s (run_txs s txs)) as [Hkept _].
  { apply (run_txs_keep extends extends_refl extends_trans).
    intros. by eapply dispatch_extends. }
  apply Hkept.
Qed.

(** Assets are permanent.  From any state, whatever transactions run, an
    asset that exists keeps existing (no function burns it, and no
    transfer leaves it with [address(0)]), and its registration date and
    its type stay what they were; [Delisted] is a status, not a
    removal. *)
Theorem assets_are_permanent s txs assetId :
  owner_of s assetId ≠ 0 →
  owner_of (run_txs s txs) assetId ≠ 0
  ∧ registrationDate (details (run_txs s txs) assetId)
    = registrationDate (details s assetId)
  ∧ assetType (details (run_txs s txs) assetId) = assetType (details s assetId).
Proof.
  assert (extends s (run_txs s txs)) as [_ Hkept].
  { apply (run_txs_keep extends extends_refl extends_trans).
    intros. by eapply dispatch_extends. }
  apply Hkept.
Qed.

Lemma assets_are_permanent_witness :
  owner_of (run_txs fixture_active
              [ mkTx 2000 deployer (call_setAssetStatus 0 Delisted);
                mkTx 2001 deployer (call_updateMetadata 0 "ipfs://c") ]) 0 ≠ 0
  ∧ registrationDate
      (details (run_txs fixture_active
                  [ mkTx 2000 deployer (call_setAssetStatus 0 Delisted);
                    mkTx 2001 deployer (call_updateMetadata 0 "ipfs://c") ]) 0)
    = registrationDate (details fixture_active 0)
  ∧ assetType
      (details (run_txs fixture_active
                  [ mkTx 2000 deployer (call_setAssetStatus 0 Delisted);
                    mkTx 2001 deployer (call_updateMetadata 0 "ipfs://c") ]) 0)
    = assetType (details fixture_active 0).
Proof.
  apply (assets_are_permanent fixture_active
           [ mkTx 2000 deployer (call_setAssetStatus 0 Delisted);
             mkTx 2001 deployer (call_updateMetadata 0 "ipfs://c") ] 0).
  vm_compute. discriminate.
Defined.

(** * Ownership *)

Lemma owner_of_frame s s' assetId :
  _owners s' = _owners s → owner_of s' assetId = owner_of s assetId.
Proof. intros H. unfold owner_of, ERC721._ownerOf. by rewrite H. Qed.

(** Only a transfer changes an owner.  A successful call leaves the owner
    of an existing asset as it was unless the call, or a call nested in
    it through a receiver hook, is [transferFrom], [safeTransferFrom] or
    [transferWithPrice] of that asset: registrations, assignments,
    verifications, approvals and role changes move nothing.  The same
    holds of the run of a receiver hook. *)
Theorem only_transfers_change_owner :
  (∀ c now sender s r s' assetId,
     ¬ moves c assetId → owner_of s assetId ≠ 0 →
     exec now sender c s = Ok (r, s') →
     owner_of s' assetId = owner_of s assetId)
  ∧ (∀ h now s r s' assetId,
       ¬ hook_moves h assetId → owner_of s assetId ≠ 0 →
       run_hook now h s = Ok (r, s') →
       owner_of s' assetId = owner_of s assetId).
Proof.
  apply Call_Hook_ind; intros.
  all: try match goal with
    | H : exec _ _ _ _ = Ok _ |- _ =>
        cbn [exec dispatch] in H; try (apply void_Ok in H as [? H])
    end.
  - apply bind_Ok in H2 as (id & s0 & H2 & Hret).
    apply ret_Ok in Hret as [= _ ->].
    apply registerAsset_Ok in H2
      as (-> & Hto & s1 & s2 & reply & Hup & Hr & ->).
    apply update_Ok in Hup as (Hprev & _ & _ & _ & Hown & _).
    unfold owner_of, ERC721._ownerOf in Hprev. proj.
    assert (owner_of s1 assetId = owner_of s assetId) as Hs1.
    { unfold owner_of, ERC721._ownerOf in *. rewrite Hown.
      apply rd_insert_ne. congruence. }
    rewrite <- Hs1. rewrite <- Hs1 in H1. cbn [moves] in H0.
    rewrite <- (H now s1 reply s2 assetId) by done.
    apply owner_of_frame; by proj.
  - unfold setUserVerification, onlyRole, _checkRole in H1. inv_run.
    apply owner_of_frame; by proj.
  - unfold batchVerifyUsers, onlyRole, _checkRole in H1. inv_run.
    match goal with H : batchVerifyUsers_loop _ _ _ = Ok _ |- _ =>
      apply batchVerifyUsers_loop_same in H as [? _] end.
    apply owner_of_frame; by proj.
  - unfold setCompliance, onlyRole, _checkRole, require_exists,
      update_details in H1. inv_run. apply owner_of_frame; by proj.
  - unfold setAssetStatus, onlyRole, _checkRole, require_exists,
      update_details in H1. inv_run. apply owner_of_frame; by proj.
  - unfold updateValuation, onlyRole, _checkRole, require_exists,
      update_details in H1. inv_run. apply owner_of_frame; by proj.
  - unfold updateMetadata, onlyRole, _checkRole, require_exists,
      update_details in H1. inv_run. apply owner_of_frame; by proj.
  - unfold transferWithPrice in H1.
    apply nonReentrant_Ok in H1 as (_ & s2 & Hbody & ->).
    apply transferWithPrice_body_Ok in Hbody
      as (_ & _ & _ & _ & _ & _ & _ & _ & Hown & _).
    cbn [moves] in H. unfold owner_of, ERC721._ownerOf. proj.
    rewrite Hown. by apply rd_insert_ne.
  - apply transferFrom_Ok in H1 as (_ & _ & Hup).
    apply update_Ok in Hup as (_ & _ & _ & _ & Hown & _).
    cbn [moves] in H. unfold owner_of, ERC721._ownerOf.
    rewrite Hown. by apply rd_insert_ne.
  - unfold safeTransferFrom, ERC721.safeTransferFrom in H2.
    apply bind_Ok in H2 as ([] & s1 & Htr & Hchk).
    apply checkOnERC721Received_Ok in Hchk as [reply Hr].
    apply (transferFrom_Ok (mkEnv (Z.pos sender) now)) in Htr as (_ & _ & Hup).
    apply update_Ok in Hup as (_ & _ & _ & _ & Hown & _).
    cbn [moves] in H0.
    assert (owner_of s1 assetId = owner_of s assetId) as Hs1.
    { unfold owner_of, ERC721._ownerOf in *. rewrite Hown.
      apply rd_insert_ne. intros ->. apply H0. by left. }
    rewrite <- Hs1. rewrite <- Hs1 in H1.
    apply (H now s1 reply s'); [|done..]. intros Hm. apply H0. by right.
  - unfold ERC721.approve, ERC721._approve, ERC721._requireOwned in H1.
    cbn [orb] in H1. inv_run; apply owner_of_frame; by proj.
  - unfold ERC721.setApprovalForAll, ERC721._setApprovalForAll in H1.
    inv_run. apply owner_of_frame; by proj.
  - unfold grantRole, _grantRole, onlyRole, _checkRole in H1.
    inv_run; apply owner_of_frame; by proj.
  - unfold revokeRole, _revokeRole, onlyRole, _checkRole in H1.
    inv_run; apply owner_of_frame; by proj.
  - unfold renounceRole, _revokeRole in H1.
    inv_run; apply owner_of_frame; by proj.
  - discriminate.
  - by apply ret_Ok in H1 as [= _ ->].
  - by apply ret_Ok in H1 as [= _ ->].
  - by apply ret_Ok in H1 as [= _ ->].
  - cbn [run_hook] in H3. apply bind_Ok in H3 as ([] & s1 & Hcall & Hrest).
    cbn [hook_moves] in H1.
    assert (owner_of s1 assetId = owner_of s assetId) as Hs1.
    { unfold attempt in Hcall.
      destruct (exec now sender c s) as [[r1 s1']|e] eqn:E;
        injection Hcall as <-; [|done].
      eapply H; [|done|exact E]. intros Hm. apply H1. by left. }
    rewrite <- Hs1. rewrite <- Hs1 in H2.
    eapply H0; [|done|exact Hrest]. intros Hm. apply H1. by right.
Qed.

Lemma only_transfers_change_owner_witness :
  owner_of
    (run_tx fixture_active
       (mkTx 2000 deployer
          (call_registerAsset 3 "ipfs://b" "art" 5
             (hook_call user2 (call_approve 2 1) (hook_return true))))) 0
  = owner_of fixture_active 0.
Proof.
  apply (proj1 only_transfers_change_owner
           (call_registerAsset 3 "ipfs://b" "art" 5
              (hook_call user2 (call_approve 2 1) (hook_return true)))
           2000 deployer fixture_active (Some 1)).
  - cbn. intros [[]|[]].
  - vm_compute. discriminate.
  - vm_compute. reflexivity.
Defined.

(** * Counting assets *)

Lemma NoDup_first_ids n : NoDup (first_ids n).
Proof.
  unfold first_ids. apply (NoDup_fmap_2 Z.of_nat), NoDup_seq.
Qed.

Lemma length_first_ids n : 0 ≤ n → Z.of_nat (length (first_ids n)) = n.
Proof.
  intros Hn. unfold first_ids. rewrite length_map, length_seq. lia.
Qed.

Lemma rd_insert `{Countable K} {V : Type} (d : V) (m : gmap K V) k k' v :
  rd d (<[k:=v]> m) k' = if decide (k = k') then v else rd d m k'.
Proof.
  destruct (decide (k = k')) as [->|Hne];
    [apply rd_insert_eq | by apply rd_insert_ne].
Qed.

(** The number of keys of [l] that a map sends to [a], after one key was
    assigned. *)
Lemma filter_insert_length (owners : gmap Z Z) (x v a : Z) (l : list Z) :
  NoDup l →
  Z.of_nat (length (filter (λ y, rd 0 (<[x:=v]> owners) y = a) l)) =
  Z.of_nat (length (filter (λ y, rd 0 owners y = a) l))
  + (if bool_decide (x ∈ l)
     then (if bool_decide (v = a) then 1 else 0)
          - (if bool_decide (rd 0 owners x = a) then 1 else 0)
     else 0).
Proof.
  induction 1 as [|y l Hy Hl IH].
  - rewrite bool_decide_eq_false_2 by apply not_elem_of_nil. done.
  - rewrite !filter_cons, rd_insert.
    destruct (decide (x = y)) as [->|Hne].
    + rewrite (bool_decide_eq_true_2 (y ∈ y :: l)) by by left.
      rewrite (bool_decide_eq_false_2 (y ∈ l)) in IH by done.
      destruct (decide (v = a)) as [Hv|Hv],
        (decide (rd 0 owners y = a)) as [Ho|Ho];
        rewrite ?(bool_decide_eq_true_2 _ Hv), ?(bool_decide_eq_false_2 _ Hv),
          ?(bool_decide_eq_true_2 _ Ho), ?(bool_decide_eq_false_2 _ Ho);
        cbn [length]; lia.
    + assert (bool_decide (x ∈ y :: l) = bool_decide (x ∈ l)) as ->.
      { apply bool_decide_ext. rewrite elem_of_cons.
        split; [intros [?|?]; [congruence | done] | by right]. }
      destruct (decide (rd 0 owners y = a)); cbn [length]; lia.
Qed.

Lemma count_bounded s a :
  0 ≤ _nextTokenId s →
  0 ≤ Z.of_nat (length (owned_by s a)) ≤ _nextTokenId s.
Proof.
  intros Hn. split; [lia|]. unfold owned_by.
  rewrite <- (length_first_ids (_nextTokenId s)) at 2 by done.
  apply inj_le, length_filter.
Qed.

Lemma wrap_small x : 0 ≤ x ≤ MAX_UINT256 → ERC721.wrap x = x.
Proof.
  intros Hx. unfold ERC721.wrap. apply Z.mod_small.
  unfold MAX_UINT256 in Hx. lia.
Qed.

(** * Balances and histories *)

Lemma ERC721_update_balances to tokenId auth s prev s' :
  ERC721._update to tokenId auth s = Ok (prev, s') →
  _balances s' = moved_balances prev to (_balances s).
Proof.
  unfold ERC721._update, ERC721._checkAuthorized, moved_balances.
  intros H. inv_run; proj;
    repeat match goal with
    | E : negb _ = _ |- _ => rewrite <- (negb_involutive (_ =? _)), E
    end; done.
Qed.

Lemma update_balances env to tokenId auth s prev s' :
  _update env to tokenId auth s = Ok (prev, s') →
  _balances s' = moved_balances prev to (_balances s).
Proof.
  unfold _update, push_record. intros H.
  apply bind_Ok in H as (from & s1 & Hfrom & H).
  apply read_Ok in Hfrom as [= -> ->].
  apply bind_Ok in H as ([] & s2 & Hgate & H).
  apply ERC721_update_balances in H. rewrite H. f_equal.
  destruct (negb (ERC721._ownerOf tokenId s =? 0)); by inv_run.
Qed.

Lemma transferWithPrice_balances env from to assetId price s r s' :
  transferWithPrice env from to assetId price s = Ok (r, s') →
  _balances s' = moved_balances from to (_balances s).
Proof.
  unfold transferWithPrice. intros H.
  apply nonReentrant_Ok in H as (_ & s2 & Hbody & ->).
  unfold transferWithPrice_body, push_record in Hbody. inv_run.
  match goal with H : _transfer _ _ _ _ _ = Ok _ |- _ =>
    apply transfer_Ok in H as (_ & _ & _ & Hup) end.
  apply update_balances in Hup. by proj.
Qed.

Lemma linked_snoc h r :
  linked h →
  (∀ r0, last h = Some r0 → tr_to r0 = tr_from r) →
  linked (h ++ [r]).
Proof.
  intros Hh Hlast i r1 r2 H1 H2.
  apply lookup_lt_Some in H2 as Hlt. rewrite length_app in Hlt. cbn in Hlt.
  destruct (decide (S i < length h)%nat) as [Hin|Hout].
  - rewrite lookup_app_l in H1, H2 by lia. by eapply Hh.
  - assert (S i = length h) as Hi by lia.
    rewrite lookup_app_l in H1 by lia.
    rewrite lookup_app_r, Hi, Nat.sub_diag in H2 by lia.
    injection H2 as <-. apply Hlast.
    rewrite last_lookup, <- Hi. done.
Qed.

Lemma audited_frame s s' :
  _owners s' = _owners s →
  _balances s' = _balances s →
  _nextTokenId s' = _nextTokenId s →
  transferHistory s' = transferHistory s →
  audited s → audited s'.
Proof.
  intros Hown Hba Hnx Hhi [H1 H2 H3 H4 H5].
  split; unfold owned_by, history, owner_of, ERC721._ownerOf in *;
    rewrite ?Hown, ?Hba, ?Hnx, ?Hhi; done.
Qed.

(** Moving an existing asset, with at most one record appended that
    names the previous owner and the new one. *)
Lemma audited_move s s' tokenId from to :
  sound s → tracked s → audited s →
  owner_of s tokenId = from → from ≠ 0 → to ≠ 0 →
  _owners s' = <[tokenId := to]> (_owners s) →
  _nextTokenId s' = _nextTokenId s →
  _balances s' = moved_balances from to (_balances s) →
  (∀ other, other ≠ tokenId → history s' other = history s other) →
  history s' tokenId = history s tokenId
  ∨ (∃ r, history s' tokenId = history s tokenId ++ [r]
          ∧ tr_from r = from ∧ tr_to r = to) →
  audited s'.
Proof.
  intros Hs [Ht1 Ht2] [H1 H2 H3 H4 H5] Hfrom Hfrom0 Hto Hown Hnx Hba Hother
    Hhi.
  assert (tokenId ∈ first_ids (_nextTokenId s)) as Hin.
  { apply elem_of_first_ids, (owned_below_next _ Hs). congruence. }
  pose proof (next_nonneg _ Hs) as Hn0.
  assert (∀ a, Z.of_nat (length (owned_by s' a)) =
               Z.of_nat (length (owned_by s a))
               + ((if bool_decide (to = a) then 1 else 0)
                  - (if bool_decide (from = a) then 1 else 0))) as Hcount.
  { intros a. unfold owned_by, owner_of, ERC721._ownerOf in *.
    rewrite Hown, Hnx.
    rewrite (filter_insert_length _ _ _ _ _ (NoDup_first_ids _)).
    by rewrite (bool_decide_eq_true_2 _ Hin), Hfrom. }
  assert (∀ a, 0 ≤ Z.of_nat (length (owned_by s' a)) ≤ MAX_UINT256) as Hbound.
  { intros a. pose proof (count_bounded s' a). rewrite Hnx in *. lia. }
  assert (∀ a, 0 ≤ Z.of_nat (length (owned_by s a)) ≤ MAX_UINT256) as Hbound0.
  { intros a. pose proof (count_bounded s a). lia. }
  assert (1 ≤ Z.of_nat (length (owned_by s from))) as Hone.
  { assert (tokenId ∈ owned_by s from) as Hmem
      by (by apply list_elem_of_filter).
    destruct (owned_by s from); [by apply elem_of_nil in Hmem | cbn; lia]. }
  split.
  - by rewrite Hnx.
  - intros id Hid. rewrite Hnx in Hid. unfold owner_of, ERC721._ownerOf in *.
    rewrite Hown, rd_insert. destruct (decide (tokenId = id)); [done|].
    by apply H2.
  - intros a Ha. rewrite Hba, Hcount. unfold moved_balances.
    apply Z.eqb_neq in Hfrom0 as ->. apply Z.eqb_neq in Hto as ->.
    specialize (Hbound a). rewrite Hcount in Hbound.
    pose proof (Hbound0 a) as Hb0.
    rewrite !rd_insert.
    destruct (decide (to = a)) as [->|Hna];
      destruct (decide (from = a)) as [->|Hnb];
      rewrite ?(bool_decide_eq_true_2 (a = a)) in * by done;
      rewrite ?(bool_decide_eq_false_2 (to = a)) in * by done;
      rewrite ?(bool_decide_eq_false_2 (from = a)) in * by done;
      rewrite ?rd_insert_eq, ?rd_insert_ne by done;
      rewrite ?H3 by done.
    + rewrite (wrap_small (_ - 1)) by lia. rewrite wrap_small by lia. lia.
    + rewrite wrap_small by lia. lia.
    + rewrite wrap_small by lia. lia.
    + lia.
  - intros id. destruct (decide (id = tokenId)) as [->|Hne].
    + destruct Hhi as [-> | (r & -> & Hr & _)]; [apply H4|].
      apply linked_snoc; [apply H4|].
      intros r0 Hr0. rewrite (Ht2 _ _ Hr0). congruence.
    + rewrite Hother by done. apply H4.
  - intros id r. destruct (decide (id = tokenId)) as [->|Hne].
    + destruct Hhi as [-> | (r' & -> & Hr & Hr')]; [apply H5|].
      rewrite elem_of_app, list_elem_of_singleton.
      intros [Hin'| ->]; [by eapply H5 | split; congruence].
    + rewrite Hother by done. apply H5.
Qed.

(** Minting the asset that the counter just passed. *)
Lemma audited_mint s s' to :
  sound s → audited s →
  to ≠ 0 → _nextTokenId s ≠ MAX_UINT256 →
  _owners s' = <[_nextTokenId s := to]> (_owners s) →
  _nextTokenId s' = _nextTokenId s + 1 →
  _balances s' = moved_balances 0 to (_balances s) →
  transferHistory s' = transferHistory s →
  audited s'.
Proof.
  intros Hs [H1 H2 H3 H4 H5] Hto Hmax Hown Hnx Hba Hhi.
  pose proof (next_nonneg _ Hs) as Hn0.
  pose proof (next_unowned s Hs) as Hun.
  assert (∀ a, Z.of_nat (length (owned_by s' a)) =
               Z.of_nat (length (owned_by s a))
               + (if bool_decide (to = a) then 1 else 0)) as Hcount.
  { intros a. unfold owned_by, owner_of, ERC721._ownerOf in *.
    rewrite Hown, Hnx, first_ids_succ, filter_app, length_app by done.
    rewrite Nat2Z.inj_add.
    rewrite (filter_insert_length _ _ _ _ _ (NoDup_first_ids _)).
    rewrite (bool_decide_eq_false_2 (_ ∈ _)).
    2: { rewrite elem_of_first_ids. lia. }
    rewrite filter_cons, filter_nil, rd_insert_eq.
    destruct (decide (to = a)) as [Ha|Ha];
      rewrite ?(bool_decide_eq_true_2 _ Ha), ?(bool_decide_eq_false_2 _ Ha);
      cbn [length]; lia. }
  split.
  - rewrite Hnx. lia.
  - intros id Hid. rewrite Hnx in Hid. unfold owner_of, ERC721._ownerOf in *.
    rewrite Hown, rd_insert. destruct (decide (_nextTokenId s = id)); [done|].
    apply H2. lia.
  - intros a Ha. rewrite Hba, Hcount. unfold moved_balances.
    cbn [Z.eqb]. apply Z.eqb_neq in Hto as ->.
    pose proof (count_bounded s' a) as Hb. rewrite Hnx, Hcount in Hb.
    rewrite rd_insert.
    destruct (decide (to = a)) as [->|Hna].
    + rewrite (bool_decide_eq_true_2 (a = a)) in * by done.
      rewrite H3 by done. rewrite wrap_small by lia. done.
    + rewrite (bool_decide_eq_false_2 (to = a)) by done.
      rewrite H3 by done. lia.
  - intros id. unfold history in *. rewrite Hhi. apply H4.
  - intros id r. unfold history in *. rewrite Hhi. apply H5.
Qed.

Lemma audits_refl s : audits s s.
Proof. split; [apply tracks_refl | done]. Qed.

Lemma audits_trans s1 s2 s3 : audits s1 s2 → audits s2 s3 → audits s1 s3.
Proof.
  intros [Ht12 Ha12] [Ht23 Ha23]. split; [by eapply tracks_trans|].
  intros Hc Ht Ha. destruct Ht12 as [Hadv Htr].
  apply Ha23; [by apply Hadv | by apply Htr | by apply Ha12].
Qed.

(** The gate on an existing asset keeps the books. *)
Lemma update_existing_audited env to tokenId auth s prev s' :
  _update env to tokenId auth s = Ok (prev, s') →
  prev ≠ 0 → to ≠ 0 →
  sound s → tracked s → audited s → audited s'.
Proof.
  intros Hup Hprev Hto Hs Ht Ha.
  pose proof (update_balances _ _ _ _ _ _ _ Hup) as Hba.
  apply update_Ok in Hup
    as (-> & _ & _ & Hhi & Hown & _ & _ & _ & _ & _ & _ & Hnx & _).
  apply Z.eqb_neq in Hprev as Hprev'. rewrite Hprev' in Hhi.
  unfold gate_history in Hhi.
  apply (audited_move s s' tokenId (owner_of s tokenId) to); try done.
  - intros other Hne. unfold history at 1. rewrite Hhi.
    destruct (gate_records s to tokenId); [|done].
    by rewrite rd_insert_ne.
  - unfold history at 1 3. rewrite Hhi.
    destruct (gate_records s to tokenId); [|by left].
    right. eexists. rewrite rd_insert_eq. by split.
Qed.

Lemma transferFrom_audits env from to tokenId s r s' :
  msg_sender env ≠ 0 →
  transferFrom env from to tokenId s = Ok (r, s') → audits s s'.
Proof.
  intros Hsender H. split; [by eapply transferFrom_tracks|].
  intros [Hs Hl] Ht Ha.
  apply transferFrom_Ok in H as (Hto & -> & Hup).
  pose proof (update_Ok _ _ _ _ _ _ _ Hup) as (_ & Hauth & _).
  assert (owner_of s tokenId ≠ 0) as Hex.
  { intros Hun. specialize (Hauth Hsender). rewrite Hun in Hauth.
    by rewrite unowned_not_authorized in Hauth. }
  by eapply update_existing_audited.
Qed.

Lemma transferWithPrice_audits env from to assetId price s r s' :
  transferWithPrice env from to assetId price s = Ok (r, s') → audits s s'.
Proof.
  intros H. split; [by eapply transferWithPrice_tracks|].
  intros [Hs Hl] Ht Ha.
  pose proof (transferWithPrice_balances _ _ _ _ _ _ _ _ H) as Hba.
  unfold transferWithPrice in H.
  apply nonReentrant_Ok in H as (_ & s2 & Hbody & ->).
  apply transferWithPrice_body_Ok in Hbody
    as (Hfrom & Hfrom0 & Hto & _ & _ & _ & _ & Hhi & Hown & _ & _ & _ & _ & _
        & _ & Hnx & _).
  unfold owner_of, history, ERC721._ownerOf in *. proj.
  apply (audited_move s _ assetId from to); proj; try done.
  - intros other Hne. unfold history. proj. by rewrite Hhi, rd_insert_ne.
  - right. eexists. unfold history. proj. rewrite Hhi, rd_insert_eq.
    by split.
Qed.

Lemma safeTransferFrom_audits env receiver from to tokenId s r s' :
  msg_sender env ≠ 0 →
  (∀ s1 r1 s2, receiver s1 = Ok (r1, s2) → audits s1 s2) →
  safeTransferFrom env receiver from to tokenId s = Ok (r, s') →
  audits s s'.
Proof.
  unfold safeTransferFrom, ERC721.safeTransferFrom. intros Hsender Hrcv H.
  apply bind_Ok in H as ([] & s1 & Htr & Hchk).
  apply checkOnERC721Received_Ok in Hchk as [reply Hr].
  eapply audits_trans; [|by eapply Hrcv].
  by eapply (transferFrom_audits env).
Qed.

Lemma registerAsset_below_max env receiver to uri ty v s r s' :
  registerAsset env receiver to uri ty v s = Ok (r, s') →
  _nextTokenId s ≠ MAX_UINT256.
Proof.
  unfold registerAsset, onlyRole, _checkRole, _nextTokenId_postincrement.
  intros H. inv_run; by bools.
Qed.

Lemma registerAsset_audits env receiver to uri ty v s r s' :
  (∀ s1 r1 s2, receiver s1 = Ok (r1, s2) → audits s1 s2) →
  registerAsset env receiver to uri ty v s = Ok (r, s') →
  audits s s'.
Proof.
  intros Hrcv H.
  assert (∀ s1 r1 s2, receiver s1 = Ok (r1, s2) → tracks s1 s2) as Hrcv'.
  { intros s1 r1 s2 Hr. by destruct (Hrcv _ _ _ Hr). }
  split; [by eapply registerAsset_tracks|].
  intros [Hs Hl] [Ht1 Ht2] Ha.
  pose proof (registerAsset_below_max _ _ _ _ _ _ _ _ _ H) as Hmax.
  apply registerAsset_Ok in H
    as (-> & Hto & s1 & s2 & reply & Hup & Hr & ->).
  destruct (update_mint_sound _ _ _ _ Hup Hto Hs) as (Hs1 & Hn1 & Hst1).
  pose proof (update_balances _ _ _ _ _ _ _ Hup) as Hba.
  apply update_Ok in Hup as (Hprev & _ & _ & Hhi & Hown & _).
  cbn [Z.eqb] in Hhi. proj.
  assert (tracked s1) as Htr1.
  { split; unfold history, owner_of, ERC721._ownerOf in *; proj;
      rewrite Hown, Hhi.
    - intros id. destruct (decide (_nextTokenId s = id)) as [<-|Hne].
      + by rewrite rd_insert_eq.
      + rewrite rd_insert_ne by done. apply Ht1.
    - intros id r0. destruct (decide (_nextTokenId s = id)) as [<-|Hne].
      + rewrite Ht1 by done. done.
      + rewrite rd_insert_ne by done. apply Ht2. }
  assert (audited s1) as Ha1 by (by apply (audited_mint s s1 to)).
  destruct (Hrcv _ _ _ Hr) as [_ Ha2].
  eapply audited_frame; [..|apply Ha2]; proj; try done.
  split; [done | congruence].
Qed.

(** Every function keeps the books, if the receiver hook does. *)
Lemma dispatch_audits now sender receiver c s r s' :
  (∀ s1 r1 s2, receiver s1 = Ok (r1, s2) → audits s1 s2) →
  dispatch (mkEnv (Z.pos sender) now) receiver c s = Ok (r, s') →
  audits s s'.
Proof.
  intros Hrcv H.
  assert (∀ s1 r1 s2, receiver s1 = Ok (r1, s2) → tracks s1 s2) as Hrcv'.
  { intros s1 r1 s2 Hr. by destruct (Hrcv _ _ _ Hr). }
  split; [by eapply dispatch_tracks|].
  destruct c; cbn [dispatch] in H;
    try (apply void_Ok in H as [a H]).
  - apply bind_Ok in H as (assetId & s1 & H & Hret).
    apply ret_Ok in Hret as [= _ ->].
    by eapply registerAsset_audits.
  - unfold setUserVerification, onlyRole, _checkRole in H. inv_run.
    intros _ _. apply audited_frame; proj; done.
  - unfold batchVerifyUsers, onlyRole, _checkRole in H. inv_run.
    match goal with H : batchVerifyUsers_loop _ _ _ = Ok _ |- _ =>
      pose proof (batchVerifyUsers_loop_same _ _ _ _ _ H) as [? ?];
      pose proof (batchVerifyUsers_loop_details _ _ _ _ _ H) as [? ?];
      apply batchVerifyUsers_loop_Ok in H as (_ & ? & _) end.
    intros _ _. by apply audited_frame.
  - unfold setCompliance, onlyRole, _checkRole, require_exists,
      update_details in H. inv_run.
    intros _ _. apply audited_frame; proj; done.
  - unfold setAssetStatus, onlyRole, _checkRole, require_exists,
      update_details in H. inv_run.
    intros _ _. apply audited_frame; proj; done.
  - unfold updateValuation, onlyRole, _checkRole, require_exists,
      update_details in H. inv_run.
    intros _ _. apply audited_frame; proj; done.
  - unfold updateMetadata, onlyRole, _checkRole, require_exists,
      update_details in H. inv_run.
    intros _ _. apply audited_frame; proj; done.
  - by eapply transferWithPrice_audits.
  - by eapply (transferFrom_audits (mkEnv (Z.pos sender) now)).
  - by eapply (safeTransferFrom_audits (mkEnv (Z.pos sender) now)).
  - unfold ERC721.approve, ERC721._approve, ERC721._requireOwned in H.
    cbn [orb] in H. inv_run; intros _ _; apply audited_frame; proj; done.
  - unfold ERC721.setApprovalForAll, ERC721._setApprovalForAll in H.
    inv_run. intros _ _. apply audited_frame; proj; done.
  - unfold grantRole, _grantRole, onlyRole, _checkRole in H.
    inv_run; intros _ _; first [done | apply audited_frame; proj; done].
  - unfold revokeRole, _revokeRole, onlyRole, _checkRole in H.
    inv_run; intros _ _; first [done | apply audited_frame; proj; done].
  - unfold renounceRole, _revokeRole in H.
    inv_run; intros _ _; first [done | apply audited_frame; proj; done].
  - discriminate.
Qed.

Lemma audited_deploy now d : audited (deploy now d).
Proof.
  rewrite deploy_state.
  split; unfold owned_by, history, owner_of, ERC721._ownerOf; proj.
  - done.
  - intros id. lia.
  - intros a _. by rewrite rd_empty.
  - intros id. rewrite rd_empty. intros i r1 r2 Hr1. done.
  - intros id r. rewrite rd_empty. by intros Hin%elem_of_nil.
Qed.

Lemma reachable_audited s : reachable s → audited s.
Proof.
  intros (now & d & txs & ->).
  apply (run_txs_keep audits audits_refl audits_trans).
  - intros. by eapply dispatch_audits.
  - apply consistent_deploy.
  - apply tracked_deploy.
  - apply audited_deploy.
Qed.

(** * Enumeration of an owner's assets *)

(** The loop, entered with the first [length found] slots of the array
    filled and as many assets of the owner still to come as slots are
    left, fills the array and returns it. *)
Lemma getAssetsByOwner_loop_fills s owner (balance : nat) ids found :
  (length found + length (filter (λ id, owner_of s id = owner) ids)
   = balance)%nat →
  getAssetsByOwner_loop s owner (Z.of_nat balance) ids
    (Z.of_nat (length found))
    (found ++ replicate (balance - length found) 0)
  = inr (found ++ filter (λ id, owner_of s id = owner) ids).
Proof.
  revert found. induction ids as [|i rest IH]; intros found Hlen.
  - cbn in *. replace (balance - length found)%nat with 0%nat by lia.
    done.
  - cbn [getAssetsByOwner_loop]. rewrite filter_cons in Hlen |- *.
    fold (owner_of s i).
    destruct (decide (owner_of s i = owner)) as [Hi|Hi].
    + apply Z.eqb_eq in Hi as ->. cbn [length] in Hlen.
      assert ((Z.of_nat (length found)
               <? Z.of_nat (length (found
                                    ++ replicate (balance - length found) 0)))
              = true) as ->.
      { apply Z.ltb_lt. rewrite length_app, length_replicate. lia. }
      assert (<[Z.to_nat (Z.of_nat (length found)) := i]>
                (found ++ replicate (balance - length found) 0)
              = (found ++ [i])
                ++ replicate (balance - length (found ++ [i])) 0) as ->.
      { rewrite Nat2Z.id, length_app. cbn [length].
        replace (balance - length found)%nat
          with (S (balance - (length found + 1)))%nat by lia.
        rewrite replicate_S.
        rewrite <- (Nat.add_0_r (length found)) at 1.
        rewrite insert_app_r. cbn. by rewrite <- app_assoc. }
      assert (Z.of_nat (length found) + 1 = Z.of_nat (length (found ++ [i])))
        as -> by (rewrite length_app; cbn; lia).
      destruct (Z.eqb_spec (Z.of_nat (length (found ++ [i])))
                  (Z.of_nat balance)) as [Hfull|Hmore].
      * rewrite length_app in Hfull. cbn in Hfull.
        replace (balance - length (found ++ [i]))%nat with 0%nat
          by (rewrite length_app; cbn; lia).
        assert (filter (λ id, owner_of s id = owner) rest = []) as ->
          by (apply length_zero_iff_nil; lia).
        cbn. by rewrite app_nil_r.
      * rewrite IH by (rewrite length_app; cbn; lia).
        by rewrite <- app_assoc.
    + apply Z.eqb_neq in Hi as ->. by apply IH.
Qed.

(** [getAssetsByOwner] lists the assets of an account.  In every state
    the contract can reach, for an owner other than [address(0)] the
    function returns the identifiers of exactly the assets that the
    account owns, each once, in increasing order, and [balanceOf] returns
    their number, so the array is filled to its last slot and the write
    [ownedAssets[index]] never goes past its end; for [address(0)] both
    revert with [ERC721InvalidOwner]. *)
Theorem getAssetsByOwner_lists_assets s owner :
  reachable s →
  getAssetsByOwner owner s =
    (if owner =? 0 then inl (ERC721InvalidOwner 0)
     else inr (owned_by s owner))
  ∧ balanceOf owner s =
    (if owner =? 0 then inl (ERC721InvalidOwner 0)
     else inr (Z.of_nat (length (owned_by s owner))))
  ∧ (owner ≠ 0 → ∀ id, id ∈ owned_by s owner ↔ owner_of s id = owner).
Proof.
  intros Hreach. pose proof (reachable_audited _ Hreach) as [_ _ H3 _ _].
  pose proof (reachable_consistent _ Hreach) as [[_ H2 _ _ _] _].
  assert (getAssetsByOwner owner s =
            (if owner =? 0 then inl (ERC721InvalidOwner 0)
             else inr (owned_by s owner))
          ∧ balanceOf owner s =
            (if owner =? 0 then inl (ERC721InvalidOwner 0)
             else inr (Z.of_nat (length (owned_by s owner))))) as [Hget Hbal].
  { unfold getAssetsByOwner, balanceOf.
    destruct (owner =? 0) eqn:E0; [done|]. apply Z.eqb_neq in E0.
    rewrite H3 by done. split; [|done]. rewrite Nat2Z.id.
    pose proof (getAssetsByOwner_loop_fills s owner
                  (length (owned_by s owner)) (first_ids (_nextTokenId s)) []
                  eq_refl) as H.
    cbn [length app] in H. by rewrite Nat.sub_0_r in H. }
  split; [done|]. split; [done|].
  intros Hne id. unfold owned_by.
  rewrite list_elem_of_filter, elem_of_first_ids.
  split; [by intros [? _]|]. intros Hid. split; [done|].
  apply H2. congruence.
Qed.

Lemma getAssetsByOwner_lists_assets_witness :
  getAssetsByOwner 2 fixture_active =
    (if 2 =? 0 then inl (ERC721InvalidOwner 0)
     else inr (owned_by fixture_active 2)).
Proof.
  exact (proj1 (getAssetsByOwner_lists_assets fixture_active 2
                  reachable_fixture_active)).
Defined.

(** * Assets and identifiers *)

(** The assets are the identifiers below the counter.  In every state
    the contract can reach, an identifier has an owner exactly when it is
    at least 0 and below [_nextTokenId]; for such an identifier
    [getAssetInfo], [getTransferHistory] and [tokenURI] return the stored
    details with the owner, the stored history and the stored locator,
    and for every other identifier the three revert with "Asset does not
    exist". *)
Theorem assets_are_the_ids_below_the_counter s assetId :
  reachable s →
  (owner_of s assetId ≠ 0 ↔ 0 ≤ assetId < _nextTokenId s)
  ∧ if bool_decide (0 ≤ assetId < _nextTokenId s)
    then answer (getAssetInfo assetId) s
           = Ok (info_tuple (details s assetId) (owner_of s assetId))
         ∧ answer (getTransferHistory assetId) s = Ok (history s assetId)
         ∧ answer (tokenURI assetId) s = Ok (metadataURI (details s assetId))
    else answer (getAssetInfo assetId) s = Revert AssetNotFound
         ∧ answer (getTransferHistory assetId) s = Revert AssetNotFound
         ∧ answer (tokenURI assetId) s = Revert AssetNotFound.
Proof.
  intros Hreach.
  pose proof (reachable_consistent _ Hreach) as [[_ H2 _ _ _] _].
  pose proof (reachable_audited _ Hreach) as [_ H2' _ _ _].
  split; [split; [apply H2 | apply H2']|].
  rewrite getAssetInfo_answer, getTransferHistory_answer, tokenURI_answer.
  case_bool_decide as Hid.
  - apply H2', Z.eqb_neq in Hid as ->. done.
  - destruct (owner_of s assetId =? 0) eqn:E; [done|].
    apply Z.eqb_neq, H2 in E. done.
Qed.

Lemma assets_are_the_ids_below_the_counter_witness :
  owner_of fixture_active 0 ≠ 0 ↔ 0 ≤ 0 < _nextTokenId fixture_active.
Proof.
  exact (proj1 (assets_are_the_ids_below_the_counter fixture_active 0
                  reachable_fixture_active)).
Defined.

(** * Provenance *)

(** A history is a chain of custody.  In every state the contract can
    reach, each record of an asset's history starts from the account that
    the record before it went to, no record names [address(0)], the last
    record goes to the current owner, and an identifier that is not an
    asset has no history. *)
Theorem history_is_a_chain s assetId :
  reachable s →
  linked (history s assetId)
  ∧ (∀ r, r ∈ history s assetId → tr_from r ≠ 0 ∧ tr_to r ≠ 0)
  ∧ (∀ r, last (history s assetId) = Some r → tr_to r = owner_of s assetId)
  ∧ (owner_of s assetId = 0 → history s assetId = []).
Proof.
  intros Hreach.
  pose proof (reachable_tracked _ Hreach) as [Ht1 Ht2].
  pose proof (reachable_audited _ Hreach) as [_ _ _ H4 H5].
  repeat split; try done.
  - by eapply H5.
  - by eapply H5.
  - apply Ht2.
  - apply Ht1.
Qed.

Lemma history_is_a_chain_witness :
  linked (history fixture_transferred 0)
  ∧ (∀ r, r ∈ history fixture_transferred 0 → tr_from r ≠ 0 ∧ tr_to r ≠ 0)
  ∧ (∀ r, last (history fixture_transferred 0) = Some r →
       tr_to r = owner_of fixture_transferred 0)
  ∧ (owner_of fixture_transferred 0 = 0 → history fixture_transferred 0 = []).
Proof.
  apply (history_is_a_chain fixture_transferred 0).
  apply reachable_run_tx, reachable_fixture_active.
Defined.

(** * Verification of users *)

(** A batch is the single verifications in order.  Called by a holder of
    the Compliance role, [batchVerifyUsers] on a list does what
    [setUserVerification] does when called for each account of the list
    in turn: the same storage and the same events, one [UserVerified] per
    account.  A single [setUserVerification] succeeds, sets the flag of
    that account, leaves every other flag alone and logs one event. *)
Theorem batch_is_repeated_single_verification env users status s :
  hasRole COMPLIANCE_ROLE (msg_sender env) s = true →
  batchVerifyUsers env users status s
  = foldr (λ user rest, setUserVerification env user status;; rest)
      (ret tt) users s
  ∧ ∀ user, ∃ s',
      setUserVerification env user status s = Ok (tt, s')
      ∧ isVerified s' user = status
      ∧ (∀ other, other ≠ user → isVerified s' other = isVerified s other)
      ∧ events s' = events s ++ [UserVerified user status].
Proof.
  intros Hrole. split.
  - unfold batchVerifyUsers, onlyRole, _checkRole. eval_hyps.
    revert s Hrole. induction users as [|user rest IH]; intros s Hrole;
      [done|].
    cbn [foldr batchVerifyUsers_loop].
    unfold setUserVerification at 1, onlyRole, _checkRole. eval_hyps.
    by apply IH.
  - intros user. unfold setUserVerification, onlyRole, _checkRole.
    eval_hyps. eexists. split; [reflexivity|]. unfold isVerified. proj.
    rewrite rd_insert_eq. repeat split; try done.
    intros other Hne. by rewrite rd_insert_ne.
Qed.

Lemma batch_is_repeated_single_verification_witness :
  batchVerifyUsers (mkEnv 1 2000) [2; 3] true fixture_deployed
  = foldr (λ user rest, setUserVerification (mkEnv 1 2000) user true;; rest)
      (ret tt) [2; 3] fixture_deployed.
Proof.
  apply (proj1 (batch_is_repeated_single_verification (mkEnv 1 2000) [2; 3]
                  true fixture_deployed eq_refl)).
Defined.

(** Verification is asked of the recipient only.  Between calls, when a
    holder of the Compliance role withdraws the verification of the owner
    of a compliant, Active asset, the account stays the owner, and it can
    still transfer the asset to any other verified recipient: no function
    looks at the verification of the owner or of the caller. *)
Theorem unverified_owner_keeps_and_sends
    s officer owner to assetId t1 t2 :
  consistent s →
  hasRole COMPLIANCE_ROLE (Z.pos officer) s = true →
  owner_of s assetId = Z.pos owner →
  isCompliant (details s assetId) = true →
  status (details s assetId) = Active →
  to ≠ 0 → to ≠ Z.pos owner →
  isVerified s to = true →
  let s1 := run_tx s (mkTx t1 officer
                        (call_setUserVerification (Z.pos owner) false)) in
  isVerified s1 (Z.pos owner) = false
  ∧ owner_of s1 assetId = Z.pos owner
  ∧ ∃ s2, exec t2 owner (call_transferFrom (Z.pos owner) to assetId) s1
            = Ok (None, s2)
          ∧ owner_of s2 assetId = to.
Proof.
  intros Hc Hrole Hown Hcom Hact Hto Hne Hver s1.
  assert (s1 = log_event (UserVerified (Z.pos owner) false)
                 (set_verifiedUsers <[Z.pos owner := false]> s)) as Hs1.
  { unfold s1, run_tx. cbn [tx_timestamp tx_sender tx_call exec dispatch].
    unfold void, setUserVerification, onlyRole, _checkRole.
    by eval_hyps. }
  pose proof (consistent_run_txs s
                [mkTx t1 officer (call_setUserVerification (Z.pos owner) false)]
                Hc) as [Hsound _].
  cbn [run_txs fold_left] in Hsound. fold s1 in Hsound. clearbody s1.
  subst s1.
  unfold isVerified, owner_of, details, ERC721._ownerOf in *. proj.
  rewrite rd_insert_eq. split; [done|]. split; [done|].
  assert (msg_sender (mkEnv (Z.pos owner) t2) ≠ 0) as Hsender by done.
  pose proof (transferFrom_decides (mkEnv (Z.pos owner) t2) (Z.pos owner) to
                assetId _ Hsound Hsender) as H.
  unfold transferFrom_refusal, isVerified, owner_of, details,
    ERC721._isAuthorized, ERC721._ownerOf in H.
  cbn [msg_sender] in H. proj.
  apply Z.eqb_neq in Hto.
  rewrite Hto, Hown, Hcom, Hact, Z.eqb_refl in H.
  rewrite rd_insert_ne, Hver in H by done.
  rewrite bool_decide_eq_true_2 in H by done. cbn in H.
  destruct H as (s2 & H & Hnew & _). exists s2.
  rewrite exec_transferFrom. unfold void, bind. rewrite H.
  split; [done|]. exact Hnew.
Qed.

Lemma unverified_owner_keeps_and_sends_witness :
  let s1 := run_tx fixture_active
              (mkTx 2000 deployer (call_setUserVerification 2 false)) in
  isVerified s1 2 = false
  ∧ owner_of s1 0 = 2
  ∧ ∃ s2, exec 2001 user1 (call_transferFrom 2 3 0) s1 = Ok (None, s2)
          ∧ owner_of s2 0 = 3.
Proof.
  apply (unverified_owner_keeps_and_sends fixture_active deployer user1 3 0
           2000 2001).
  - apply reachable_consistent, reachable_fixture_active.
  - vm_compute. reflexivity.
  - vm_compute. reflexivity.
  - vm_compute. reflexivity.
  - vm_compute. reflexivity.
  - done.
  - done.
  - vm_compute. reflexivity.
Defined.

(** * Events *)

(** What the asset-moving functions log.  A successful [transferWithPrice]
    logs [Transfer] and then [AssetTransferred] with the price; a
    successful [transferFrom] logs [Transfer] alone, so a plain transfer
    is not announced by [AssetTransferred]; a successful registration to
    an account without code logs the mint, [Transfer] from [address(0)],
    and then [AssetRegistered].  Nothing else is added to the log. *)
Theorem moves_log_their_events now sender s :
  (∀ from to assetId price r s',
     exec now sender (call_transferWithPrice from to assetId price) s
       = Ok (r, s') →
     events s' = events s ++ [Transfer from to assetId;
                              AssetTransferred from to assetId price])
  ∧ (∀ from to tokenId r s',
       exec now sender (call_transferFrom from to tokenId) s = Ok (r, s') →
       events s' = events s ++ [Transfer from to tokenId])
  ∧ (∀ to uri ty v r s',
       exec now sender (call_registerAsset to uri ty v hook_none) s
         = Ok (r, s') →
       events s' = events s ++ [Transfer 0 to (_nextTokenId s);
                                AssetRegistered to (_nextTokenId s) ty uri v]).
Proof.
  split; [|split].
  - intros from to assetId price r s' H.
    rewrite exec_transferWithPrice in H. apply void_Ok in H as [a H].
    unfold transferWithPrice in H.
    apply nonReentrant_Ok in H as (_ & s2 & Hbody & ->).
    apply transferWithPrice_body_Ok in Hbody
      as (_ & _ & _ & _ & _ & _ & _ & _ & _ & Hev & _).
    by proj.
  - intros from to tokenId r s' H.
    rewrite exec_transferFrom in H. apply void_Ok in H as [a H].
    apply transferFrom_Ok in H as (_ & _ & Hup).
    by apply update_Ok in Hup as (_ & _ & _ & _ & _ & Hev & _).
  - intros to uri ty v r s' H.
    rewrite exec_registerAsset in H.
    apply bind_Ok in H as (id & s0 & H & Hret).
    apply ret_Ok in Hret as [= -> ->].
    apply registerAsset_Ok in H
      as (-> & Hto & s1 & s2 & reply & Hup & Hr & ->).
    cbn [run_hook] in Hr. apply ret_Ok in Hr as [= _ <-].
    apply update_Ok in Hup as (_ & _ & _ & _ & _ & Hev & _).
    proj. by rewrite Hev, <- app_assoc.
Qed.

Lemma moves_log_their_events_witness :
  events fixture_transferred
  = events fixture_active ++ [Transfer 2 3 0].
Proof.
  apply (proj1 (proj2 (moves_log_their_events 2000 user1 fixture_active))
           2 3 0 None).
  vm_compute. reflexivity.
Defined.
